(** * System monitor: health scoring and the sampling loop

    A shallow embedding of the scoring and sampling core of
    [system_monitor.py] ([SystemMonitor.get_system_health_score],
    [SystemMonitor.get_recommendations], [SystemMonitor.monitor_system])
    together with the properties the specification states about it.

    Conventions of the embedding:
    - a Python [float] is an IEEE 754 binary64 value, Rocq's primitive
      [float]; Python's [x > c] is [c <? x];
    - a Python [int] is a [Z];
    - a Python [str] is a [string], [a in b] on strings is [str_in a b];
    - the dict returned by the scorer is a [gmap string pyval], so that the
      set of keys of each return path is part of the model;
    - a value that may be [None] is an [option]. *)

From Stdlib Require Import ZArith String List Floats Bool Lia.
From Stdlib Require Import Sorted Permutation.
From stdpp Require Import base gmap strings pretty sorting.

Local Open Scope string_scope.
Local Open Scope list_scope.
Local Open Scope Z_scope.

(** ** Python floats: comparison *)

Module PyFloat.

(** [x > y] on floats. *)
Definition gtb (x y : float) : bool := PrimFloat.ltb y x.

(** Truth value of a float: every float but [0.0] and [-0.0] is true
    (a NaN is true). *)
Definition truthy (x : float) : bool := negb (PrimFloat.eqb x 0%float).

End PyFloat.

(** ** Python strings: the [in] operator *)

(** [str_in needle hay] is Python's [needle in hay]: [needle] occurs in [hay]
    as a contiguous, case-sensitive substring. *)
Fixpoint str_in (needle hay : string) : bool :=
  String.prefix needle hay
  || match hay with
     | EmptyString => false
     | String _ rest => str_in needle rest
     end.

(** ** Data model *)

(** The [PerformanceMetrics] dataclass. *)
Record PerformanceMetrics : Type := mkMetrics {
  cpu_percent : float;
  memory_percent : float;
  disk_percent : float;
  network_io : gmap string Z;
  load_average : float * float * float;
  temperature : option float;
  fan_speed : option Z
}.

(** The values stored in the dict that the scorer returns. *)
Inductive pyval : Type :=
  | VInt (z : Z)
  | VStr (s : string)
  | VList (l : list string).

(** ** [SystemMonitor.get_recommendations] *)

Definition rec_cpu : string :=
  "Consider closing unnecessary applications or upgrading CPU".
Definition rec_memory : string :=
  "Close unused applications or consider adding more RAM".
Definition rec_disk : string :=
  "Free up disk space by deleting unnecessary files".
Definition rec_cooling : string :=
  "Check cooling system and clean dust from fans".

(** [recommendations.append(x)] under a condition. *)
Definition append_if (c : bool) (x : string) (l : list string) : list string :=
  if c then l ++ [x] else l.

(** The body of the [for issue in issues] loop: four independent [if]s,
    each appending to [recommendations]. *)
Definition recommend_issue (recommendations : list string) (issue : string)
  : list string :=
  let recommendations :=
    append_if (str_in "CPU" issue) rec_cpu recommendations in
  let recommendations :=
    append_if (str_in "memory" issue) rec_memory recommendations in
  let recommendations :=
    append_if (str_in "disk" issue) rec_disk recommendations in
  let recommendations :=
    append_if (str_in "temperature" issue) rec_cooling recommendations in
  recommendations.

Definition get_recommendations (issues : list string) : list string :=
  fold_left recommend_issue issues [].

(** ** [SystemMonitor.get_system_health_score] *)

(** The mutable locals [score] and [issues] of the scorer. *)
Record tally : Type := mkTally { score : Z; issues : list string }.

Definition penalise (p : Z) (label : string) (t : tally) : tally :=
  {| score := score t - p; issues := issues t ++ [label] |}.

(** CPU usage penalty. *)
Definition cpu_rule (m : PerformanceMetrics) (t : tally) : tally :=
  if PyFloat.gtb (cpu_percent m) 80
  then penalise 20 "High CPU usage" t
  else if PyFloat.gtb (cpu_percent m) 60
  then penalise 10 "Moderate CPU usage" t
  else t.

(** Memory usage penalty. *)
Definition memory_rule (m : PerformanceMetrics) (t : tally) : tally :=
  if PyFloat.gtb (memory_percent m) 90
  then penalise 25 "Critical memory usage" t
  else if PyFloat.gtb (memory_percent m) 80
  then penalise 15 "High memory usage" t
  else t.

(** Disk usage penalty. *)
Definition disk_rule (m : PerformanceMetrics) (t : tally) : tally :=
  if PyFloat.gtb (disk_percent m) 95
  then penalise 30 "Critical disk usage" t
  else if PyFloat.gtb (disk_percent m) 85
  then penalise 15 "High disk usage" t
  else t.

(** [metrics.temperature and metrics.temperature > 80]. *)
Definition temperature_high (temp : option float) : bool :=
  match temp with
  | None => false
  | Some t => PyFloat.truthy t && PyFloat.gtb t 80
  end.

(** Temperature penalty. *)
Definition temperature_rule (m : PerformanceMetrics) (t : tally) : tally :=
  if temperature_high (temperature m)
  then penalise 20 "High CPU temperature" t
  else t.

(** The four rules in source order, from [score = 100] and [issues = []]. *)
Definition apply_rules (m : PerformanceMetrics) : tally :=
  temperature_rule m (disk_rule m (memory_rule m (cpu_rule m
    {| score := 100; issues := [] |}))).

(** The [if score >= 80 ... else] chain that determines the status. *)
Definition status_of_score (score : Z) : string :=
  if score >=? 80 then "Excellent"
  else if score >=? 60 then "Good"
  else if score >=? 40 then "Fair"
  else if score >=? 20 then "Poor"
  else "Critical".

(** The scorer, on the result of [self.get_performance_metrics()]
    ([None] when the provider failed).  The status is taken from [score]
    before [max(0, score)] is applied, as in the source. *)
Definition get_system_health_score (metrics : option PerformanceMetrics)
  : gmap string pyval :=
  match metrics with
  | None =>
      list_to_map [ ("score", VInt 0);
                    ("status", VStr "Unknown");
                    ("issues", VList ["Unable to get metrics"]) ]
  | Some m =>
      let t := apply_rules m in
      let status := status_of_score (score t) in
      list_to_map [ ("score", VInt (Z.max 0 (score t)));
                    ("status", VStr status);
                    ("issues", VList (issues t));
                    ("recommendations",
                     VList (get_recommendations (issues t))) ]
  end.

(** ** [SystemMonitor.monitor_system] *)

(** The call runs against the outside world: the clock, the metrics
    provider, the keyboard and the interpreter's settings.  [Env] fixes what
    the world does, so that the call is a function of it.  The clock counts
    whole units of time (seconds in the scenarios below); [duration] and
    [interval] are Python [int]s in the same unit.  Ctrl+C is placed in the
    calls that take time: the prints, the read of the metrics and the sleep.
    A print is taken to succeed once its text is built. *)

(** The Python exceptions of the monitor. *)
Inductive exn : Type :=
  | KeyboardInterrupt
  | ValueError
  | OverflowError
  | ZeroDivisionError
  | TypeError
  | OSError
  | KeyError (key : string).

(** Where Ctrl+C can arrive during a call of [monitor_system]; [k] counts
    the iterations of the loop from 0. *)
Inductive place : Type :=
  (** in the prints before the [try] statement *)
  | BeforeTry
  (** in [get_performance_metrics], outside the two sensor queries *)
  | InRead (k : nat)
  (** inside the [try] of [get_cpu_temperature] *)
  | InTemperature (k : nat)
  (** inside the [try] of [get_fan_speed] *)
  | InFanSpeed (k : nat)
  (** in [time.sleep] *)
  | InSleep (k : nat)
  (** in the print of the [except KeyboardInterrupt] handler *)
  | InHandler.

Record Env : Type := mkEnv {
  (** the reading of [time.time()] that is stored in [start_time] *)
  start_clock : Z;
  (** what the k-th call of [get_performance_metrics] returns when it is
      left alone; [None] when the provider failed *)
  provider : nat -> option PerformanceMetrics;
  (** by how much [time.time()] advances during the k-th call of
      [get_performance_metrics] *)
  read_time : nat -> Z;
  (** whether Ctrl+C arrives while control is at a place *)
  sigint : place -> bool;
  (** local time minus [time.time()], when [time.time()] reads [t] *)
  utc_offset : Z -> Z;
  (** [sys.get_int_max_str_digits()]: 4300 unless configured, 0 when the
      limit is switched off or the interpreter has none; a limit that is set
      is at least 640 *)
  int_max_str_digits : Z
}.

(** One entry of [data_points]; the fields are the keys of the dict the loop
    appends.  The timestamp is kept as the local time, in the unit of the
    clock, that [datetime.now().isoformat()] renders. *)
Module DataPoint.
Record t : Type := mk {
  timestamp : Z;
  cpu_percent : float;
  memory_percent : float;
  disk_percent : float;
  temperature : option float
}.
End DataPoint.

(** What the loop reads and writes: the clock, the number of iterations
    begun so far, the local [data_points] and the attribute
    [self.monitoring]. *)
Record LoopState : Type := mkLoop {
  clock : Z;
  tick : nat;
  data_points : list DataPoint.t;
  monitoring : bool
}.

(** How one iteration of the [while] body ends: normally, or by an exception
    raised in state [st]. *)
Inductive step : Type :=
  | Next (st : LoopState)
  | Raise (e : exn) (st : LoopState).

(** How a call of [monitor_system] ends: it returns [data_points], an
    exception leaves it before the [try] statement is entered, or an
    exception leaves it from the [try] statement ([st] is the loop state at
    that moment). *)
Inductive outcome : Type :=
  | Returned (pts : list DataPoint.t)
  | RaisedBefore (e : exn)
  | Raised (e : exn) (st : LoopState).

(** [str(n)] of an int, as the f-string of the first print calls it, raises
    [ValueError] when [n] has more decimal digits than the limit allows. *)
Definition exceeds_str_digits (env : Env) (n : Z) : bool :=
  (0 <? int_max_str_digits env)
  && (10 ^ Z.max 640 (int_max_str_digits env) <=? Z.abs n).

(** [datetime.now()]: the local time when [time.time()] reads [t]. *)
Definition datetime_now (env : Env) (t : Z) : Z := t + utc_offset env t.

(** The largest number of seconds that [time.sleep] can turn into
    nanoseconds in a signed 64-bit integer: [(2^63 - 1) / 10^9]. *)
Definition sleep_max : Z := 9223372036.

(** What [time.sleep(interval)] raises, for an int, before it sleeps:
    [OverflowError] when the nanoseconds do not fit, [ValueError] on a
    negative length. *)
Definition sleep_error (interval : Z) : option exn :=
  if (interval <? - sleep_max) || (sleep_max <? interval)
  then Some OverflowError
  else if interval <? 0 then Some ValueError
  else None.

(** What becomes of the metrics when Ctrl+C arrives inside a sensor query:
    the bare [except] of [get_cpu_temperature] and of [get_fan_speed]
    catches the [KeyboardInterrupt], and the query returns [None]. *)
Definition swallow (in_temperature in_fan_speed : bool)
    (m : PerformanceMetrics) : PerformanceMetrics :=
  {| cpu_percent := cpu_percent m;
     memory_percent := memory_percent m;
     disk_percent := disk_percent m;
     network_io := network_io m;
     load_average := load_average m;
     temperature := if in_temperature then None else temperature m;
     fan_speed := if in_fan_speed then None else fan_speed m |}.

(** What the k-th call of [get_performance_metrics] returns to the loop.
    The sensor queries are the last calls of a read that succeeds; a read
    that fails does not get to them. *)
Definition read_metrics (env : Env) (k : nat) : option PerformanceMetrics :=
  match provider env k with
  | Some m =>
      Some (swallow (sigint env (InTemperature k)) (sigint env (InFanSpeed k))
              m)
  | None => None
  end.

(** The dict literal appended to [data_points]. *)
Definition data_point (now : Z) (metrics : PerformanceMetrics) : DataPoint.t :=
  {| DataPoint.timestamp := now;
     DataPoint.cpu_percent := cpu_percent metrics;
     DataPoint.memory_percent := memory_percent metrics;
     DataPoint.disk_percent := disk_percent metrics;
     DataPoint.temperature := temperature metrics |}.

(** The body of the [while] loop.  [get_performance_metrics] catches
    [Exception] only, so a [KeyboardInterrupt] raised in it outside the
    sensor queries leaves the body; [time.sleep] checks its argument before
    it sleeps. *)
Definition loop_body (env : Env) (interval : Z) (st : LoopState) : step :=
  let k := tick st in
  if sigint env (InRead k) then Raise KeyboardInterrupt st
  else
    let metrics := read_metrics env k in
    let now := clock st + read_time env k in
    let data_points :=
      match metrics with
      | Some m => (data_points st ++ [data_point (datetime_now env now) m])%list
      | None => data_points st
      end in
    let st1 := {| clock := now; tick := S k;
                  data_points := data_points;
                  monitoring := monitoring st |} in
    match sleep_error interval with
    | Some e => Raise e st1
    | None =>
        if sigint env (InSleep k) then Raise KeyboardInterrupt st1
        else Next {| clock := now + interval; tick := S k;
                     data_points := data_points;
                     monitoring := monitoring st |}
    end.

(** The [while self.monitoring and (time.time() - start_time) < duration]
    loop inside [try ... except KeyboardInterrupt]: the handler catches a
    [KeyboardInterrupt] of the body and prints, after which [data_points] is
    returned; a [KeyboardInterrupt] raised in the handler and any other
    exception of the body leave the call.  [fuel] bounds the number of
    iterations; [None] means the bound was reached with the loop still
    running. *)
Fixpoint while_loop (fuel : nat) (env : Env) (start_time duration interval : Z)
    (st : LoopState) : option outcome :=
  if monitoring st && (clock st - start_time <? duration) then
    match fuel with
    | O => None
    | S fuel' =>
        match loop_body env interval st with
        | Next st' => while_loop fuel' env start_time duration interval st'
        | Raise KeyboardInterrupt st' =>
            if sigint env InHandler then Some (Raised KeyboardInterrupt st')
            else Some (Returned (data_points st'))
        | Raise e st' => Some (Raised e st')
        end
    end
  else Some (Returned (data_points st)).

(** The state in which the loop is entered. *)
Definition initial_state (env : Env) : LoopState :=
  {| clock := start_clock env; tick := O;
     data_points := []; monitoring := true |}.

(** The whole call: the two prints (the first one renders [duration]), the
    assignments, and the [try] statement. *)
Definition monitor_system (env : Env) (duration interval : Z) (fuel : nat)
  : option outcome :=
  if exceeds_str_digits env duration then Some (RaisedBefore ValueError)
  else if sigint env BeforeTry then Some (RaisedBefore KeyboardInterrupt)
  else while_loop fuel env (start_clock env) duration interval
         (initial_state env).

(** What [time.time()] reads when iteration [k] of a run begins, if no
    earlier iteration ended the run. *)
Fixpoint clock_at (env : Env) (interval : Z) (k : nat) : Z :=
  match k with
  | O => start_clock env
  | S j => clock_at env interval j + read_time env j + interval
  end.

(** The point that iteration [k] appends, if its read succeeds. *)
Definition sample (env : Env) (interval : Z) (k : nat)
  : option DataPoint.t :=
  match read_metrics env k with
  | Some m =>
      Some (data_point
              (datetime_now env (clock_at env interval k + read_time env k))
              m)
  | None => None
  end.

(** The buffer after [n] iterations. *)
Definition samples (env : Env) (interval : Z) (n : nat)
  : list DataPoint.t :=
  omap (sample env interval) (seq 0 n).

(** ** The specification's tables *)

(** The status bands as the specification lists them. *)
Definition spec_status (s : Z) : string :=
  if 80 <=? s then "Excellent"
  else if (60 <=? s) && (s <? 80) then "Good"
  else if (40 <=? s) && (s <? 60) then "Fair"
  else if (20 <=? s) && (s <? 40) then "Poor"
  else "Critical".

(** The labels of each rule of the scorer. *)
Definition cpu_labels : list string := ["High CPU usage"; "Moderate CPU usage"].
Definition memory_labels : list string :=
  ["Critical memory usage"; "High memory usage"].
Definition disk_labels : list string :=
  ["Critical disk usage"; "High disk usage"].
Definition temperature_label : string := "High CPU temperature".

(** Number of entries of [l] that are among [labels]. *)
Definition count_labels (labels l : list string) : nat :=
  List.length (List.filter (fun x => bool_decide (x ∈ labels)) l).

(** What an issue label of the scorer contributes to the recommendations. *)
Definition recommendations_of_label (label : string) : list string :=
  if bool_decide (label ∈ cpu_labels) then [rec_cpu]
  else if bool_decide (label ∈ memory_labels) then [rec_memory]
  else if bool_decide (label ∈ disk_labels) then [rec_disk]
  else if bool_decide (label = temperature_label) then [rec_cpu; rec_cooling]
  else [].

(** Environments for the scenarios. *)

Definition metrics_of (cpu mem disk : float) (temp : option float)
  : PerformanceMetrics :=
  {| cpu_percent := cpu; memory_percent := mem; disk_percent := disk;
     network_io := ∅; load_average := (0, 0, 0)%float;
     temperature := temp; fan_speed := None |}.

(** A provider that always succeeds, reads that take no time, no Ctrl+C,
    local time equal to the clock, the default limit on the digits of an
    int. *)
Definition steady_env (m : PerformanceMetrics) : Env :=
  {| start_clock := 0; provider := fun _ => Some m;
     read_time := fun _ => 0; sigint := fun _ => false;
     utc_offset := fun _ => 0; int_max_str_digits := 4300 |}.


(** Two snapshots that differ in one dimension only, the second one strictly
    worse (higher) there. *)
Inductive worse : PerformanceMetrics -> PerformanceMetrics -> Prop :=
  | worse_cpu c c' me d n l t f :
      PrimFloat.ltb c c' = true ->
      worse (mkMetrics c me d n l t f) (mkMetrics c' me d n l t f)
  | worse_memory c me me' d n l t f :
      PrimFloat.ltb me me' = true ->
      worse (mkMetrics c me d n l t f) (mkMetrics c me' d n l t f)
  | worse_disk c me d d' n l t f :
      PrimFloat.ltb d d' = true ->
      worse (mkMetrics c me d n l t f) (mkMetrics c me d' n l t f)
  | worse_temperature c me d n l t t' f :
      PrimFloat.ltb t t' = true ->
      worse (mkMetrics c me d n l (Some t) f)
            (mkMetrics c me d n l (Some t') f).

(** The penalty each rule of the scorer subtracts. *)
Definition cpu_penalty (m : PerformanceMetrics) : Z :=
  0 - score (cpu_rule m (mkTally 0 [])).
Definition memory_penalty (m : PerformanceMetrics) : Z :=
  0 - score (memory_rule m (mkTally 0 [])).
Definition disk_penalty (m : PerformanceMetrics) : Z :=
  0 - score (disk_rule m (mkTally 0 [])).
Definition temperature_penalty (m : PerformanceMetrics) : Z :=
  0 - score (temperature_rule m (mkTally 0 [])).

(** An exception left [monitor_system] before the loop was entered. *)
Definition surfaced_before_loop (o : option outcome) : Prop :=
  exists e : exn, o = Some (RaisedBefore e).


(** ** Tables for the properties of the scorer *)

(** The penalty that the scorer subtracts together with each issue label. *)
Definition penalty_of_label (label : string) : Z :=
  if bool_decide (label = "High CPU usage") then 20
  else if bool_decide (label = "Moderate CPU usage") then 10
  else if bool_decide (label = "Critical memory usage") then 25
  else if bool_decide (label = "High memory usage") then 15
  else if bool_decide (label = "Critical disk usage") then 30
  else if bool_decide (label = "High disk usage") then 15
  else if bool_decide (label = "High CPU temperature") then 20
  else 0.

Definition total_penalty (labels : list string) : Z :=
  fold_right (fun label acc => penalty_of_label label + acc) 0 labels.

(** The issue labels in the order in which the rules are evaluated. *)
Definition all_labels : list string :=
  cpu_labels ++ memory_labels ++ disk_labels ++ [temperature_label].

(** The statuses from worst to best. *)
Definition status_rank (status : string) : nat :=
  if bool_decide (status = "Excellent") then 4
  else if bool_decide (status = "Good") then 3
  else if bool_decide (status = "Fair") then 2
  else if bool_decide (status = "Poor") then 1
  else 0.

(** The keywords that [get_recommendations] looks for, each with its
    recommendation, in the order of the four tests. *)
Definition keyword_table : list (string * string) :=
  [("CPU", rec_cpu); ("memory", rec_memory); ("disk", rec_disk);
   ("temperature", rec_cooling)].

(** [needle] occurs in [hay] as a contiguous substring. *)
Definition is_substring (needle hay : string) : Prop :=
  exists pre post : string, hay = (pre ++ needle ++ post)%string.

(** ** Auxiliary notions for the sampling loop *)

(** The number of multiples of [interval] (from 0 on) that lie below
    [duration]: [duration / interval] rounded up, and 0 for a duration that
    is not positive. *)
Definition ceil_div (duration interval : Z) : Z :=
  if duration <=? 0 then 0 else (duration + interval - 1) / interval.

(** The same world with nobody pressing Ctrl+C. *)
Definition clear_sigint (env : Env) : Env :=
  {| start_clock := start_clock env; provider := provider env;
     read_time := read_time env; sigint := fun _ => false;
     utc_offset := utc_offset env;
     int_max_str_digits := int_max_str_digits env |}.



(** A data point without its temperature. *)
Definition blank (p : DataPoint.t) : DataPoint.t :=
  {| DataPoint.timestamp := DataPoint.timestamp p;
     DataPoint.cpu_percent := DataPoint.cpu_percent p;
     DataPoint.memory_percent := DataPoint.memory_percent p;
     DataPoint.disk_percent := DataPoint.disk_percent p;
     DataPoint.temperature := None |}.

(** [p] is [q], or [q] with its temperature lost. *)
Definition blanked (p q : DataPoint.t) : Prop := p = q \/ p = blank q.

(** ** Python values and operations used by the rest of the monitor *)

(** The exceptions that the functions below raise or handle are among
    [exn]. *)
Definition py_exn : Type := exn.

(** A computation that returns a value or raises. *)
Definition result (A : Type) : Type := py_exn + A.

Definition bind {A B : Type} (r : result A) (k : A -> result B) : result B :=
  match r with
  | inl e => inl e
  | inr a => k a
  end.

(** [float(z)] for an int [z]: the nearest float, ties to even;
    [OverflowError] when that lies beyond the largest float. *)
Definition float_of_int (z : Z) : result float :=
  match binary_normalize prec emax z 0 false with
  | S754_infinity _ => inl OverflowError
  | f => inr (SF2Prim f)
  end.

(** [a / b] for ints: the float nearest to the exact quotient (ties to
    even), [ZeroDivisionError] for [b = 0], [OverflowError] when the
    quotient lies beyond the largest float. *)
Definition int_truediv (a b : Z) : result float :=
  if b =? 0 then inl ZeroDivisionError
  else
    match a with
    | 0 => inr (SF2Prim (S754_zero (b <? 0)))
    | _ =>
        match SFdiv prec emax
                (S754_finite (a <? 0) (Z.to_pos (Z.abs a)) 0)
                (S754_finite (b <? 0) (Z.to_pos (Z.abs b)) 0) with
        | S754_infinity _ => inl OverflowError
        | f => inr (SF2Prim f)
        end
    end.

(** [n / 2^k] rounded to the nearest natural number, ties to even. *)
Definition round_half_even_shift (n k : N) : N :=
  let q := N.shiftr n k in
  let r := N.land n (N.ones k) in
  let half := N.shiftl 1 (k - 1) in
  if (k =? 0)%N then n
  else match (r ?= half)%N with
       | Lt => q
       | Gt => (q + 1)%N
       | Eq => if N.even q then q else (q + 1)%N
       end.

(** [format(x, '.1f')] for a float [x]: the exact value of [x] rounded to
    one decimal, ties to even. *)
Definition format_1f (x : float) : string :=
  match Prim2SF x with
  | S754_nan => "nan"
  | S754_infinity s => if s then "-inf" else "inf"
  | S754_zero s => if s then "-0.0" else "0.0"
  | S754_finite s m e =>
      let tenths :=
        match e with
        | Zneg k => round_half_even_shift (10 * Npos m) (Npos k)
        | _ => (10 * Npos m * 2 ^ Z.to_N e)%N
        end in
      ((if s then "-" else "")
       ++ pretty (tenths / 10)%N ++ "." ++ pretty (tenths mod 10)%N)%string
  end.

(** A Python number: an int or a float. *)
Inductive pynum : Type :=
  | PInt (z : Z)
  | PFloat (x : float).

(** [v < 1024.0]; an int is compared with a float exactly. *)
Definition num_lt_1024 (v : pynum) : bool :=
  match v with
  | PInt z => z <? 1024
  | PFloat x => PrimFloat.ltb x 1024
  end.

(** [v / 1024.0]: an int is converted to a float first. *)
Definition num_div_1024 (v : pynum) : result pynum :=
  match v with
  | PInt z => bind (float_of_int z) (fun x => inr (PFloat (x / 1024)%float))
  | PFloat x => inr (PFloat (x / 1024)%float)
  end.

(** [f"{v:.1f}"]: an int is converted to a float first. *)
Definition num_format_1f (v : pynum) : result string :=
  match v with
  | PInt z => bind (float_of_int z) (fun x => inr (format_1f x))
  | PFloat x => inr (format_1f x)
  end.

(** [l[:limit]] for an int [limit]. *)
Definition slice_to {A : Type} (l : list A) (limit : Z) : list A :=
  if limit <? 0 then take (Z.to_nat (Z.of_nat (length l) + limit)) l
  else take (Z.to_nat limit) l.

(** ** [SystemMonitor.format_bytes] *)

(** The [for unit in ...] loop; after the last unit the value is given in
    PB. *)
Fixpoint format_bytes_loop (units : list string) (bytes_value : pynum)
  : result string :=
  match units with
  | [] => bind (num_format_1f bytes_value) (fun s => inr (s ++ " PB")%string)
  | unit :: units' =>
      if num_lt_1024 bytes_value
      then bind (num_format_1f bytes_value)
             (fun s => inr (s ++ " " ++ unit)%string)
      else bind (num_div_1024 bytes_value) (format_bytes_loop units')
  end.

Definition format_bytes (bytes_value : pynum) : result string :=
  format_bytes_loop ["B"; "KB"; "MB"; "GB"; "TB"] bytes_value.

(** ** The sensor queries: [get_cpu_temperature] and [get_fan_speed] *)

(** psutil's [shwtemp] and [sfan] named tuples. *)
Module shwtemp.
Record t : Type := mk {
  label : string;
  current : float;
  high : option float;
  critical : option float
}.
End shwtemp.

Module sfan.
Record t : Type := mk { label : string; current : Z }.
End sfan.

(** What a sensor query of psutil does: the function does not exist on the
    platform ([hasattr] is false), the call raises, or it returns a dict
    from sensor names to their entries, here in iteration order. *)
Inductive sensors (E : Type) : Type :=
  | NoSuchFunction
  | SensorsRaise
  | Sensors (readings : list (string * list E)).
Arguments NoSuchFunction {E}.
Arguments SensorsRaise {E}.
Arguments Sensors {E} readings.

(** The [for name, entries in ....items()] loop: the first entry of the
    first sensor that has entries. *)
Fixpoint first_entry {E : Type} (readings : list (string * list E))
  : option E :=
  match readings with
  | [] => None
  | (name, entries) :: readings' =>
      match entries with
      | e :: _ => Some e
      | [] => first_entry readings'
      end
  end.

Definition get_cpu_temperature (s : sensors shwtemp.t) : option float :=
  match s with
  | Sensors temps => option_map shwtemp.current (first_entry temps)
  | NoSuchFunction | SensorsRaise => None
  end.

Definition get_fan_speed (s : sensors sfan.t) : option Z :=
  match s with
  | Sensors fans => option_map sfan.current (first_entry fans)
  | NoSuchFunction | SensorsRaise => None
  end.

(** ** [SystemMonitor.get_performance_metrics] *)

(** psutil's [sdiskusage] named tuple, as far as the monitor reads it. *)
Module sdiskusage.
Record t : Type := mk { total : Z; used : Z; free : Z }.
End sdiskusage.

(** What [os.getloadavg()] does: the function does not exist on the
    platform ([AttributeError]), the call raises, or it returns. *)
Inductive loadavg : Type :=
  | NoGetloadavg
  | LoadavgRaises
  | Loadavg (l : float * float * float).

(** The system calls behind one snapshot; [None] stands for a call that
    raises an [Exception]. *)
Record Host : Type := mkHost {
  (** [psutil.cpu_percent(interval=1)] *)
  host_cpu_percent : option float;
  (** [psutil.virtual_memory().percent] *)
  host_memory_percent : option float;
  (** [psutil.disk_usage('/')] *)
  host_disk_usage : option sdiskusage.t;
  (** [psutil.net_io_counters()._asdict()] *)
  host_net_io_counters : option (gmap string Z);
  (** [os.getloadavg()] *)
  host_getloadavg : loadavg;
  (** [psutil.sensors_temperatures()] *)
  host_sensors_temperatures : sensors shwtemp.t;
  (** [psutil.sensors_fans()] *)
  host_sensors_fans : sensors sfan.t
}.

(** [(disk.used / disk.total) * 100]. *)
Definition used_percent (used total : Z) : result float :=
  bind (int_truediv used total) (fun q => inr (q * 100)%float).

(** The body of the [try]; every exception ends in [return None]. *)
Definition get_performance_metrics (host : Host) : option PerformanceMetrics :=
  match host_cpu_percent host with
  | None => None
  | Some cpu =>
  match host_memory_percent host with
  | None => None
  | Some memory =>
  match host_disk_usage host with
  | None => None
  | Some disk =>
  match used_percent (sdiskusage.used disk) (sdiskusage.total disk) with
  | inl _ => None
  | inr disk_pct =>
  match host_net_io_counters host with
  | None => None
  | Some net =>
  match host_getloadavg host with
  | LoadavgRaises => None
  | load =>
      Some {| cpu_percent := cpu;
              memory_percent := memory;
              disk_percent := disk_pct;
              network_io := net;
              load_average :=
                match load with
                | Loadavg l => l
                | _ => (0, 0, 0)%float
                end;
              temperature :=
                get_cpu_temperature (host_sensors_temperatures host);
              fan_speed := get_fan_speed (host_sensors_fans host) |}
  end end end end end end.

(** ** [SystemMonitor.get_disk_info] and [SystemMonitor.check_disk_space] *)

(** psutil's [sdiskpart] named tuple, as far as the monitor reads it. *)
Module sdiskpart.
Record t : Type := mk { device : string; mountpoint : string; fstype : string }.
End sdiskpart.

(** What [psutil.disk_usage(partition.mountpoint)] does. *)
Inductive usage_call : Type :=
  | Usage (u : sdiskusage.t)
  | UsageDenied        (* raises PermissionError *)
  | UsageFails.        (* raises another OSError *)

(** An entry of the list that [get_disk_info] returns; the fields are the
    keys of the dict. *)
Module Disk.
Record t : Type := mk {
  device : string;
  mountpoint : string;
  fstype : string;
  total : Z;
  used : Z;
  free : Z;
  percent : float
}.
End Disk.

(** The loop over [psutil.disk_partitions()], each partition paired with
    what its usage call does.  Only [PermissionError] is handled. *)
Fixpoint get_disk_info (partitions : list (sdiskpart.t * usage_call))
  : result (list Disk.t) :=
  match partitions with
  | [] => inr []
  | (partition, call) :: partitions' =>
      match call with
      | UsageDenied => get_disk_info partitions'
      | UsageFails => inl OSError
      | Usage usage =>
          bind (used_percent (sdiskusage.used usage) (sdiskusage.total usage))
            (fun pct =>
               bind (get_disk_info partitions')
                 (fun disks =>
                    inr ({| Disk.device := sdiskpart.device partition;
                            Disk.mountpoint := sdiskpart.mountpoint partition;
                            Disk.fstype := sdiskpart.fstype partition;
                            Disk.total := sdiskusage.total usage;
                            Disk.used := sdiskusage.used usage;
                            Disk.free := sdiskusage.free usage;
                            Disk.percent := pct |} :: disks)))
      end
  end.

(** An entry of the list that [check_disk_space] returns. *)
Module Warning.
Record t : Type := mk {
  device : string;
  mountpoint : string;
  usage_percent : float;
  free_space : string
}.
End Warning.

(** The [for disk in disks] loop of [check_disk_space]. *)
Fixpoint disk_warnings (threshold : float) (disks : list Disk.t)
  : result (list Warning.t) :=
  match disks with
  | [] => inr []
  | disk :: disks' =>
      if PyFloat.gtb (Disk.percent disk) threshold
      then bind (format_bytes (PInt (Disk.free disk)))
             (fun free_space =>
                bind (disk_warnings threshold disks')
                  (fun warnings =>
                     inr ({| Warning.device := Disk.device disk;
                             Warning.mountpoint := Disk.mountpoint disk;
                             Warning.usage_percent := Disk.percent disk;
                             Warning.free_space := free_space |}
                          :: warnings)))
      else disk_warnings threshold disks'
  end.

Definition check_disk_space (partitions : list (sdiskpart.t * usage_call))
    (threshold : float) : result (list Warning.t) :=
  bind (get_disk_info partitions) (disk_warnings threshold).

(** The partitions whose usage could be read, in order. *)
Definition readable_partitions (partitions : list (sdiskpart.t * usage_call))
  : list (sdiskpart.t * sdiskusage.t) :=
  omap (fun pc => match snd pc with
                  | Usage u => Some (fst pc, u)
                  | UsageDenied | UsageFails => None
                  end) partitions.

(** [disk] is the entry that [get_disk_info] makes of a readable
    partition. *)
Definition disk_of (disk : Disk.t) (pu : sdiskpart.t * sdiskusage.t) : Prop :=
  Disk.device disk = sdiskpart.device (fst pu)
  /\ Disk.mountpoint disk = sdiskpart.mountpoint (fst pu)
  /\ Disk.fstype disk = sdiskpart.fstype (fst pu)
  /\ Disk.total disk = sdiskusage.total (snd pu)
  /\ Disk.used disk = sdiskusage.used (snd pu)
  /\ Disk.free disk = sdiskusage.free (snd pu)
  /\ used_percent (sdiskusage.used (snd pu)) (sdiskusage.total (snd pu))
     = inr (Disk.percent disk).

(** [warning] is the entry that [check_disk_space] makes of [disk]. *)
Definition warning_of (warning : Warning.t) (disk : Disk.t) : Prop :=
  Warning.device warning = Disk.device disk
  /\ Warning.mountpoint warning = Disk.mountpoint disk
  /\ Warning.usage_percent warning = Disk.percent disk
  /\ format_bytes (PInt (Disk.free disk)) = inr (Warning.free_space warning).

(** The units of [format_bytes]. *)
Definition byte_units : list string := ["B"; "KB"; "MB"; "GB"; "TB"; "PB"].

(** The text for a byte count below 1024, checked count by count. *)
Definition small_count_ok (n : nat) : bool :=
  match format_bytes (PInt (Z.of_nat n)) with
  | inr s => String.eqb s (pretty (N.of_nat n) ++ ".0 B")
  | inl _ => false
  end.

(** The index in [byte_units] of the unit in which a byte count is shown. *)
Definition unit_index (b : Z) : nat :=
  if b <? 1024 then 0
  else if b <? 1024 ^ 2 then 1
  else if b <? 1024 ^ 3 then 2
  else if b <? 1024 ^ 4 then 3
  else if b <? 1024 ^ 5 then 4
  else 5.

(** The text for a byte count: the count divided by 1024 to the power of
    its unit index, rounded to one decimal (ties to even), and the unit. *)
Definition bytes_text (b : Z) : string :=
  let k := unit_index b in
  let tenths :=
    round_half_even_shift (Z.to_N (10 * b)) (N.of_nat (10 * k)) in
  (pretty (tenths / 10)%N ++ "." ++ pretty (tenths mod 10)%N
   ++ " " ++ nth k byte_units "")%string.

(** ** Floats that hold a byte count exactly *)

(** [x] is the positive float [m * 2^e] with a mantissa [m] of 53 bits. *)
Definition normal_float (x : float) (m : positive) (e : Z) : Prop :=
  Prim2SF x = S754_finite false m e /\ digits2_pos m = 53%positive.

(** The mantissa of the float of a positive int below [2^53]: the int
    shifted to 53 bits. *)
Definition mantissa53 (p : positive) : positive :=
  fst (shl_align p 0 (Zpos (digits2_pos p) - 53)).

(** What [format_1f] returns for the positive float [m * 2^e]. *)
Definition text_of (m : positive) (e : Z) : string :=
  let tenths :=
    match e with
    | Zneg k => round_half_even_shift (10 * Npos m) (Npos k)
    | _ => (10 * Npos m * 2 ^ Z.to_N e)%N
    end in
  (pretty (tenths / 10)%N ++ "." ++ pretty (tenths mod 10)%N)%string.

(** [format_bytes_loop] on the positive float [m * 2^e]. *)
Fixpoint loop_text (units : list string) (m : positive) (e : Z) : string :=
  match units with
  | [] => (text_of m e ++ " PB")%string
  | unit :: units' =>
      if e <? -42 then (text_of m e ++ " " ++ unit)%string
      else loop_text units' m (e - 10)
  end.

(** ** [SystemMonitor.get_process_info] *)

(** The [proc.info] dict of a process; an attribute that psutil could not
    read is [None]. *)
Module ProcInfo.
Record t : Type := mk {
  pid : Z;
  name : option string;
  cpu_percent : option float;
  memory_percent : option float;
  status : option string
}.
End ProcInfo.

(** What reading [proc.info] does for one process of the iteration. *)
Inductive proc_read : Type :=
  | Info (info : ProcInfo.t)
  | NoSuchProcess
  | AccessDenied.

(** The [for proc in psutil.process_iter(...)] loop: a process whose info
    cannot be read is left out. *)
Definition readable_processes (procs : list proc_read) : list ProcInfo.t :=
  omap (fun r => match r with
                 | Info info => Some info
                 | NoSuchProcess | AccessDenied => None
                 end) procs.

(** The sort key [x.get('cpu_percent', 0)] of a process whose cpu_percent
    is a float. *)
Definition cpu_key (info : ProcInfo.t) : float :=
  match ProcInfo.cpu_percent info with
  | Some x => x
  | None => 0%float
  end.

(** Insertion into a list in descending order of [cpu_key], in front of the
    entries that are not larger. *)
Fixpoint insert_desc (x : ProcInfo.t) (l : list ProcInfo.t)
  : list ProcInfo.t :=
  match l with
  | [] => [x]
  | y :: l' =>
      if PrimFloat.ltb (cpu_key x) (cpu_key y)
      then y :: insert_desc x l'
      else x :: y :: l'
  end.

(** [processes.sort(key=..., reverse=True)] on keys that are floats and not
    NaN: the stable sort in descending order. *)
Definition sort_desc (l : list ProcInfo.t) : list ProcInfo.t :=
  fold_right insert_desc [] l.

(** [get_process_info(limit)].  Sorting two or more processes compares
    every key with another one, which raises [TypeError] as soon as a key is
    [None].  The order in which the sort leaves NaN keys is not modelled:
    the result is [None] then. *)
Definition get_process_info (procs : list proc_read) (limit : Z)
  : option (result (list ProcInfo.t)) :=
  let processes := readable_processes procs in
  if (2 <=? length processes)%nat
     && existsb (fun p => bool_decide (ProcInfo.cpu_percent p = None))
          processes
  then Some (inl TypeError)
  else if (2 <=? length processes)%nat
          && existsb (fun p => PrimFloat.is_nan (cpu_key p)) processes
  then None
  else Some (inr (slice_to (sort_desc processes) limit)).

(** ** The health display of [interactive_mode] (choice 9) and of [demo] *)

(** The lines that the display prints, with the values they interpolate. *)
Inductive line : Type :=
  | HealthHeader                          (* "SYSTEM HEALTH:" *)
  | ScoreLine (score status : pyval)      (* "Health Score: .../100 (...)" *)
  | IssuesHeader                          (* "Issues:" *)
  | RecommendationsHeader                 (* "Recommendations:" *)
  | Bullet (item : string).               (* one bulleted item *)

(** [health[key]]. *)
Definition getitem (health : gmap string pyval) (key : string)
  : result pyval :=
  match health !! key with
  | Some v => inr v
  | None => inl (KeyError key)
  end.

(** The truth value of a Python value. *)
Definition truthy (v : pyval) : bool :=
  match v with
  | VInt z => negb (z =? 0)
  | VStr s => negb (String.eqb s "")
  | VList l => negb (bool_decide (l = []))
  end.

(** The items that [for item in v] runs through: the elements of a list,
    the characters of a string; an int is not iterable. *)
Definition iterate (v : pyval) : result (list string) :=
  match v with
  | VList l => inr l
  | VStr s => inr (map (fun c => String c EmptyString) (list_ascii_of_string s))
  | VInt _ => inl TypeError
  end.

(** What has been printed, and the exception that ended the display, if
    any. *)
Definition display : Type := list line * option py_exn.

(** One section: [if health[key]: print(header); for item in health[key]:
    print(bullet)], after [printed]. *)
Definition print_section (health : gmap string pyval) (key : string)
    (header : line) (printed : list line) : display :=
  match getitem health key with
  | inl e => (printed, Some e)
  | inr v =>
      if truthy v then
        match iterate v with
        | inl e => (printed ++ [header], Some e)
        | inr items => (printed ++ header :: map Bullet items, None)
        end
      else (printed, None)
  end.

(** The score line, after [printed]. *)
Definition print_score (health : gmap string pyval) (printed : list line)
  : display :=
  match getitem health "score" with
  | inl e => (printed, Some e)
  | inr score =>
      match getitem health "status" with
      | inl e => (printed, Some e)
      | inr status => (printed ++ [ScoreLine score status], None)
      end
  end.

(** Runs [next] after a display that ended normally. *)
Definition and_then (d : display) (next : list line -> display) : display :=
  match d with
  | (printed, None) => next printed
  | (printed, Some e) => (printed, Some e)
  end.

(** Choice 9 of [interactive_mode]. *)
Definition check_system_health (metrics : option PerformanceMetrics)
  : display :=
  let health := get_system_health_score metrics in
  and_then (print_score health [HealthHeader])
    (fun printed =>
       and_then (print_section health "issues" IssuesHeader printed)
         (print_section health "recommendations" RecommendationsHeader)).

(** The health part of [demo]. *)
Definition demo_system_health (metrics : option PerformanceMetrics)
  : display :=
  let health := get_system_health_score metrics in
  and_then (print_score health [HealthHeader])
    (print_section health "issues" IssuesHeader).

(** [a] uses at least as much CPU as [b]. *)
Definition cpu_ge (a b : ProcInfo.t) : Prop :=
  PrimFloat.leb (cpu_key b) (cpu_key a) = true.

(** The processes of [l] whose key equals [k], in the order of [l]. *)
Definition with_key (k : float) (l : list ProcInfo.t) : list ProcInfo.t :=
  List.filter (fun p => PrimFloat.eqb (cpu_key p) k) l.

(** * Properties *)

(** ** Float comparison *)

Lemma SFltb_trans (a b c : spec_float) :
  SFltb a b = true -> SFltb b c = true -> SFltb a c = true.
Proof.
  unfold SFltb, SFcompare.
  destruct a as [sa|sa| |sa ma ea], b as [sb|sb| |sb mb eb],
           c as [sc|sc| |sc mc ec];
    try destruct sa; try destruct sb; try destruct sc;
    try discriminate; try reflexivity;
    change (Pos.compare_cont Eq) with Pos.compare;
    destruct (Z.compare_spec ea eb), (Z.compare_spec eb ec),
             (Z.compare_spec ea ec);
    subst; try discriminate; try reflexivity; try lia;
    destruct (Pos.compare_spec ma mb), (Pos.compare_spec mb mc),
             (Pos.compare_spec ma mc);
    subst; simpl; try discriminate; try reflexivity; try lia.
Qed.

Lemma ltb_trans (x y z : float) :
  PrimFloat.ltb x y = true -> PrimFloat.ltb y z = true ->
  PrimFloat.ltb x z = true.
Proof. rewrite !FloatAxioms.ltb_spec. apply SFltb_trans. Qed.

(** A threshold exceeded by [x] is exceeded by everything above [x]. *)
Lemma gtb_mono (c x y : float) :
  PyFloat.gtb x c = true -> PrimFloat.ltb x y = true -> PyFloat.gtb y c = true.
Proof. unfold PyFloat.gtb. apply ltb_trans. Qed.

(** A float above 80 is not a zero, so it is a true value. *)
Lemma gtb_80_truthy (x : float) :
  PyFloat.gtb x 80 = true -> PyFloat.truthy x = true.
Proof.
  unfold PyFloat.gtb, PyFloat.truthy.
  rewrite FloatAxioms.ltb_spec, FloatAxioms.eqb_spec.
  destruct (Prim2SF x) as [s|s| |s m e]; try destruct s;
    vm_compute; congruence.
Qed.

(** On a present temperature the truth test never decides: the comparison
    with 80 does. *)
Lemma temperature_high_Some (t : float) :
  temperature_high (Some t) = PyFloat.gtb t 80.
Proof.
  simpl. destruct (PyFloat.gtb t 80) eqn:E.
  - now rewrite (gtb_80_truthy t E).
  - apply andb_false_r.
Qed.

(** ** The scorer *)

(** Splits on the band of every rule: 3 * 3 * 3 * 2 cases. *)
Ltac rule_cases m :=
  unfold apply_rules, temperature_rule, disk_rule, memory_rule, cpu_rule;
  destruct (PyFloat.gtb (cpu_percent m) 80);
  [| destruct (PyFloat.gtb (cpu_percent m) 60)];
  (destruct (PyFloat.gtb (memory_percent m) 90);
   [| destruct (PyFloat.gtb (memory_percent m) 80)]);
  (destruct (PyFloat.gtb (disk_percent m) 95);
   [| destruct (PyFloat.gtb (disk_percent m) 85)]);
  destruct (temperature_high (temperature m)).

Lemma lookup_score (m : PerformanceMetrics) :
  get_system_health_score (Some m) !! "score"
  = Some (VInt (Z.max 0 (score (apply_rules m)))).
Proof. reflexivity. Qed.

Lemma lookup_status (m : PerformanceMetrics) :
  get_system_health_score (Some m) !! "status"
  = Some (VStr (status_of_score (score (apply_rules m)))).
Proof. reflexivity. Qed.

Lemma lookup_issues (m : PerformanceMetrics) :
  get_system_health_score (Some m) !! "issues"
  = Some (VList (issues (apply_rules m))).
Proof. reflexivity. Qed.

Lemma lookup_recommendations (m : PerformanceMetrics) :
  get_system_health_score (Some m) !! "recommendations"
  = Some (VList (get_recommendations (issues (apply_rules m)))).
Proof. reflexivity. Qed.

Lemma score_penalties (m : PerformanceMetrics) :
  score (apply_rules m)
  = 100 - cpu_penalty m - memory_penalty m - disk_penalty m
    - temperature_penalty m.
Proof.
  unfold cpu_penalty, memory_penalty, disk_penalty, temperature_penalty.
  rule_cases m; reflexivity.
Qed.

Lemma score_bounds (m : PerformanceMetrics) :
  5 <= score (apply_rules m) <= 100.
Proof. rule_cases m; simpl; lia. Qed.

Lemma status_of_score_spec (s : Z) : status_of_score s = spec_status s.
Proof.
  unfold status_of_score, spec_status.
  repeat match goal with
         | |- context [?a >=? ?b] => destruct (Z.geb_spec a b)
         | |- context [?a <=? ?b] => destruct (Z.leb_spec a b)
         | |- context [?a <? ?b] => destruct (Z.ltb_spec a b)
         end; simpl; try reflexivity; lia.
Qed.

(** The four keys of an assessment. *)
Lemma dom_scored (m : PerformanceMetrics) :
  dom (get_system_health_score (Some m))
  = ({["score"; "status"; "issues"; "recommendations"]} : gset string).
Proof.
  unfold get_system_health_score. cbn [list_to_map foldr].
  rewrite !dom_insert_L, dom_empty_L. set_solver.
Qed.

(** C3 (amended). The snapshot with cpu 85, memory 50, disk 50 and no
    temperature reading is scored 80 with the single issue "High CPU usage"
    and the CPU recommendation; a score of 80 lies in the top band, so the
    status is "Excellent". *)
Theorem C3_scenario_cpu85 (nio : gmap string Z) (la : float * float * float)
    (fan : option Z) :
  get_system_health_score (Some (mkMetrics 85 50 50 nio la None fan))
  = list_to_map
      [ ("score", VInt 80);
        ("status", VStr "Excellent");
        ("issues", VList ["High CPU usage"]);
        ("recommendations",
         VList ["Consider closing unnecessary applications or upgrading CPU"]) ].
Proof. reflexivity. Qed.

(** C3 (as stated) fails: the scenario's status is not "Good". *)
Lemma C3_status_is_not_good :
  let d := get_system_health_score (Some (metrics_of 85 50 50 None)) in
  d !! "score" = Some (VInt 80)
  /\ d !! "status" = Some (VStr "Excellent")
  /\ ~ (d !! "score" = Some (VInt 80)
        /\ d !! "status" = Some (VStr "Good")
        /\ d !! "issues" = Some (VList ["High CPU usage"])
        /\ d !! "recommendations" = Some (VList [rec_cpu])).
Proof.
  cbv zeta. split; [reflexivity|]. split; [reflexivity|].
  intros (_ & H & _). vm_compute in H. discriminate H.
Qed.

(** The second scoring scenario of the specification: memory, disk and
    temperature all beyond their upper thresholds. *)
Example scenario_memory_disk_temperature :
  get_system_health_score (Some (metrics_of 30 95 97 (Some 85%float)))
  = list_to_map
      [ ("score", VInt 25);
        ("status", VStr "Poor");
        ("issues", VList ["Critical memory usage"; "Critical disk usage";
                          "High CPU temperature"]);
        ("recommendations",
         VList [rec_memory; rec_disk; rec_cpu; rec_cooling]) ].
Proof. reflexivity. Qed.

(** C4. The score of every snapshot is an integer between 0 and 100, and the
    status is the band of the returned score: 80 and above "Excellent",
    60 to 79 "Good", 40 to 59 "Fair", 20 to 39 "Poor", below 20 "Critical";
    the bands are those of the specification for every integer, and in
    particular at their boundaries. *)
Theorem C4_score_range_and_status_bands :
  (forall m : PerformanceMetrics,
     exists s : Z,
       get_system_health_score (Some m) !! "score" = Some (VInt s)
       /\ 0 <= s <= 100
       /\ get_system_health_score (Some m) !! "status"
          = Some (VStr (spec_status s)))
  /\ (forall s : Z, status_of_score s = spec_status s)
  /\ (forall s : Z, 80 <= s -> status_of_score s = "Excellent")
  /\ (forall s : Z, 60 <= s < 80 -> status_of_score s = "Good")
  /\ (forall s : Z, 40 <= s < 60 -> status_of_score s = "Fair")
  /\ (forall s : Z, 20 <= s < 40 -> status_of_score s = "Poor")
  /\ (forall s : Z, s < 20 -> status_of_score s = "Critical")
  /\ map status_of_score [100; 80; 79; 60; 59; 40; 39; 20; 19; 0]
     = ["Excellent"; "Excellent"; "Good"; "Good"; "Fair"; "Fair";
        "Poor"; "Poor"; "Critical"; "Critical"].
Proof.
  split.
  { intros m. exists (score (apply_rules m)).
    pose proof (score_bounds m) as Hb.
    rewrite lookup_score, lookup_status, status_of_score_spec.
    rewrite Z.max_r by lia. repeat split; lia || reflexivity. }
  split; [exact status_of_score_spec|].
  repeat split; try reflexivity; intros s Hs; unfold status_of_score;
    repeat match goal with
           | |- context [?a >=? ?b] => destruct (Z.geb_spec a b)
           end; try reflexivity; lia.
Qed.

Lemma C4_score_range_and_status_bands_witness :
  status_of_score 80 = "Excellent" /\ status_of_score 79 = "Good"
  /\ status_of_score 60 = "Good" /\ status_of_score 59 = "Fair"
  /\ status_of_score 40 = "Fair" /\ status_of_score 39 = "Poor"
  /\ status_of_score 20 = "Poor" /\ status_of_score 19 = "Critical".
Proof.
  destruct C4_score_range_and_status_bands
    as (_ & _ & He & Hg & Hf & Hp & Hc & _).
  split; [apply He; lia|]. split; [apply Hg; lia|].
  split; [apply Hg; lia|]. split; [apply Hf; lia|].
  split; [apply Hf; lia|]. split; [apply Hp; lia|].
  split; [apply Hp; lia|]. apply Hc; lia.
Defined.

(** C10. On the scored path the penalties add up to at most 95, so the
    score before the clamp is at least 5 and [max(0, score)] leaves it
    unchanged; an assessment has score 0 only on the sentinel path, when no
    metrics were obtained. *)
Theorem C10_clamp_is_identity :
  (forall m : PerformanceMetrics,
     cpu_penalty m <= 20 /\ memory_penalty m <= 25
     /\ disk_penalty m <= 30 /\ temperature_penalty m <= 20
     /\ 100 - score (apply_rules m) <= 95
     /\ 5 <= score (apply_rules m)
     /\ Z.max 0 (score (apply_rules m)) = score (apply_rules m)
     /\ get_system_health_score (Some m) !! "score"
        = Some (VInt (score (apply_rules m))))
  /\ (forall metrics : option PerformanceMetrics,
        get_system_health_score metrics !! "score" = Some (VInt 0)
        <-> metrics = None).
Proof.
  split.
  - intros m. pose proof (score_bounds m) as Hb.
    assert (Hmax : Z.max 0 (score (apply_rules m)) = score (apply_rules m))
      by lia.
    rewrite lookup_score, Hmax.
    unfold cpu_penalty, memory_penalty, disk_penalty, temperature_penalty,
      temperature_rule, disk_rule, memory_rule, cpu_rule.
    repeat split; try lia;
      repeat match goal with
             | |- context [if ?b then _ else _] => destruct b
             end; simpl; lia.
  - intros [m|]; split; intros H; try reflexivity; try discriminate H.
    rewrite lookup_score in H. pose proof (score_bounds m). 
    injection H as H. lia.
Qed.

(** *** Monotonicity *)

Lemma cpu_penalty_mono (m m' : PerformanceMetrics) :
  PrimFloat.ltb (cpu_percent m) (cpu_percent m') = true ->
  cpu_penalty m <= cpu_penalty m'.
Proof.
  intros Hlt. unfold cpu_penalty, cpu_rule.
  destruct (PyFloat.gtb (cpu_percent m) 80) eqn:H80.
  { now rewrite (gtb_mono _ _ _ H80 Hlt). }
  destruct (PyFloat.gtb (cpu_percent m) 60) eqn:H60.
  { rewrite (gtb_mono _ _ _ H60 Hlt).
    destruct (PyFloat.gtb (cpu_percent m') 80); simpl; lia. }
  destruct (PyFloat.gtb (cpu_percent m') 80),
           (PyFloat.gtb (cpu_percent m') 60); simpl; lia.
Qed.

Lemma memory_penalty_mono (m m' : PerformanceMetrics) :
  PrimFloat.ltb (memory_percent m) (memory_percent m') = true ->
  memory_penalty m <= memory_penalty m'.
Proof.
  intros Hlt. unfold memory_penalty, memory_rule.
  destruct (PyFloat.gtb (memory_percent m) 90) eqn:H90.
  { now rewrite (gtb_mono _ _ _ H90 Hlt). }
  destruct (PyFloat.gtb (memory_percent m) 80) eqn:H80.
  { rewrite (gtb_mono _ _ _ H80 Hlt).
    destruct (PyFloat.gtb (memory_percent m') 90); simpl; lia. }
  destruct (PyFloat.gtb (memory_percent m') 90),
           (PyFloat.gtb (memory_percent m') 80); simpl; lia.
Qed.

Lemma disk_penalty_mono (m m' : PerformanceMetrics) :
  PrimFloat.ltb (disk_percent m) (disk_percent m') = true ->
  disk_penalty m <= disk_penalty m'.
Proof.
  intros Hlt. unfold disk_penalty, disk_rule.
  destruct (PyFloat.gtb (disk_percent m) 95) eqn:H95.
  { now rewrite (gtb_mono _ _ _ H95 Hlt). }
  destruct (PyFloat.gtb (disk_percent m) 85) eqn:H85.
  { rewrite (gtb_mono _ _ _ H85 Hlt).
    destruct (PyFloat.gtb (disk_percent m') 95); simpl; lia. }
  destruct (PyFloat.gtb (disk_percent m') 95),
           (PyFloat.gtb (disk_percent m') 85); simpl; lia.
Qed.

Lemma temperature_penalty_mono (m m' : PerformanceMetrics) (t t' : float) :
  temperature m = Some t -> temperature m' = Some t' ->
  PrimFloat.ltb t t' = true ->
  temperature_penalty m <= temperature_penalty m'.
Proof.
  intros Ht Ht' Hlt. unfold temperature_penalty, temperature_rule.
  rewrite Ht, Ht', !temperature_high_Some.
  destruct (PyFloat.gtb t 80) eqn:H80.
  { now rewrite (gtb_mono _ _ _ H80 Hlt). }
  destruct (PyFloat.gtb t' 80); simpl; lia.
Qed.

(** A snapshot that is worse in one dimension is penalised at least as much. *)
Lemma worse_score_le (m m' : PerformanceMetrics) :
  worse m m' -> score (apply_rules m') <= score (apply_rules m).
Proof.
  intros Hw. rewrite !score_penalties.
  destruct Hw as [c c' me d n l t f H|c me me' d n l t f H
                 |c me d d' n l t f H|c me d n l t t' f H].
  - pose proof (cpu_penalty_mono (mkMetrics c me d n l t f)
                                 (mkMetrics c' me d n l t f) H).
    unfold memory_penalty, disk_penalty, temperature_penalty,
      memory_rule, disk_rule, temperature_rule in *. simpl in *. lia.
  - pose proof (memory_penalty_mono (mkMetrics c me d n l t f)
                                    (mkMetrics c me' d n l t f) H).
    unfold cpu_penalty, disk_penalty, temperature_penalty,
      cpu_rule, disk_rule, temperature_rule in *. simpl in *. lia.
  - pose proof (disk_penalty_mono (mkMetrics c me d n l t f)
                                  (mkMetrics c me d' n l t f) H).
    unfold cpu_penalty, memory_penalty, temperature_penalty,
      cpu_rule, memory_rule, temperature_rule in *. simpl in *. lia.
  - pose proof (temperature_penalty_mono
                  (mkMetrics c me d n l (Some t) f)
                  (mkMetrics c me d n l (Some t') f) t t'
                  eq_refl eq_refl H).
    unfold cpu_penalty, memory_penalty, disk_penalty,
      cpu_rule, memory_rule, disk_rule in *. simpl in *. lia.
Qed.

(** C5. Of two snapshots that are equal except that the second has a
    strictly higher cpu_percent, memory_percent, disk_percent or temperature,
    the second scores no higher than the first. *)
Theorem C5_score_monotone (m m' : PerformanceMetrics) :
  worse m m' ->
  exists s s' : Z,
    get_system_health_score (Some m) !! "score" = Some (VInt s)
    /\ get_system_health_score (Some m') !! "score" = Some (VInt s')
    /\ s' <= s.
Proof.
  intros Hw. pose proof (worse_score_le m m' Hw).
  pose proof (score_bounds m). pose proof (score_bounds m').
  exists (score (apply_rules m)), (score (apply_rules m')).
  rewrite !lookup_score, !Z.max_r by lia. auto.
Qed.

Lemma C5_score_monotone_witness :
  worse (metrics_of 70 50 50 None) (metrics_of 85 50 50 None)
  /\ exists s s' : Z,
       get_system_health_score (Some (metrics_of 70 50 50 None)) !! "score"
       = Some (VInt s)
       /\ get_system_health_score (Some (metrics_of 85 50 50 None)) !! "score"
          = Some (VInt s')
       /\ s' <= s.
Proof.
  assert (Hw : worse (metrics_of 70 50 50 None) (metrics_of 85 50 50 None))
    by (apply worse_cpu; reflexivity).
  split; [exact Hw|].
  apply (C5_score_monotone _ _ Hw).
Defined.

(** *** Issues and recommendations *)

(** C6. The issues of every assessment hold at most one CPU usage issue, at
    most one memory issue and at most one disk issue, never both "High CPU
    usage" and "Moderate CPU usage"; the temperature issue is independent: it
    occurs together with each of the other six issues in some assessment, and
    with none of them in another. *)
Theorem C6_one_issue_per_band :
  (forall m : PerformanceMetrics,
     exists l : list string,
       get_system_health_score (Some m) !! "issues" = Some (VList l)
       /\ (count_labels cpu_labels l <= 1)%nat
       /\ (count_labels memory_labels l <= 1)%nat
       /\ (count_labels disk_labels l <= 1)%nat
       /\ (count_labels [temperature_label] l <= 1)%nat
       /\ ~ ("High CPU usage" ∈ l /\ "Moderate CPU usage" ∈ l))
  /\ (forall label : string,
        label ∈ cpu_labels ++ memory_labels ++ disk_labels ->
        exists m : PerformanceMetrics,
          label ∈ issues (apply_rules m)
          /\ temperature_label ∈ issues (apply_rules m))
  /\ (exists m : PerformanceMetrics,
        issues (apply_rules m) = [temperature_label])
  /\ (exists m : PerformanceMetrics,
        issues (apply_rules m)
        = ["High CPU usage"; "Critical memory usage"; "Critical disk usage";
           temperature_label]).
Proof.
  split.
  { intros m. exists (issues (apply_rules m)). rewrite lookup_issues.
    split; [reflexivity|].
    rule_cases m; vm_compute;
      (repeat split; try lia;
       intros [H1 H2]; apply list_elem_of_In in H1, H2; simpl in H1, H2;
       intuition discriminate). }
  split.
  { intros label Hl. apply list_elem_of_In in Hl. simpl in Hl.
    destruct Hl as [<-|[<-|[<-|[<-|[<-|[<-|[]]]]]]].
    - exists (metrics_of 85 50 50 (Some 85%float)).
      split; apply list_elem_of_In; vm_compute; tauto.
    - exists (metrics_of 70 50 50 (Some 85%float)).
      split; apply list_elem_of_In; vm_compute; tauto.
    - exists (metrics_of 50 95 50 (Some 85%float)).
      split; apply list_elem_of_In; vm_compute; tauto.
    - exists (metrics_of 50 85 50 (Some 85%float)).
      split; apply list_elem_of_In; vm_compute; tauto.
    - exists (metrics_of 50 50 97 (Some 85%float)).
      split; apply list_elem_of_In; vm_compute; tauto.
    - exists (metrics_of 50 50 90 (Some 85%float)).
      split; apply list_elem_of_In; vm_compute; tauto. }
  split.
  - exists (metrics_of 50 50 50 (Some 85%float)). reflexivity.
  - exists (metrics_of 85 95 97 (Some 85%float)). reflexivity.
Qed.

Lemma C6_one_issue_per_band_witness :
  exists m : PerformanceMetrics,
    "High CPU usage" ∈ issues (apply_rules m)
    /\ temperature_label ∈ issues (apply_rules m).
Proof.
  apply (proj1 (proj2 C6_one_issue_per_band) "High CPU usage").
  apply list_elem_of_In. simpl. tauto.
Defined.

(** The accumulating loop of [get_recommendations] lays the contributions of
    the issues side by side. *)
Lemma recommend_issue_app (acc : list string) (issue : string) :
  recommend_issue acc issue = acc ++ recommend_issue [] issue.
Proof.
  unfold recommend_issue, append_if.
  destruct (str_in "CPU" issue), (str_in "memory" issue),
           (str_in "disk" issue), (str_in "temperature" issue);
    cbn [app]; rewrite <- ?app_assoc; cbn [app]; rewrite ?app_nil_r;
    reflexivity.
Qed.

Lemma fold_recommend_issue (l acc : list string) :
  fold_left recommend_issue l acc
  = acc ++ flat_map (recommend_issue []) l.
Proof.
  revert acc. induction l as [|issue l IH]; intros acc; simpl.
  - now rewrite app_nil_r.
  - rewrite IH, (recommend_issue_app acc), <- app_assoc. reflexivity.
Qed.

Lemma get_recommendations_flat_map (l : list string) :
  get_recommendations l = flat_map (recommend_issue []) l.
Proof. unfold get_recommendations. now rewrite fold_recommend_issue. Qed.

(** Every keyword an issue mentions puts its recommendation in the result. *)
Lemma keyword_recommended (kw r issue : string) (l : list string) :
  (kw, r) ∈ [("CPU", rec_cpu); ("memory", rec_memory); ("disk", rec_disk);
             ("temperature", rec_cooling)] ->
  issue ∈ l -> str_in kw issue = true -> r ∈ get_recommendations l.
Proof.
  intros Hkw Hin Hsub. rewrite get_recommendations_flat_map.
  apply list_elem_of_In, in_flat_map. exists issue.
  split; [now apply list_elem_of_In|].
  apply list_elem_of_In in Hkw. simpl in Hkw.
  unfold recommend_issue, append_if.
  destruct Hkw as [E|[E|[E|[E|[]]]]]; injection E as <- <-; rewrite Hsub;
    destruct (str_in "CPU" issue), (str_in "memory" issue),
             (str_in "disk" issue), (str_in "temperature" issue);
    simpl; tauto.
Qed.

(** C1 (amended). The recommendation mapping tests every issue for the
    four keywords independently and appends one recommendation for each
    keyword the issue mentions.  On the issues of the scorer a CPU usage
    issue yields the CPU recommendation, a memory issue the memory
    recommendation, a disk issue the disk recommendation, and "High CPU
    temperature", which mentions both "CPU" and "temperature", yields the CPU
    recommendation followed by the cooling recommendation; the
    recommendations list has one entry for each issue and one more when the
    temperature issue is among them. *)
Theorem C1_recommendations_per_issue :
  (forall (kw r issue : string) (l : list string),
     (kw, r) ∈ [("CPU", rec_cpu); ("memory", rec_memory); ("disk", rec_disk);
                ("temperature", rec_cooling)] ->
     issue ∈ l -> str_in kw issue = true -> r ∈ get_recommendations l)
  /\ (forall m : PerformanceMetrics,
        exists l r : list string,
          get_system_health_score (Some m) !! "issues" = Some (VList l)
          /\ get_system_health_score (Some m) !! "recommendations"
             = Some (VList r)
          /\ r = flat_map recommendations_of_label l
          /\ length r = (length l + count_labels [temperature_label] l)%nat).
Proof.
  split; [exact keyword_recommended|].
  intros m. exists (issues (apply_rules m)).
  exists (get_recommendations (issues (apply_rules m))).
  rewrite lookup_issues, lookup_recommendations.
  do 2 (split; [reflexivity|]).
  rule_cases m; vm_compute; split; reflexivity.
Qed.

Lemma C1_recommendations_per_issue_witness :
  rec_cpu ∈ get_recommendations ["High CPU temperature"]
  /\ rec_cooling ∈ get_recommendations ["High CPU temperature"].
Proof.
  split.
  - apply (proj1 C1_recommendations_per_issue "CPU" rec_cpu
             "High CPU temperature" ["High CPU temperature"]).
    + apply list_elem_of_In. simpl. tauto.
    + apply list_elem_of_In. simpl. tauto.
    + reflexivity.
  - apply (proj1 C1_recommendations_per_issue "temperature" rec_cooling
             "High CPU temperature" ["High CPU temperature"]).
    + apply list_elem_of_In. simpl. tauto.
    + apply list_elem_of_In. simpl. tauto.
    + reflexivity.
Defined.

(** C1 (as stated) fails: a snapshot whose only issue is the temperature
    gets two recommendations for its one issue. *)
Lemma C1_two_recommendations_for_one_issue :
  let d := get_system_health_score (Some (metrics_of 50 50 50 (Some 85%float))) in
  d !! "issues" = Some (VList ["High CPU temperature"])
  /\ d !! "recommendations" = Some (VList [rec_cpu; rec_cooling])
  /\ ~ (exists l r : list string,
          d !! "issues" = Some (VList l)
          /\ d !! "recommendations" = Some (VList r)
          /\ length r = length l).
Proof.
  cbv zeta. split; [reflexivity|]. split; [reflexivity|].
  intros (l & r & Hl & Hr & Hlen).
  vm_compute in Hl, Hr. injection Hl as <-. injection Hr as <-.
  discriminate Hlen.
Qed.

(** C2. Without metrics the scorer returns score 0, status "Unknown" and the
    single issue "Unable to get metrics", under the three keys score, status
    and issues: the sentinel has no recommendations entry, whereas every
    scored assessment has exactly the four keys. *)
Theorem C2_sentinel_has_three_keys :
  get_system_health_score None !! "score" = Some (VInt 0)
  /\ get_system_health_score None !! "status" = Some (VStr "Unknown")
  /\ get_system_health_score None !! "issues"
     = Some (VList ["Unable to get metrics"])
  /\ get_system_health_score None !! "recommendations" = None
  /\ dom (get_system_health_score None)
     = ({["score"; "status"; "issues"]} : gset string)
  /\ dom (get_system_health_score None)
     <> ({["score"; "status"; "issues"; "recommendations"]} : gset string)
  /\ (forall m : PerformanceMetrics,
        dom (get_system_health_score (Some m))
        = ({["score"; "status"; "issues"; "recommendations"]} : gset string)).
Proof.
  assert (Hdom : dom (get_system_health_score None)
                 = ({["score"; "status"; "issues"]} : gset string)).
  { unfold get_system_health_score. cbn [list_to_map foldr].
    rewrite !dom_insert_L, dom_empty_L. set_solver. }
  repeat split; try reflexivity; try exact Hdom; try exact dom_scored.
  intros H.
  assert (Hin : "recommendations" ∈ dom (get_system_health_score None))
    by (rewrite H; set_solver).
  apply elem_of_dom in Hin. destruct Hin as [v Hv]. discriminate Hv.
Qed.

(** ** The sampling loop *)

Lemma sleep_error_Some (interval : Z) (e : exn) :
  sleep_error interval = Some e ->
  (e = OverflowError /\ (interval < - sleep_max \/ sleep_max < interval))
  \/ (e = ValueError /\ - sleep_max <= interval < 0).
Proof.
  unfold sleep_error.
  destruct (Z.ltb_spec interval (- sleep_max)) as [H1|H1]; cbn [orb].
  - intros [= <-]. left. split; [reflexivity|now left].
  - destruct (Z.ltb_spec sleep_max interval) as [H2|H2].
    + intros [= <-]. left. split; [reflexivity|now right].
    + destruct (Z.ltb_spec interval 0) as [H3|H3]; [|discriminate].
      intros [= <-]. right. split; [reflexivity|lia].
Qed.

Lemma sleep_error_None (interval : Z) :
  sleep_error interval = None <-> 0 <= interval <= sleep_max.
Proof.
  unfold sleep_error.
  destruct (Z.ltb_spec interval (- sleep_max)) as [H1|H1]; cbn [orb].
  - split; [discriminate|]. unfold sleep_max in *. lia.
  - destruct (Z.ltb_spec sleep_max interval) as [H2|H2].
    + split; [discriminate|lia].
    + destruct (Z.ltb_spec interval 0) as [H3|H3].
      * split; [discriminate|lia].
      * split; [lia|reflexivity].
Qed.

Lemma sleep_error_negative (interval : Z) :
  interval < 0 ->
  sleep_error interval
  = Some (if interval <? - sleep_max then OverflowError else ValueError).
Proof.
  intros Hi. unfold sleep_error.
  destruct (Z.ltb_spec interval (- sleep_max)) as [H1|H1]; cbn [orb];
    [reflexivity|].
  destruct (Z.ltb_spec sleep_max interval) as [H2|H2];
    [unfold sleep_max in *; lia|].
  now rewrite (proj2 (Z.ltb_lt _ _) Hi).
Qed.

(** An int of at most 640 digits is printed whatever the limit is. *)
Lemma exceeds_str_digits_small (env : Env) (n : Z) :
  Z.abs n < 10 ^ 640 -> exceeds_str_digits env n = false.
Proof.
  intros Hn. unfold exceeds_str_digits.
  destruct (0 <? int_max_str_digits env); [|reflexivity]. cbn [andb].
  apply Z.leb_gt.
  assert (H : 10 ^ 640 <= 10 ^ Z.max 640 (int_max_str_digits env))
    by (apply Z.pow_le_mono_r; lia).
  revert Hn H. generalize (10 ^ 640), (Z.abs n),
    (10 ^ Z.max 640 (int_max_str_digits env)). intros; lia.
Qed.

(** A call that gets past its prints runs the loop from the initial
    state. *)
Lemma monitor_system_loop (env : Env) (duration interval : Z) (fuel : nat) :
  exceeds_str_digits env duration = false ->
  sigint env BeforeTry = false ->
  monitor_system env duration interval fuel
  = while_loop fuel env (start_clock env) duration interval
      (initial_state env).
Proof. intros Hd Hs. unfold monitor_system. now rewrite Hd, Hs. Qed.

Lemma data_point_swallow (now : Z) (f : bool) (m : PerformanceMetrics) :
  data_point now (swallow false f m) = data_point now m.
Proof. reflexivity. Qed.

Section Loop.

Variable env : Env.
Variables start_time duration interval : Z.

Lemma while_loop_stop (fuel : nat) (st : LoopState) :
  monitoring st && (clock st - start_time <? duration) = false ->
  while_loop fuel env start_time duration interval st
  = Some (Returned (data_points st)).
Proof. intros H. destruct fuel; simpl; now rewrite H. Qed.

Lemma while_loop_next (fuel : nat) (st st' : LoopState) :
  monitoring st = true -> clock st - start_time < duration ->
  loop_body env interval st = Next st' ->
  while_loop (S fuel) env start_time duration interval st
  = while_loop fuel env start_time duration interval st'.
Proof.
  intros Hm Hc Hb. simpl.
  rewrite Hm, (proj2 (Z.ltb_lt _ _) Hc), Hb. reflexivity.
Qed.

(** An iteration that no Ctrl+C ends and whose sleep is accepted. *)
Lemma loop_body_next (st : LoopState) :
  sigint env (InRead (tick st)) = false ->
  sigint env (InSleep (tick st)) = false ->
  0 <= interval <= sleep_max ->
  loop_body env interval st
  = Next {| clock := clock st + read_time env (tick st) + interval;
            tick := S (tick st);
            data_points :=
              match read_metrics env (tick st) with
              | Some m =>
                  data_points st
                  ++ [data_point
                        (datetime_now env
                           (clock st + read_time env (tick st))) m]
              | None => data_points st
              end;
            monitoring := monitoring st |}.
Proof.
  intros Hr Hs Hi. unfold loop_body. rewrite Hr, Hs.
  now rewrite (proj2 (sleep_error_None interval) Hi).
Qed.

(** One full iteration of the loop. *)
Lemma while_loop_tick (fuel : nat) (st : LoopState) :
  sigint env (InRead (tick st)) = false ->
  sigint env (InSleep (tick st)) = false ->
  0 <= interval <= sleep_max ->
  monitoring st = true -> clock st - start_time < duration ->
  while_loop (S fuel) env start_time duration interval st
  = while_loop fuel env start_time duration interval
      {| clock := clock st + read_time env (tick st) + interval;
         tick := S (tick st);
         data_points :=
           match read_metrics env (tick st) with
           | Some m =>
               data_points st
               ++ [data_point
                     (datetime_now env
                        (clock st + read_time env (tick st))) m]
           | None => data_points st
           end;
         monitoring := monitoring st |}.
Proof.
  intros Hr Hs Hi Hm Hc.
  apply while_loop_next; [exact Hm|exact Hc|].
  now apply loop_body_next.
Qed.

(** How an iteration can end. *)
Lemma loop_body_cases (st : LoopState) :
  let st1 :=
    {| clock := clock st + read_time env (tick st);
       tick := S (tick st);
       data_points :=
         match read_metrics env (tick st) with
         | Some m =>
             data_points st
             ++ [data_point
                   (datetime_now env (clock st + read_time env (tick st))) m]
         | None => data_points st
         end;
       monitoring := monitoring st |} in
  (sigint env (InRead (tick st)) = true
   /\ loop_body env interval st = Raise KeyboardInterrupt st)
  \/ (sigint env (InRead (tick st)) = false
      /\ exists e : exn,
           sleep_error interval = Some e
           /\ e <> KeyboardInterrupt
           /\ loop_body env interval st = Raise e st1)
  \/ (sigint env (InRead (tick st)) = false
      /\ 0 <= interval <= sleep_max
      /\ sigint env (InSleep (tick st)) = true
      /\ loop_body env interval st = Raise KeyboardInterrupt st1)
  \/ (sigint env (InRead (tick st)) = false
      /\ 0 <= interval <= sleep_max
      /\ sigint env (InSleep (tick st)) = false
      /\ loop_body env interval st
         = Next {| clock := clock st1 + interval; tick := tick st1;
                   data_points := data_points st1;
                   monitoring := monitoring st1 |}).
Proof.
  intros st1. unfold loop_body.
  destruct (sigint env (InRead (tick st))) eqn:Er; [now left|right].
  destruct (sleep_error interval) as [e|] eqn:Ee.
  - left. split; [reflexivity|]. exists e. split; [reflexivity|].
    split; [|reflexivity].
    apply sleep_error_Some in Ee as [[-> _]|[-> _]]; discriminate.
  - right. apply sleep_error_None in Ee.
    destruct (sigint env (InSleep (tick st))) eqn:Es; [left|right];
      repeat split; try assumption; try lia.
Qed.

(** More fuel does not change the outcome of a run that ended. *)
Lemma while_loop_fuel_mono (fuel fuel' : nat) (st : LoopState) (o : outcome) :
  while_loop fuel env start_time duration interval st = Some o ->
  (fuel <= fuel')%nat ->
  while_loop fuel' env start_time duration interval st = Some o.
Proof.
  revert fuel' st. induction fuel as [|fuel IH]; intros fuel' st H Hle.
  - simpl in H.
    destruct (monitoring st && (clock st - start_time <? duration)) eqn:E;
      [discriminate H|].
    now rewrite while_loop_stop.
  - destruct fuel' as [|fuel']; [lia|]. simpl in *.
    destruct (monitoring st && (clock st - start_time <? duration));
      [|exact H].
    destruct (loop_body env interval st) as [st'|e st']; [|exact H].
    apply IH; [exact H|lia].
Qed.



(** The loop itself never reports an exception from before the [try]. *)
Lemma while_loop_not_before (fuel : nat) (st : LoopState) (e : exn) :
  while_loop fuel env start_time duration interval st
  <> Some (RaisedBefore e).
Proof.
  revert st. induction fuel as [|fuel IH]; intros st H; simpl in H.
  - destruct (monitoring st && (clock st - start_time <? duration));
      discriminate H.
  - destruct (monitoring st && (clock st - start_time <? duration));
      [|discriminate H].
    destruct (loop_body env interval st) as [st'|e' st'].
    + now apply IH in H.
    + destruct e'; try discriminate H.
      destruct (sigint env InHandler); discriminate H.
Qed.


End Loop.

Lemma samples_S (env : Env) (interval : Z) (n : nat) :
  samples env interval (S n)
  = samples env interval n
    ++ match sample env interval n with
       | Some p => [p]
       | None => []
       end.
Proof.
  unfold samples. rewrite seq_S, omap_app. f_equal.
Qed.

Section Run.

Variable env : Env.
Variables duration interval : Z.

Hypothesis no_sigint_read : forall k, sigint env (InRead k) = false.
Hypothesis no_sigint_sleep : forall k, sigint env (InSleep k) = false.
Hypothesis interval_ok : 0 <= interval <= sleep_max.



End Run.

(** C7 (amended). The run operation does not validate its arguments.  An
    exception leaves the call before the loop exactly when the first print
    cannot render the duration (it has more digits than the interpreter
    allows for an int, whatever its sign) or Ctrl+C arrives during the
    prints; the sign of an argument plays no part.  Otherwise, with a
    duration that is negative (or zero) the loop condition is false at once:
    the call returns the empty buffer without an error, whatever the
    interval.  With a negative interval and a positive duration the first
    tick is sampled (unless Ctrl+C ends its read), and the sleep that follows
    it raises [ValueError], or [OverflowError] for an interval below
    [- sleep_max], which leaves the call. *)
Theorem C7_arguments_are_not_validated (env : Env) (duration interval : Z)
    (fuel : nat) :
  (surfaced_before_loop (monitor_system env duration interval fuel)
   <-> exceeds_str_digits env duration = true
       \/ sigint env BeforeTry = true)
  /\ (exceeds_str_digits env duration = false ->
      sigint env BeforeTry = false ->
      duration <= 0 ->
      monitor_system env duration interval fuel = Some (Returned []))
  /\ (exceeds_str_digits env duration = false ->
      sigint env BeforeTry = false ->
      sigint env (InRead 0) = false ->
      interval < 0 -> 0 < duration ->
      exists st : LoopState,
        monitor_system env duration interval (S fuel)
        = Some (Raised (if interval <? - sleep_max
                        then OverflowError else ValueError) st)
        /\ tick st = 1%nat
        /\ data_points st
           = match read_metrics env O with
             | Some m =>
                 [data_point
                    (datetime_now env (start_clock env + read_time env O))
                    m]
             | None => []
             end).
Proof.
  split; [|split].
  - unfold surfaced_before_loop, monitor_system.
    destruct (exceeds_str_digits env duration).
    { split; [now left|]. intros _. now exists ValueError. }
    destruct (sigint env BeforeTry).
    { split; [now right|]. intros _. now exists KeyboardInterrupt. }
    split.
    + intros [e H]. now apply while_loop_not_before in H.
    + intros [H|H]; discriminate H.
  - intros Hp Hb Hd. rewrite monitor_system_loop by assumption.
    apply while_loop_stop. simpl. apply Z.ltb_ge. lia.
  - intros Hp Hb Hr Hi Hd. rewrite monitor_system_loop by assumption.
    unfold initial_state. cbn [while_loop monitoring clock andb].
    replace (start_clock env - start_clock env <? duration) with true
      by (symmetry; apply Z.ltb_lt; lia).
    unfold loop_body. cbn [tick clock data_points monitoring].
    rewrite Hr, (sleep_error_negative interval Hi).
    destruct (interval <? - sleep_max);
      (eexists; split; [reflexivity|]; split; [reflexivity|]);
      cbn [data_points]; destruct (read_metrics env O); reflexivity.
Qed.

Lemma C7_arguments_are_not_validated_witness :
  monitor_system (steady_env (metrics_of 85 50 50 None)) (-1) 5 10
  = Some (Returned [])
  /\ exists st : LoopState,
       monitor_system (steady_env (metrics_of 85 50 50 None)) 10 (-1) 10
       = Some (Raised ValueError st)
       /\ tick st = 1%nat
       /\ data_points st = [data_point 0 (metrics_of 85 50 50 None)].
Proof.
  split.
  - apply (proj1 (proj2 (C7_arguments_are_not_validated
                    (steady_env (metrics_of 85 50 50 None)) (-1) 5 10)));
      [vm_compute; reflexivity|reflexivity|lia].
  - apply (proj2 (proj2 (C7_arguments_are_not_validated
                    (steady_env (metrics_of 85 50 50 None)) 10 (-1) 9)));
      [vm_compute; reflexivity|reflexivity|reflexivity|lia|lia].
Defined.

(** C7 (as stated) fails: a negative duration is answered with an empty
    buffer and no error, and a negative interval raises only after the first
    tick was sampled. *)
Lemma C7_negative_arguments_not_rejected :
  monitor_system (steady_env (metrics_of 85 50 50 None)) (-1) 5 10
  = Some (Returned [])
  /\ ~ surfaced_before_loop
         (monitor_system (steady_env (metrics_of 85 50 50 None)) (-1) 5 10)
  /\ ~ surfaced_before_loop
         (monitor_system (steady_env (metrics_of 85 50 50 None)) 10 (-1) 10)
  /\ exists st : LoopState,
       monitor_system (steady_env (metrics_of 85 50 50 None)) 10 (-1) 10
       = Some (Raised ValueError st)
       /\ data_points st = [data_point 0 (metrics_of 85 50 50 None)].
Proof.
  split; [vm_compute; reflexivity|].
  split; [intros [e H]; vm_compute in H; discriminate H|].
  split; [intros [e H]; vm_compute in H; discriminate H|].
  eexists. split; [vm_compute; reflexivity|reflexivity].
Qed.



(** C9. Let every iteration check the elapsed time, then sample, then
    advance the clock by the interval (reads take no time, nobody presses
    Ctrl+C).  A run with duration 0 and interval 5 returns the empty buffer
    at once, without error; a run with duration 12 and interval 5 over a
    provider that always succeeds returns exactly three data points, taken
    at elapsed times 0, 5 and 10. *)
Theorem C9_tick_count (env : Env) (fuel : nat) :
  (forall k, read_time env k = 0) ->
  (forall p, sigint env p = false) ->
  (forall k, is_Some (provider env k)) ->
  (3 <= fuel)%nat ->
  (forall fuel0 : nat, monitor_system env 0 5 fuel0 = Some (Returned []))
  /\ exists m0 m1 m2 : PerformanceMetrics,
       provider env 0%nat = Some m0
       /\ provider env 1%nat = Some m1
       /\ provider env 2%nat = Some m2
       /\ monitor_system env 12 5 fuel
          = Some (Returned
                    [data_point (datetime_now env (start_clock env)) m0;
                     data_point (datetime_now env (start_clock env + 5)) m1;
                     data_point (datetime_now env (start_clock env + 10))
                       m2]).
Proof.
  intros Hr Hs Hp Hf.
  assert (Hp0 : exceeds_str_digits env 0 = false)
    by (apply exceeds_str_digits_small; vm_compute; reflexivity).
  assert (Hp12 : exceeds_str_digits env 12 = false)
    by (apply exceeds_str_digits_small; vm_compute; reflexivity).
  split.
  { intros fuel0. rewrite monitor_system_loop by (try apply Hs; assumption).
    apply while_loop_stop. simpl. apply Z.ltb_ge. lia. }
  destruct (Hp 0%nat) as [m0 H0], (Hp 1%nat) as [m1 H1],
           (Hp 2%nat) as [m2 H2].
  exists m0, m1, m2. do 3 (split; [assumption|]).
  rewrite monitor_system_loop by (try apply Hs; assumption).
  apply (while_loop_fuel_mono env _ _ _ 3 fuel); [|exact Hf].
  unfold initial_state.
  rewrite while_loop_tick
    by first [apply Hs | reflexivity | unfold sleep_max; simpl; lia].
  cbn [tick clock data_points monitoring]. unfold read_metrics at 1.
  rewrite Hr, H0, !Hs.
  rewrite while_loop_tick
    by first [apply Hs | reflexivity | unfold sleep_max; simpl; lia].
  cbn [tick clock data_points monitoring]. unfold read_metrics at 1.
  rewrite Hr, H1, !Hs.
  rewrite while_loop_tick
    by first [apply Hs | reflexivity | unfold sleep_max; simpl; lia].
  cbn [tick clock data_points monitoring]. unfold read_metrics at 1.
  rewrite Hr, H2, !Hs.
  rewrite while_loop_stop
    by (cbn [monitoring clock andb]; apply Z.ltb_ge; lia).
  cbn [data_points app]. rewrite !data_point_swallow.
  replace (start_clock env + 0) with (start_clock env) by lia.
  replace (start_clock env + 5 + 0) with (start_clock env + 5) by lia.
  replace (start_clock env + 5 + 5 + 0) with (start_clock env + 10) by lia.
  reflexivity.
Qed.

Lemma C9_tick_count_witness :
  monitor_system (steady_env (metrics_of 85 50 50 None)) 0 5 0
  = Some (Returned [])
  /\ exists m0 m1 m2 : PerformanceMetrics,
       provider (steady_env (metrics_of 85 50 50 None)) 0%nat = Some m0
       /\ provider (steady_env (metrics_of 85 50 50 None)) 1%nat = Some m1
       /\ provider (steady_env (metrics_of 85 50 50 None)) 2%nat = Some m2
       /\ monitor_system (steady_env (metrics_of 85 50 50 None)) 12 5 7
          = Some (Returned [data_point (0 : Z) m0;
                            data_point (0 + 5) m1;
                            data_point (0 + 10) m2]).
Proof.
  destruct (C9_tick_count (steady_env (metrics_of 85 50 50 None)) 7)
    as [Hzero Hrun].
  - reflexivity.
  - reflexivity.
  - intros k. simpl. eexists. reflexivity.
  - lia.
  - split; [apply Hzero|exact Hrun].
Defined.

(** * Further properties of the scorer *)

(** ** Substrings *)

Lemma prefix_spec (n h : string) :
  String.prefix n h = true <-> exists post : string, h = (n ++ post)%string.
Proof.
  revert h. induction n as [|a n IH]; intros h.
  - split; [intros _; now exists h|intros _; now destruct h].
  - destruct h as [|b h]; simpl.
    + split; [discriminate|intros [post H]; discriminate H].
    + destruct (Ascii.ascii_dec a b) as [->|Hne].
      * rewrite IH. split; intros [post H]; exists post.
        -- now rewrite H.
        -- now injection H.
      * split; [discriminate|].
        intros [post H]. injection H as H1 _. congruence.
Qed.

(** [str_in] decides the substring relation. *)
Lemma str_in_spec (n h : string) : str_in n h = true <-> is_substring n h.
Proof.
  unfold is_substring. induction h as [|b h IH].
  - cbn [str_in]. rewrite orb_false_r, prefix_spec. split.
    + intros [post H]. now exists EmptyString, post.
    + intros ([|c pre] & post & H); [now exists post|discriminate H].
  - cbn [str_in]. rewrite orb_true_iff, prefix_spec, IH. split.
    + intros [[post H]|(pre & post & H)].
      * now exists EmptyString, post.
      * exists (String b pre), post. simpl. now rewrite H.
    + intros ([|c pre] & post & H).
      * left. now exists post.
      * right. injection H as _ H. now exists pre, post.
Qed.

(** ** NaN readings *)

Lemma SFeqb_refl_false (s : spec_float) : SFeqb s s = false -> s = S754_nan.
Proof.
  unfold SFeqb, SFcompare.
  destruct s as [[|]|[|]| |[|] m e]; try discriminate; try reflexivity;
    rewrite Z.compare_refl; change (Pos.compare_cont Eq m m) with (m ?= m)%positive;
    rewrite Pos.compare_refl; discriminate.
Qed.

(** No comparison with a NaN succeeds. *)
Lemma gtb_nan (x c : float) : PrimFloat.is_nan x = true -> PyFloat.gtb x c = false.
Proof.
  unfold PrimFloat.is_nan, PyFloat.gtb. intros H.
  apply negb_true_iff in H. rewrite FloatAxioms.eqb_spec in H.
  apply SFeqb_refl_false in H.
  rewrite FloatAxioms.ltb_spec, H. unfold SFltb, SFcompare.
  now destruct (Prim2SF c).
Qed.

Lemma temperature_high_iff (temp : option float) :
  temperature_high temp = true
  <-> exists t : float, temp = Some t /\ PyFloat.gtb t 80 = true.
Proof.
  destruct temp as [t|].
  - rewrite temperature_high_Some. split.
    + intros H. now exists t.
    + now intros (t' & [= <-] & H).
  - simpl. split; [discriminate|]. now intros (t & H & _).
Qed.

(** Membership in a list of string literals. *)
Ltac in_labels :=
  intros;
  repeat match goal with
         | H : _ ∈ _ |- _ => apply list_elem_of_In in H; simpl in H
         end;
  rewrite ?list_elem_of_In; simpl; intuition (discriminate || congruence).

(** ** What the issues say about the snapshot *)

(** X1. Each issue is reported exactly when its threshold is exceeded, the
    comparisons being strict: "High CPU usage" when cpu_percent > 80,
    "Moderate CPU usage" when cpu_percent > 60 but not > 80, the memory
    issues at 90 and 80, the disk issues at 95 and 85, and "High CPU
    temperature" when a temperature is present and > 80; nothing else is ever
    reported. *)
Theorem X1_issue_iff_threshold (m : PerformanceMetrics) :
  exists l : list string,
    get_system_health_score (Some m) !! "issues" = Some (VList l)
    /\ ("High CPU usage" ∈ l <-> PyFloat.gtb (cpu_percent m) 80 = true)
    /\ ("Moderate CPU usage" ∈ l
        <-> PyFloat.gtb (cpu_percent m) 80 = false
            /\ PyFloat.gtb (cpu_percent m) 60 = true)
    /\ ("Critical memory usage" ∈ l
        <-> PyFloat.gtb (memory_percent m) 90 = true)
    /\ ("High memory usage" ∈ l
        <-> PyFloat.gtb (memory_percent m) 90 = false
            /\ PyFloat.gtb (memory_percent m) 80 = true)
    /\ ("Critical disk usage" ∈ l <-> PyFloat.gtb (disk_percent m) 95 = true)
    /\ ("High disk usage" ∈ l
        <-> PyFloat.gtb (disk_percent m) 95 = false
            /\ PyFloat.gtb (disk_percent m) 85 = true)
    /\ ("High CPU temperature" ∈ l
        <-> exists t : float,
              temperature m = Some t /\ PyFloat.gtb t 80 = true)
    /\ (forall x : string, x ∈ l -> x ∈ all_labels).
Proof.
  exists (issues (apply_rules m)). rewrite lookup_issues.
  split; [reflexivity|]. rewrite <- temperature_high_iff.
  unfold all_labels, cpu_labels, memory_labels, disk_labels,
    temperature_label.
  unfold apply_rules, temperature_rule, disk_rule, memory_rule, cpu_rule.
  destruct (PyFloat.gtb (cpu_percent m) 80);
    destruct (PyFloat.gtb (cpu_percent m) 60);
    destruct (PyFloat.gtb (memory_percent m) 90);
    destruct (PyFloat.gtb (memory_percent m) 80);
    destruct (PyFloat.gtb (disk_percent m) 95);
    destruct (PyFloat.gtb (disk_percent m) 85);
    destruct (temperature_high (temperature m));
    cbn [issues penalise app];
    (repeat split; in_labels).
Qed.

(** X2. The score is 100 minus the penalties of the issues that are
    reported (20 and 10 for CPU, 25 and 15 for memory, 30 and 15 for disk, 20
    for temperature); it is 100 exactly when there is no issue, and there are
    recommendations exactly when there are issues. *)
Theorem X2_score_from_issues (m : PerformanceMetrics) :
  exists (s : Z) (l r : list string),
    get_system_health_score (Some m) !! "score" = Some (VInt s)
    /\ get_system_health_score (Some m) !! "issues" = Some (VList l)
    /\ get_system_health_score (Some m) !! "recommendations" = Some (VList r)
    /\ s = 100 - total_penalty l
    /\ (s = 100 <-> l = [])
    /\ (r = [] <-> l = []).
Proof.
  exists (score (apply_rules m)), (issues (apply_rules m)),
    (get_recommendations (issues (apply_rules m))).
  pose proof (score_bounds m) as Hb.
  rewrite lookup_score, lookup_issues, lookup_recommendations.
  rewrite Z.max_r by lia. clear Hb.
  do 3 (split; [reflexivity|]).
  rule_cases m; vm_compute; (split; [reflexivity|]);
    split; split; intros H; reflexivity || discriminate H.
Qed.

(** X3. A reading that is not a number is never penalised: a NaN
    cpu_percent, memory_percent, disk_percent or temperature raises no issue
    of its rule. *)
Theorem X3_nan_reading_not_penalised (m : PerformanceMetrics) :
  exists l : list string,
    get_system_health_score (Some m) !! "issues" = Some (VList l)
    /\ (PrimFloat.is_nan (cpu_percent m) = true ->
        count_labels cpu_labels l = O)
    /\ (PrimFloat.is_nan (memory_percent m) = true ->
        count_labels memory_labels l = O)
    /\ (PrimFloat.is_nan (disk_percent m) = true ->
        count_labels disk_labels l = O)
    /\ (forall t : float,
          temperature m = Some t -> PrimFloat.is_nan t = true ->
          count_labels [temperature_label] l = O).
Proof.
  exists (issues (apply_rules m)). rewrite lookup_issues.
  split; [reflexivity|].
  unfold apply_rules, temperature_rule, disk_rule, memory_rule, cpu_rule.
  repeat split.
  - intros H. rewrite !(gtb_nan _ _ H).
    repeat match goal with
           | |- context [if ?b then _ else _] => destruct b
           end; reflexivity.
  - intros H. rewrite !(gtb_nan _ _ H).
    repeat match goal with
           | |- context [if ?b then _ else _] => destruct b
           end; reflexivity.
  - intros H. rewrite !(gtb_nan _ _ H).
    repeat match goal with
           | |- context [if ?b then _ else _] => destruct b
           end; reflexivity.
  - intros t Ht H. rewrite Ht, temperature_high_Some, (gtb_nan _ _ H).
    repeat match goal with
           | |- context [if ?b then _ else _] => destruct b
           end; reflexivity.
Qed.

(** A snapshot of NaN readings only raises no issue at all. *)
Lemma X3_nan_reading_not_penalised_witness :
  exists l : list string,
    get_system_health_score
      (Some (metrics_of PrimFloat.nan PrimFloat.nan PrimFloat.nan
                        (Some PrimFloat.nan))) !! "issues"
    = Some (VList l)
    /\ count_labels all_labels l = O.
Proof.
  destruct (X3_nan_reading_not_penalised
              (metrics_of PrimFloat.nan PrimFloat.nan PrimFloat.nan
                          (Some PrimFloat.nan)))
    as (l & Hl & Hc & Hm & Hd & Ht).
  exists l. split; [exact Hl|].
  specialize (Hc eq_refl). specialize (Hm eq_refl). specialize (Hd eq_refl).
  specialize (Ht PrimFloat.nan eq_refl eq_refl).
  vm_compute in Hl. injection Hl as <-. reflexivity.
Defined.

(** X4. The issues are listed in the order in which the rules are evaluated
    (CPU, memory, disk, temperature) and no issue is listed twice. *)
Theorem X4_issues_in_rule_order (m : PerformanceMetrics) :
  exists l : list string,
    get_system_health_score (Some m) !! "issues" = Some (VList l)
    /\ sublist l all_labels
    /\ NoDup l
    /\ (length l <= 4)%nat.
Proof.
  exists (issues (apply_rules m)). rewrite lookup_issues.
  split; [reflexivity|].
  rule_cases m; cbn [issues penalise app]; unfold all_labels; simpl;
    (split; [repeat first [apply sublist_nil | apply sublist_skip
                          | apply sublist_cons]|]);
    (split; [apply (bool_decide_unpack _); vm_compute; exact I|lia]).
Qed.

(** X5. Every recommendation is one of the four fixed texts.  The memory,
    disk and cooling recommendations occur at most once; the CPU
    recommendation occurs twice exactly when a CPU usage issue and the
    temperature issue are both reported, and that is the only way in which a
    recommendation is repeated. *)
Theorem X5_repeated_recommendation (m : PerformanceMetrics) :
  exists l r : list string,
    get_system_health_score (Some m) !! "issues" = Some (VList l)
    /\ get_system_health_score (Some m) !! "recommendations" = Some (VList r)
    /\ (forall x : string, x ∈ r -> x ∈ snd <$> keyword_table)
    /\ (count_labels [rec_memory] r <= 1)%nat
    /\ (count_labels [rec_disk] r <= 1)%nat
    /\ (count_labels [rec_cooling] r <= 1)%nat
    /\ (count_labels [rec_cpu] r = 2%nat
        <-> count_labels cpu_labels l = 1%nat /\ temperature_label ∈ l)
    /\ (NoDup r
        <-> ~ (count_labels cpu_labels l = 1%nat /\ temperature_label ∈ l)).
Proof.
  exists (issues (apply_rules m)),
    (get_recommendations (issues (apply_rules m))).
  rewrite lookup_issues, lookup_recommendations.
  do 2 (split; [reflexivity|]).
  rule_cases m;
    (split; [intros x; vm_compute; intros Hx; apply list_elem_of_In in Hx;
             apply list_elem_of_In; simpl in *; tauto|]);
    (split; [vm_compute; lia|]); (split; [vm_compute; lia|]);
    (split; [vm_compute; lia|]);
    split; apply (bool_decide_unpack _); vm_compute; exact I.
Qed.

(** ** The recommendation mapping on arbitrary issue lists *)

Lemma recommend_issue_elem (issue r : string) :
  r ∈ recommend_issue [] issue
  <-> exists kw : string, (kw, r) ∈ keyword_table /\ str_in kw issue = true.
Proof.
  unfold recommend_issue, append_if, keyword_table. split.
  - destruct (str_in "CPU" issue) eqn:E1, (str_in "memory" issue) eqn:E2,
             (str_in "disk" issue) eqn:E3, (str_in "temperature" issue) eqn:E4;
      intros H; apply list_elem_of_In in H; simpl in H;
      repeat match goal with
             | H : _ \/ _ |- _ => destruct H as [<-|H]
             | H : False |- _ => destruct H
             end;
      first [ exists "CPU"; split; [in_labels|assumption]
            | exists "memory"; split; [in_labels|assumption]
            | exists "disk"; split; [in_labels|assumption]
            | exists "temperature"; split; [in_labels|assumption] ].
  - intros (kw & Hkw & Hin). apply list_elem_of_In in Hkw. simpl in Hkw.
    destruct Hkw as [E|[E|[E|[E|[]]]]]; injection E as <- <-; rewrite Hin;
      destruct (str_in "CPU" issue), (str_in "memory" issue),
               (str_in "disk" issue), (str_in "temperature" issue);
      in_labels.
Qed.

Lemma recommend_issue_length (issue : string) :
  (length (recommend_issue [] issue) <= 4)%nat.
Proof.
  unfold recommend_issue, append_if.
  destruct (str_in "CPU" issue), (str_in "memory" issue),
           (str_in "disk" issue), (str_in "temperature" issue); simpl; lia.
Qed.

(** X6. On any list of issues the recommendation mapping works issue by
    issue: the result for a concatenation is the concatenation of the
    results; a text is recommended exactly when some issue contains its
    keyword as a (case-sensitive) substring; an issue that contains none of
    the four keywords contributes nothing; and no issue contributes more
    than four entries. *)
Theorem X6_recommendations_issue_by_issue :
  (forall l1 l2 : list string,
     get_recommendations (l1 ++ l2)
     = get_recommendations l1 ++ get_recommendations l2)
  /\ (forall (l : list string) (r : string),
        r ∈ get_recommendations l
        <-> exists issue kw : string,
              issue ∈ l /\ (kw, r) ∈ keyword_table /\ is_substring kw issue)
  /\ (forall (l1 l2 : list string) (issue : string),
        (forall kw : string, kw ∈ fst <$> keyword_table ->
                             ~ is_substring kw issue) ->
        get_recommendations (l1 ++ issue :: l2) = get_recommendations (l1 ++ l2))
  /\ (forall l : list string,
        (length (get_recommendations l) <= 4 * length l)%nat).
Proof.
  split; [|split; [|split]].
  - intros l1 l2. rewrite !get_recommendations_flat_map.
    apply flat_map_app.
  - intros l r. rewrite get_recommendations_flat_map. split.
    + intros H. apply list_elem_of_In, in_flat_map in H.
      destruct H as (issue & Hin & Hr).
      apply list_elem_of_In, recommend_issue_elem in Hr.
      destruct Hr as (kw & Hkw & Hs).
      exists issue, kw. split; [now apply list_elem_of_In|].
      split; [exact Hkw|now apply str_in_spec].
    + intros (issue & kw & Hin & Hkw & Hs).
      apply list_elem_of_In, in_flat_map. exists issue.
      split; [now apply list_elem_of_In|].
      apply list_elem_of_In, recommend_issue_elem. exists kw.
      split; [exact Hkw|now apply str_in_spec].
  - intros l1 l2 issue Hno. rewrite !get_recommendations_flat_map.
    rewrite !flat_map_app. cbn [flat_map]. f_equal.
    assert (E : recommend_issue [] issue = []).
    { unfold recommend_issue, append_if.
      assert (Hf : forall kw, kw ∈ fst <$> keyword_table ->
                              str_in kw issue = false).
      { intros kw Hkw. destruct (str_in kw issue) eqn:E; [|reflexivity].
        apply str_in_spec in E. now destruct (Hno kw Hkw). }
      rewrite (Hf "CPU"), (Hf "memory"), (Hf "disk"), (Hf "temperature");
        first [reflexivity | in_labels]. }
    now rewrite E.
  - intros l. rewrite get_recommendations_flat_map.
    induction l as [|issue l IH]; [simpl; lia|].
    cbn [flat_map]. rewrite length_app.
    pose proof (recommend_issue_length issue). simpl length. lia.
Qed.

(** The issue of the sentinel assessment contains none of the keywords. *)
Lemma X6_recommendations_issue_by_issue_witness :
  get_recommendations (["High disk usage"] ++ "Unable to get metrics" :: [])
  = get_recommendations (["High disk usage"] ++ []).
Proof.
  apply (proj1 (proj2 (proj2 X6_recommendations_issue_by_issue))).
  intros kw Hkw Hs. apply str_in_spec in Hs.
  apply list_elem_of_In in Hkw. simpl in Hkw.
  destruct Hkw as [<-|[<-|[<-|[<-|[]]]]]; discriminate Hs.
Defined.

(** ** Status and temperature *)

Lemma SFltb_not_SFleb (a b : spec_float) :
  SFltb a b = true -> SFleb b a = false.
Proof.
  unfold SFltb, SFleb, SFcompare.
  destruct a as [sa|sa| |sa ma ea], b as [sb|sb| |sb mb eb];
    try destruct sa; try destruct sb; try discriminate; try reflexivity;
    change (Pos.compare_cont Eq) with Pos.compare;
    rewrite (Z.compare_antisym ea eb), (Pos.compare_antisym ma mb);
    destruct (ea ?= eb); simpl; try discriminate; try reflexivity;
    destruct (ma ?= mb)%positive; simpl; try discriminate; reflexivity.
Qed.

Lemma ltb_not_leb (x y : float) :
  PrimFloat.ltb x y = true -> PrimFloat.leb y x = false.
Proof.
  rewrite FloatAxioms.ltb_spec, FloatAxioms.leb_spec.
  apply SFltb_not_SFleb.
Qed.

Lemma status_rank_mono (s s' : Z) :
  s' <= s ->
  (status_rank (status_of_score s') <= status_rank (status_of_score s))%nat.
Proof.
  intros H. unfold status_of_score.
  repeat match goal with
         | |- context [?a >=? ?b] => destruct (Z.geb_spec a b)
         end; try lia; vm_compute; lia.
Qed.

(** X7. A snapshot that is worse in one dimension never gets a better
    status: from best to worst the statuses are Excellent, Good, Fair, Poor,
    Critical. *)
Theorem X7_status_monotone (m m' : PerformanceMetrics) :
  worse m m' ->
  exists st st' : string,
    get_system_health_score (Some m) !! "status" = Some (VStr st)
    /\ get_system_health_score (Some m') !! "status" = Some (VStr st')
    /\ (status_rank st' <= status_rank st)%nat.
Proof.
  intros Hw. exists (status_of_score (score (apply_rules m))),
    (status_of_score (score (apply_rules m'))).
  rewrite !lookup_status. do 2 (split; [reflexivity|]).
  apply status_rank_mono, worse_score_le, Hw.
Qed.

Lemma X7_status_monotone_witness :
  exists st st' : string,
    get_system_health_score (Some (metrics_of 50 85 97 None)) !! "status"
    = Some (VStr st)
    /\ get_system_health_score (Some (metrics_of 50 95 97 None)) !! "status"
       = Some (VStr st')
    /\ (status_rank st' <= status_rank st)%nat.
Proof.
  apply (X7_status_monotone (metrics_of 50 85 97 None)
                            (metrics_of 50 95 97 None)).
  apply worse_memory. reflexivity.
Defined.

(** X8. A temperature reading can only cost points: with the other fields
    equal, the snapshot without a temperature scores at least as high as the
    one with a temperature [t], and exactly as high unless [t > 80]; in
    particular a reading of zero, which the truth test of the rule treats as
    missing, and a reading of exactly 80 cost nothing. *)
Theorem X8_temperature_only_costs (c me d : float) (n : gmap string Z)
    (l : float * float * float) (f : option Z) (t : float) :
  exists s s' : Z,
    get_system_health_score (Some (mkMetrics c me d n l None f)) !! "score"
    = Some (VInt s)
    /\ get_system_health_score (Some (mkMetrics c me d n l (Some t) f))
       !! "score" = Some (VInt s')
    /\ s' = (if PyFloat.gtb t 80 then s - 20 else s)
    /\ (PrimFloat.leb t 80 = true -> s' = s).
Proof.
  exists (score (apply_rules (mkMetrics c me d n l None f))),
    (score (apply_rules (mkMetrics c me d n l (Some t) f))).
  pose proof (score_bounds (mkMetrics c me d n l None f)).
  pose proof (score_bounds (mkMetrics c me d n l (Some t) f)).
  rewrite !lookup_score, !Z.max_r by lia.
  do 2 (split; [reflexivity|]).
  assert (E : score (apply_rules (mkMetrics c me d n l (Some t) f))
              = if PyFloat.gtb t 80
                then score (apply_rules (mkMetrics c me d n l None f)) - 20
                else score (apply_rules (mkMetrics c me d n l None f))).
  { unfold apply_rules, temperature_rule. cbn [temperature].
    rewrite temperature_high_Some. cbn [temperature_high].
    destruct (PyFloat.gtb t 80); reflexivity. }
  split; [exact E|].
  intros Hle. rewrite E.
  destruct (PyFloat.gtb t 80) eqn:Hg; [|reflexivity].
  unfold PyFloat.gtb in Hg. rewrite (ltb_not_leb _ _ Hg) in Hle.
  discriminate Hle.
Qed.

Lemma X8_temperature_only_costs_witness :
  exists s s' : Z,
    get_system_health_score (Some (metrics_of 85 50 50 None)) !! "score"
    = Some (VInt s)
    /\ get_system_health_score (Some (metrics_of 85 50 50 (Some 80%float)))
       !! "score" = Some (VInt s')
    /\ s' = s.
Proof.
  destruct (X8_temperature_only_costs 85 50 50 ∅ (0, 0, 0)%float None 80)
    as (s & s' & Hs & Hs' & _ & Heq).
  exists s, s'. split; [exact Hs|]. split; [exact Hs'|].
  apply Heq. reflexivity.
Defined.
(** * Further properties of the sampling loop *)

Lemma ceil_div_spec (duration interval k : Z) :
  1 <= interval -> 0 <= k ->
  (k * interval < duration <-> k < ceil_div duration interval).
Proof.
  intros Hi Hk. unfold ceil_div.
  destruct (Z.leb_spec duration 0) as [Hd|Hd]; [nia|].
  pose proof (Z.div_mod (duration + interval - 1) interval ltac:(lia)) as E.
  pose proof (Z.mod_pos_bound (duration + interval - 1) interval ltac:(lia)).
  split; intros H0; nia.
Qed.

Lemma ceil_div_nonneg (duration interval : Z) :
  1 <= interval -> 0 <= ceil_div duration interval.
Proof.
  intros Hi. unfold ceil_div. destruct (Z.leb_spec duration 0); [lia|].
  apply Z.div_pos; lia.
Qed.

Lemma samples_length (env : Env) (interval : Z) (n : nat) :
  (length (samples env interval n) <= n)%nat.
Proof.
  induction n as [|n IH]; [reflexivity|]. rewrite samples_S, length_app.
  destruct (sample env interval n); simpl; lia.
Qed.

Section LoopFacts.

Variable env : Env.
Variables duration interval : Z.

(** What a loop that returns has done: it went through the iterations
    [tick st .. n - 1], none of which was ended by Ctrl+C in its read or
    (but for the last) in its sleep, and it stopped because the duration had
    elapsed, or Ctrl+C arrived in the read of iteration [n] or in the sleep
    of iteration [n - 1]. *)
Lemma while_loop_samples (fuel : nat) (st : LoopState)
    (pts : list DataPoint.t) :
  while_loop fuel env (start_clock env) duration interval st
  = Some (Returned pts) ->
  monitoring st = true ->
  clock st = clock_at env interval (tick st) ->
  data_points st = samples env interval (tick st) ->
  exists n : nat,
    (tick st <= n <= tick st + fuel)%nat
    /\ pts = samples env interval n
    /\ (forall k : nat,
          (tick st <= k < n)%nat ->
          clock_at env interval k - start_clock env < duration
          /\ 0 <= interval <= sleep_max
          /\ sigint env (InRead k) = false
          /\ ((S k < n)%nat -> sigint env (InSleep k) = false))
    /\ (duration <= clock_at env interval n - start_clock env
        \/ sigint env (InRead n) = true
        \/ exists k : nat,
             n = S k /\ (tick st <= k)%nat
             /\ sigint env (InSleep k) = true).
Proof.
  revert st. induction fuel as [|fuel IH]; intros st H Hm Hc Hd;
    simpl in H; rewrite Hm in H; cbn [andb] in H.
  - destruct (Z.ltb_spec (clock st - start_clock env) duration) as [Hlt|Hge];
      [discriminate H|]. injection H as <-. exists (tick st).
    split; [lia|]. split; [exact Hd|]. split; [intros k Hk; lia|].
    left. lia.
  - destruct (Z.ltb_spec (clock st - start_clock env) duration) as [Hlt|Hge].
    2:{ injection H as <-. exists (tick st).
        split; [lia|]. split; [exact Hd|]. split; [intros k Hk; lia|].
        left. lia. }
    assert (Hd1 : match read_metrics env (tick st) with
                  | Some m =>
                      data_points st
                      ++ [data_point
                            (datetime_now env
                               (clock st + read_time env (tick st))) m]
                  | None => data_points st
                  end = samples env interval (S (tick st))).
    { rewrite samples_S, <- Hd. unfold sample. rewrite <- Hc.
      destruct (read_metrics env (tick st));
        [reflexivity|now rewrite app_nil_r]. }
    destruct (loop_body_cases env interval st)
      as [[Hr Hb]|[(_ & e & _ & He & Hb)
                  |[(Hr & Hi & Hs & Hb)|(Hr & Hi & Hs & Hb)]]];
      rewrite Hb in H.
    + destruct (sigint env InHandler); [discriminate H|].
      injection H as <-. exists (tick st).
      split; [lia|]. split; [exact Hd|]. split; [intros k Hk; lia|].
      right. now left.
    + destruct e; try discriminate H. now contradiction He.
    + destruct (sigint env InHandler); [discriminate H|].
      injection H as <-. cbn [data_points]. exists (S (tick st)).
      split; [lia|]. split; [exact Hd1|]. split.
      * intros k Hk. assert (k = tick st) as -> by lia.
        rewrite <- Hc. repeat split; try assumption; try lia.
      * right. right. exists (tick st). repeat split; [lia|exact Hs].
    + apply IH in H; cbn [tick clock data_points monitoring];
        [|exact Hm|rewrite Hc; reflexivity|exact Hd1].
      destruct H as (n & Hn & Hpts & Hall & Hend).
      cbn [tick] in Hn, Hall, Hend. exists n.
      split; [lia|]. split; [exact Hpts|]. split.
      * intros k Hk. destruct (Nat.eq_dec k (tick st)) as [->|Hne].
        -- rewrite <- Hc.
           repeat split; try assumption; try lia. intros _. exact Hs.
        -- apply Hall. lia.
      * destruct Hend as [Hend|[Hend|(k & -> & Hk & Hend)]];
          [now left|now right; left|].
        right. right. exists k. repeat split; [lia|exact Hend].
Qed.

End LoopFacts.

(** The same for the whole call. *)
Lemma monitor_system_samples (env : Env) (duration interval : Z)
    (fuel : nat) (pts : list DataPoint.t) :
  monitor_system env duration interval fuel = Some (Returned pts) ->
  exists n : nat,
    (n <= fuel)%nat
    /\ pts = samples env interval n
    /\ (forall k : nat,
          (k < n)%nat ->
          clock_at env interval k - start_clock env < duration
          /\ 0 <= interval <= sleep_max
          /\ sigint env (InRead k) = false
          /\ ((S k < n)%nat -> sigint env (InSleep k) = false))
    /\ (duration <= clock_at env interval n - start_clock env
        \/ sigint env (InRead n) = true
        \/ exists k : nat, n = S k /\ sigint env (InSleep k) = true).
Proof.
  unfold monitor_system.
  destruct (exceeds_str_digits env duration); [discriminate|].
  destruct (sigint env BeforeTry); [discriminate|]. intros H.
  apply while_loop_samples in H; try reflexivity.
  destruct H as (n & Hn & Hpts & Hall & Hend). cbn [initial_state tick] in *.
  exists n. split; [lia|]. split; [exact Hpts|]. split.
  - intros k Hk. apply Hall. lia.
  - destruct Hend as [Hend|[Hend|(k & -> & _ & Hend)]];
      [now left|now right; left|]. right. right. now exists k.
Qed.



Section SteadyRun.

Variable env : Env.
Variable m : nat -> PerformanceMetrics.
Variable interval : Z.

Hypothesis provider_ok : forall k, provider env k = Some (m k).
Hypothesis read_instant : forall k, read_time env k = 0.
Hypothesis no_sigint : forall p, sigint env p = false.





End SteadyRun.



Lemma clock_at_lower (env : Env) (interval : Z) (k : nat) :
  (forall j, 0 <= read_time env j) ->
  start_clock env + Z.of_nat k * interval <= clock_at env interval k.
Proof.
  intros Hr. induction k as [|k IH]; cbn [clock_at]; [lia|].
  specialize (Hr k). lia.
Qed.

(** X11. When reads take no negative time and the interval is at least 1, a
    run never returns more than [duration / interval], rounded up, data
    points, whatever the provider returns and whenever Ctrl+C is pressed. *)
Theorem X11_sample_count_bound (env : Env) (duration interval : Z)
    (fuel : nat) (pts : list DataPoint.t) :
  (forall k, 0 <= read_time env k) ->
  1 <= interval ->
  monitor_system env duration interval fuel = Some (Returned pts) ->
  Z.of_nat (length pts) <= ceil_div duration interval.
Proof.
  intros Hr Hi H. apply monitor_system_samples in H.
  destruct H as (n & _ & -> & Hall & _).
  pose proof (samples_length env interval n) as Hlen.
  pose proof (ceil_div_nonneg duration interval Hi) as Hn.
  destruct n as [|n]; [simpl in *; lia|].
  destruct (Hall n ltac:(lia)) as (Hc & _).
  pose proof (clock_at_lower env interval n Hr) as Hlow.
  pose proof (ceil_div_spec duration interval (Z.of_nat n) Hi ltac:(lia)).
  lia.
Qed.

(** Reads of two seconds: a run of 12 seconds with interval 5 takes two
    samples, one fewer than the bound. *)
Lemma X11_sample_count_bound_witness :
  Z.of_nat (length [data_point 2 (metrics_of 85 50 50 None);
                    data_point 9 (metrics_of 85 50 50 None)])
  <= ceil_div 12 5.
Proof.
  apply (X11_sample_count_bound
           {| start_clock := 0;
              provider := fun _ => Some (metrics_of 85 50 50 None);
              read_time := fun _ => 2; sigint := fun _ => false;
              utc_offset := fun _ => 0; int_max_str_digits := 0 |}
           12 5 10).
  - intros k. simpl. lia.
  - lia.
  - reflexivity.
Defined.








Lemma clock_at_clear (env : Env) (interval : Z) (k : nat) :
  clock_at (clear_sigint env) interval k = clock_at env interval k.
Proof.
  induction k as [|k IH]; cbn [clock_at]; [reflexivity|]. now rewrite IH.
Qed.

(** What a swallowed Ctrl+C does to a sample: it loses the temperature. *)
Lemma sample_clear (env : Env) (interval : Z) (k : nat) :
  sample env interval k
  = match sample (clear_sigint env) interval k with
    | Some p => Some (if sigint env (InTemperature k) then blank p else p)
    | None => None
    end.
Proof.
  unfold sample, read_metrics. rewrite clock_at_clear.
  cbn [clear_sigint provider sigint read_time].
  destruct (provider env k); [|reflexivity].
  destruct (sigint env (InTemperature k)); reflexivity.
Qed.

Lemma samples_prefix (env : Env) (interval : Z) (n n0 : nat) :
  (n <= n0)%nat ->
  samples env interval n `prefix_of` samples env interval n0.
Proof.
  intros Hn. unfold samples.
  replace n0 with (n + (n0 - n))%nat by lia.
  rewrite seq_app, omap_app. apply prefix_app_r. reflexivity.
Qed.

(** A loop that returns when nobody presses Ctrl+C returns as well when
    Ctrl+C is pressed in it (and not again in the handler). *)
Lemma while_loop_interrupted (env : Env) (duration interval : Z)
    (fuel : nat) (st st0 : LoopState) (pts0 : list DataPoint.t) :
  clock st = clock st0 -> tick st = tick st0 ->
  monitoring st = monitoring st0 ->
  sigint env InHandler = false ->
  while_loop fuel (clear_sigint env) (start_clock env) duration interval st0
  = Some (Returned pts0) ->
  exists pts : list DataPoint.t,
    while_loop fuel env (start_clock env) duration interval st
    = Some (Returned pts).
Proof.
  intros Hc Ht Hm Hh. revert st st0 Hc Ht Hm.
  induction fuel as [|fuel IH]; intros st st0 Hc Ht Hm H; simpl in *;
    rewrite Hc, Hm.
  - destruct (monitoring st0 && (clock st0 - start_clock env <? duration));
      [discriminate H|]. now eexists.
  - destruct (monitoring st0 && (clock st0 - start_clock env <? duration));
      [|now eexists].
    destruct (loop_body_cases (clear_sigint env) interval st0)
      as [[Hr _]|[(_ & e & _ & He & Hb)
                 |[(_ & _ & Hs & _)|(_ & Hi & _ & Hb)]]];
      try discriminate; rewrite Hb in H.
    { destruct e; try discriminate H. now contradiction He. }
    destruct (loop_body_cases env interval st)
      as [[_ Hb']|[(_ & e & He & _ & _)
                  |[(_ & _ & _ & Hb')|(_ & _ & _ & Hb')]]];
      try rewrite Hb'.
    + rewrite Hh. now eexists.
    + apply sleep_error_None in Hi. congruence.
    + rewrite Hh. now eexists.
    + eapply IH; [| | |exact H];
        cbn [clock tick monitoring clear_sigint read_time].
      * now rewrite Hc, Ht.
      * now rewrite Ht.
      * exact Hm.
Qed.

(** X13. Ctrl+C in the loop only cuts a run short or costs a temperature.
    Take a run that returns when nobody presses Ctrl+C, after [n0]
    iterations.  With Ctrl+C pressed in the loop (and not before the loop or
    again in the handler) the run returns too, after [n <= n0] iterations:
    Ctrl+C in the read of iteration [n] or in the sleep of iteration [n - 1]
    ends the run, and nothing else ends it early.  Ctrl+C inside the
    temperature query is swallowed by the bare [except]: the run goes on,
    and the point of that iteration has lost its temperature; inside the fan
    query it changes nothing.  So without Ctrl+C inside the temperature
    query the buffer is an initial part of the undisturbed one, and Ctrl+C
    in the very first read leaves it empty. *)
Theorem X13_interrupt_returns_prefix (env : Env) (duration interval : Z)
    (fuel : nat) (pts0 : list DataPoint.t) :
  monitor_system (clear_sigint env) duration interval fuel
  = Some (Returned pts0) ->
  sigint env BeforeTry = false ->
  sigint env InHandler = false ->
  exists n n0 : nat,
    (n <= n0)%nat
    /\ pts0 = samples (clear_sigint env) interval n0
    /\ monitor_system env duration interval fuel
       = Some (Returned (samples env interval n))
    /\ (forall k : nat,
          sample env interval k
          = match sample (clear_sigint env) interval k with
            | Some p =>
                Some (if sigint env (InTemperature k) then blank p else p)
            | None => None
            end)
    /\ (forall k : nat,
          (k < n)%nat ->
          sigint env (InRead k) = false
          /\ ((S k < n)%nat -> sigint env (InSleep k) = false))
    /\ ((n < n0)%nat ->
        sigint env (InRead n) = true
        \/ exists k : nat, n = S k /\ sigint env (InSleep k) = true)
    /\ ((forall k : nat, sigint env (InRead k) = false
                         /\ sigint env (InSleep k) = false) -> n = n0)
    /\ ((forall k : nat, sigint env (InTemperature k) = false) ->
        samples env interval n `prefix_of` pts0)
    /\ (sigint env (InRead O) = true -> samples env interval n = []).
Proof.
  intros H0 Hb Hh.
  assert (Hrun : exists pts : list DataPoint.t,
            monitor_system env duration interval fuel
            = Some (Returned pts)).
  { unfold monitor_system in *.
    change (exceeds_str_digits (clear_sigint env) duration)
      with (exceeds_str_digits env duration) in H0.
    destruct (exceeds_str_digits env duration); [discriminate H0|].
    rewrite Hb. cbn [clear_sigint sigint start_clock] in H0.
    apply (while_loop_interrupted env duration interval fuel
             (initial_state env) (initial_state (clear_sigint env)) pts0);
      try reflexivity; assumption. }
  destruct Hrun as [pts Hrun].
  pose proof (monitor_system_samples _ _ _ _ _ H0)
    as (n0 & _ & Hpts0 & Hall0 & Hend0).
  pose proof (monitor_system_samples _ _ _ _ _ Hrun)
    as (n & _ & Hpts & Hall & Hend).
  cbn [clear_sigint sigint start_clock] in Hall0, Hend0.
  assert (Hend0' : duration <= clock_at env interval n0 - start_clock env).
  { destruct Hend0 as [Hend0|[Hend0|(k & _ & Hend0)]];
      [now rewrite clock_at_clear in Hend0|discriminate|discriminate]. }
  assert (Hle : (n <= n0)%nat).
  { destruct (Nat.le_gt_cases n n0) as [Hle|Hgt]; [exact Hle|].
    destruct (Hall n0 Hgt) as (Hc & _). lia. }
  assert (Hcut : (n < n0)%nat ->
            sigint env (InRead n) = true
            \/ exists k : nat, n = S k /\ sigint env (InSleep k) = true).
  { intros Hlt. destruct (Hall0 n Hlt) as (Hc & _).
    rewrite clock_at_clear in Hc.
    destruct Hend as [Hend|Hend]; [lia|exact Hend]. }
  assert (Hfirst : forall k : nat,
            (k < n)%nat ->
            sigint env (InRead k) = false
            /\ ((S k < n)%nat -> sigint env (InSleep k) = false)).
  { intros k Hk. destruct (Hall k Hk) as (_ & _ & Hr & Hs). now split. }
  exists n, n0. subst pts pts0.
  split; [exact Hle|]. split; [reflexivity|]. split; [exact Hrun|].
  split; [intros k; apply sample_clear|]. split; [exact Hfirst|].
  split; [exact Hcut|]. split; [|split].
  - intros Hnone. destruct (Nat.eq_dec n n0) as [E|E]; [exact E|].
    destruct (Hcut ltac:(lia)) as [Hr|(k & _ & Hs)].
    + rewrite (proj1 (Hnone n)) in Hr. discriminate Hr.
    + rewrite (proj2 (Hnone k)) in Hs. discriminate Hs.
  - intros Hnone.
    assert (Hsame : forall j : nat,
              samples env interval j = samples (clear_sigint env) interval j).
    { intros j. induction j as [|j IHj]; [reflexivity|].
      rewrite !samples_S, IHj, (sample_clear env), Hnone.
      destruct (sample (clear_sigint env) interval j); reflexivity. }
    rewrite Hsame. now apply samples_prefix.
  - intros Hr. destruct n as [|n]; [reflexivity|].
    destruct (Hfirst O ltac:(lia)) as [Hr' _]. congruence.
Qed.

(** Ctrl+C inside the temperature query of the first iteration and during
    the sleep of the second one, in a run that would take three samples of
    90 degrees: the run is cut short, and the first sample has lost its
    temperature. *)
Lemma X13_interrupt_returns_prefix_witness :
  exists n n0 : nat,
    (n <= n0)%nat
    /\ monitor_system
         {| start_clock := 0;
            provider := fun _ => Some (metrics_of 85 50 50 (Some 90%float));
            read_time := fun _ => 0;
            sigint := fun p => match p with
                               | InTemperature 0 | InSleep 1 => true
                               | _ => false
                               end;
            utc_offset := fun _ => 0; int_max_str_digits := 0 |} 12 5 3
       = Some (Returned
                 (samples
                    {| start_clock := 0;
                       provider :=
                         fun _ => Some (metrics_of 85 50 50 (Some 90%float));
                       read_time := fun _ => 0;
                       sigint := fun p => match p with
                                          | InTemperature 0 | InSleep 1 =>
                                              true
                                          | _ => false
                                          end;
                       utc_offset := fun _ => 0;
                       int_max_str_digits := 0 |} 5 n))
    /\ sample
         {| start_clock := 0;
            provider := fun _ => Some (metrics_of 85 50 50 (Some 90%float));
            read_time := fun _ => 0;
            sigint := fun p => match p with
                               | InTemperature 0 | InSleep 1 => true
                               | _ => false
                               end;
            utc_offset := fun _ => 0; int_max_str_digits := 0 |} 5 0
       = Some (data_point 0 (metrics_of 85 50 50 None)).
Proof.
  destruct (X13_interrupt_returns_prefix
           {| start_clock := 0;
              provider := fun _ => Some (metrics_of 85 50 50 (Some 90%float));
              read_time := fun _ => 0;
              sigint := fun p => match p with
                                 | InTemperature 0 | InSleep 1 => true
                                 | _ => false
                                 end;
              utc_offset := fun _ => 0; int_max_str_digits := 0 |} 12 5 3
           [data_point 0 (metrics_of 85 50 50 (Some 90%float));
            data_point 5 (metrics_of 85 50 50 (Some 90%float));
            data_point 10 (metrics_of 85 50 50 (Some 90%float))])
    as (n & n0 & Hle & _ & Hrun & Hsample & _).
  - reflexivity.
  - reflexivity.
  - reflexivity.
  - exists n, n0. split; [exact Hle|]. split; [exact Hrun|].
    exact (Hsample O).
Defined.

(** * The sensor queries and the snapshot *)

(** The readings that lead to entry [e]: the sensors in front have no
    entries, and [e] is the first entry of the next sensor. *)
Lemma first_entry_Some {E : Type} (readings : list (string * list E)) (e : E) :
  first_entry readings = Some e
  <-> exists (pre : list (string * list E)) (name : string) (es : list E)
             (post : list (string * list E)),
        readings = pre ++ (name, e :: es) :: post
        /\ Forall (fun p => snd p = []) pre.
Proof.
  induction readings as [|[name entries] readings IH]; simpl.
  - split; [discriminate|].
    intros (pre & name & es & post & H & _). now destruct pre.
  - destruct entries as [|e0 es0].
    + rewrite IH. split.
      * intros (pre & n & es & post & -> & Hpre).
        exists ((name, []) :: pre), n, es, post.
        split; [reflexivity|]. now constructor.
      * intros (pre & n & es & post & H & Hpre).
        destruct pre as [|p pre]; [discriminate H|].
        injection H as _ H. inversion Hpre; subst.
        now exists pre, n, es, post.
    + split.
      * intros [= ->]. exists [], name, es0, readings.
        split; [reflexivity|constructor].
      * intros (pre & n & es & post & H & Hpre).
        destruct pre as [|p pre].
        -- injection H as _ H _. congruence.
        -- injection H as H _. inversion Hpre; subst. discriminate.
Qed.

Lemma first_entry_None {E : Type} (readings : list (string * list E)) :
  first_entry readings = None <-> Forall (fun p => snd p = []) readings.
Proof.
  induction readings as [|[name entries] readings IH]; simpl.
  - split; [constructor|reflexivity].
  - destruct entries as [|e es].
    + rewrite IH. split; [now constructor|now inversion 1].
    + split; [discriminate|]. inversion 1; subst. discriminate.
Qed.

(** The first entry of the first sensor that has entries, read through
    [current]. *)
Lemma first_current_Some {E A : Type} (current : E -> A)
    (readings : list (string * list E)) (x : A) :
  option_map current (first_entry readings) = Some x
  <-> exists (pre : list (string * list E)) (name : string) (e : E)
             (es : list E) (post : list (string * list E)),
        readings = pre ++ (name, e :: es) :: post
        /\ Forall (fun p => snd p = []) pre
        /\ current e = x.
Proof.
  destruct (first_entry readings) as [e|] eqn:Efe; simpl.
  - apply first_entry_Some in Efe.
    destruct Efe as (pre & name & es & post & -> & Hpre). split.
    + intros [= <-]. now exists pre, name, e, es, post.
    + intros (pre' & name' & e' & es' & post' & H & Hpre' & <-).
      assert (E' : first_entry (pre ++ (name, e :: es) :: post) = Some e')
        by (rewrite H; apply first_entry_Some;
            now exists pre', name', es', post').
      assert (E'' : first_entry (pre ++ (name, e :: es) :: post) = Some e)
        by (apply first_entry_Some; now exists pre, name, es, post).
      congruence.
  - split; [discriminate|].
    intros (pre & name & e & es & post & -> & Hpre & _).
    assert (E' : first_entry (pre ++ (name, e :: es) :: post) = Some e)
      by (apply first_entry_Some; now exists pre, name, es, post).
    congruence.
Qed.

Lemma get_cpu_temperature_Some (s : sensors shwtemp.t) (t : float) :
  get_cpu_temperature s = Some t
  <-> exists (pre : list (string * list shwtemp.t)) (name : string)
             (e : shwtemp.t) (es : list shwtemp.t)
             (post : list (string * list shwtemp.t)),
        s = Sensors (pre ++ (name, e :: es) :: post)
        /\ Forall (fun p => snd p = []) pre
        /\ shwtemp.current e = t.
Proof.
  destruct s as [| |temps]; simpl.
  - split; [discriminate|]. now intros (? & ? & ? & ? & ? & H & _).
  - split; [discriminate|]. now intros (? & ? & ? & ? & ? & H & _).
  - rewrite first_current_Some. split.
    + intros (pre & name & e & es & post & -> & H).
      now exists pre, name, e, es, post.
    + intros (pre & name & e & es & post & [= ->] & H).
      now exists pre, name, e, es, post.
Qed.

Lemma get_cpu_temperature_None (s : sensors shwtemp.t) :
  get_cpu_temperature s = None
  <-> s = NoSuchFunction \/ s = SensorsRaise
      \/ exists temps : list (string * list shwtemp.t),
           s = Sensors temps /\ Forall (fun p => snd p = []) temps.
Proof.
  destruct s as [| |temps]; simpl.
  - split; [now left|reflexivity].
  - split; [now right; left|reflexivity].
  - destruct (first_entry temps) as [e|] eqn:E; simpl.
    + split; [discriminate|].
      intros [H|[H|(temps' & [= <-] & H)]]; try discriminate H.
      apply first_entry_None in H. congruence.
    + split; [|reflexivity]. intros _. right. right. exists temps.
      split; [reflexivity|now apply first_entry_None].
Qed.

Lemma get_fan_speed_Some (s : sensors sfan.t) (rpm : Z) :
  get_fan_speed s = Some rpm
  <-> exists (pre : list (string * list sfan.t)) (name : string)
             (e : sfan.t) (es : list sfan.t)
             (post : list (string * list sfan.t)),
        s = Sensors (pre ++ (name, e :: es) :: post)
        /\ Forall (fun p => snd p = []) pre
        /\ sfan.current e = rpm.
Proof.
  destruct s as [| |fans]; simpl.
  - split; [discriminate|]. now intros (? & ? & ? & ? & ? & H & _).
  - split; [discriminate|]. now intros (? & ? & ? & ? & ? & H & _).
  - rewrite first_current_Some. split.
    + intros (pre & name & e & es & post & -> & H).
      now exists pre, name, e, es, post.
    + intros (pre & name & e & es & post & [= ->] & H).
      now exists pre, name, e, es, post.
Qed.

Lemma get_fan_speed_None (s : sensors sfan.t) :
  get_fan_speed s = None
  <-> s = NoSuchFunction \/ s = SensorsRaise
      \/ exists fans : list (string * list sfan.t),
           s = Sensors fans /\ Forall (fun p => snd p = []) fans.
Proof.
  destruct s as [| |fans]; simpl.
  - split; [now left|reflexivity].
  - split; [now right; left|reflexivity].
  - destruct (first_entry fans) as [e|] eqn:E; simpl.
    + split; [discriminate|].
      intros [H|[H|(fans' & [= <-] & H)]]; try discriminate H.
      apply first_entry_None in H. congruence.
    + split; [|reflexivity]. intros _. right. right. exists fans.
      split; [reflexivity|now apply first_entry_None].
Qed.

(** X14. The temperature (and likewise the fan speed) of a snapshot is the
    [current] value of the first entry of the first sensor that has entries;
    sensors without entries in front of it are skipped and every later entry
    and sensor is ignored.  The value is absent exactly when the query does
    not exist on the platform, raises, or no sensor has an entry. *)
Theorem X14_first_sensor_entry :
  (forall (s : sensors shwtemp.t) (t : float),
     get_cpu_temperature s = Some t
     <-> exists (pre : list (string * list shwtemp.t)) (name : string)
                (e : shwtemp.t) (es : list shwtemp.t)
                (post : list (string * list shwtemp.t)),
           s = Sensors (pre ++ (name, e :: es) :: post)
           /\ Forall (fun p => snd p = []) pre
           /\ shwtemp.current e = t)
  /\ (forall s : sensors shwtemp.t,
        get_cpu_temperature s = None
        <-> s = NoSuchFunction \/ s = SensorsRaise
            \/ exists temps : list (string * list shwtemp.t),
                 s = Sensors temps /\ Forall (fun p => snd p = []) temps)
  /\ (forall (s : sensors sfan.t) (rpm : Z),
        get_fan_speed s = Some rpm
        <-> exists (pre : list (string * list sfan.t)) (name : string)
                   (e : sfan.t) (es : list sfan.t)
                   (post : list (string * list sfan.t)),
              s = Sensors (pre ++ (name, e :: es) :: post)
              /\ Forall (fun p => snd p = []) pre
              /\ sfan.current e = rpm)
  /\ (forall s : sensors sfan.t,
        get_fan_speed s = None
        <-> s = NoSuchFunction \/ s = SensorsRaise
            \/ exists fans : list (string * list sfan.t),
                 s = Sensors fans /\ Forall (fun p => snd p = []) fans).
Proof.
  split; [exact get_cpu_temperature_Some|].
  split; [exact get_cpu_temperature_None|].
  split; [exact get_fan_speed_Some|exact get_fan_speed_None].
Qed.

(** A board whose first sensor has no entries and whose second sensor
    reports 45 and then 95 degrees: the temperature is 45. *)
Lemma X14_first_sensor_entry_witness :
  get_cpu_temperature
    (Sensors ([("acpitz", [])]
              ++ ("coretemp", shwtemp.mk "Core 0" 45 None None
                              :: [shwtemp.mk "Core 1" 95 None None])
              :: [("nvme", [shwtemp.mk "Composite" 99 None None])]))
  = Some 45%float.
Proof.
  apply (proj1 X14_first_sensor_entry).
  exists [("acpitz", [])], "coretemp", (shwtemp.mk "Core 0" 45 None None),
    [shwtemp.mk "Core 1" 95 None None],
    [("nvme", [shwtemp.mk "Composite" 99 None None])].
  split; [reflexivity|]. split; [|reflexivity].
  constructor; [reflexivity|constructor].
Defined.

(** The fields of a snapshot are the readings of the host. *)
Lemma snapshot_fields (host : Host) (m : PerformanceMetrics) :
  get_performance_metrics host = Some m ->
  host_cpu_percent host = Some (cpu_percent m)
  /\ host_memory_percent host = Some (memory_percent m)
  /\ host_net_io_counters host = Some (network_io m)
  /\ temperature m = get_cpu_temperature (host_sensors_temperatures host)
  /\ fan_speed m = get_fan_speed (host_sensors_fans host)
  /\ (host_getloadavg host = NoGetloadavg ->
      load_average m = (0, 0, 0)%float).
Proof.
  destruct host as [cpu mem disk net load temps fans].
  unfold get_performance_metrics. cbn [host_cpu_percent host_memory_percent
    host_disk_usage host_net_io_counters host_getloadavg
    host_sensors_temperatures host_sensors_fans].
  intros H.
  destruct cpu; [|discriminate H]. destruct mem; [|discriminate H].
  destruct disk; [|discriminate H].
  destruct (used_percent _ _); [discriminate H|].
  destruct net; [|discriminate H].
  destruct load; try discriminate H; injection H as <-; simpl;
    repeat split; try reflexivity; discriminate.
Qed.

(** The temperature issue is reported exactly when the temperature rule
    fires. *)
Lemma temperature_issue_iff (m : PerformanceMetrics) :
  "High CPU temperature" ∈ issues (apply_rules m)
  <-> temperature_high (temperature m) = true.
Proof.
  unfold apply_rules, temperature_rule, disk_rule, memory_rule, cpu_rule.
  destruct (PyFloat.gtb (cpu_percent m) 80);
    destruct (PyFloat.gtb (cpu_percent m) 60);
    destruct (PyFloat.gtb (memory_percent m) 90);
    destruct (PyFloat.gtb (memory_percent m) 80);
    destruct (PyFloat.gtb (disk_percent m) 95);
    destruct (PyFloat.gtb (disk_percent m) 85);
    destruct (temperature_high (temperature m));
    cbn [issues penalise app]; split; in_labels.
Qed.

(** X15. A snapshot is produced exactly when the cpu, memory, root disk
    and network readings succeed, the disk's used / total can be computed (a
    total of 0 cannot) and the load average does not raise; whether the
    temperature and fan queries exist, raise or return nothing makes no
    difference.  Where [os.getloadavg] does not exist the load average is
    filled with zeros. *)
Theorem X15_snapshot_failure (host : Host) :
  (get_performance_metrics host = None
   <-> host_cpu_percent host = None
       \/ host_memory_percent host = None
       \/ host_disk_usage host = None
       \/ (exists (d : sdiskusage.t) (e : py_exn),
             host_disk_usage host = Some d
             /\ used_percent (sdiskusage.used d) (sdiskusage.total d) = inl e)
       \/ host_net_io_counters host = None
       \/ host_getloadavg host = LoadavgRaises)
  /\ (forall d : sdiskusage.t,
        host_disk_usage host = Some d -> sdiskusage.total d = 0 ->
        get_performance_metrics host = None)
  /\ (forall (temps : sensors shwtemp.t) (fans : sensors sfan.t),
        get_performance_metrics host = None
        <-> get_performance_metrics
              (mkHost (host_cpu_percent host) (host_memory_percent host)
                      (host_disk_usage host) (host_net_io_counters host)
                      (host_getloadavg host) temps fans) = None)
  /\ (forall m : PerformanceMetrics,
        get_performance_metrics host = Some m ->
        host_cpu_percent host = Some (cpu_percent m)
        /\ host_memory_percent host = Some (memory_percent m)
        /\ host_net_io_counters host = Some (network_io m)
        /\ temperature m = get_cpu_temperature (host_sensors_temperatures host)
        /\ fan_speed m = get_fan_speed (host_sensors_fans host)
        /\ (host_getloadavg host = NoGetloadavg ->
            load_average m = (0, 0, 0)%float)).
Proof.
  destruct host as [cpu mem disk net load temps fans].
  unfold get_performance_metrics. cbn [host_cpu_percent host_memory_percent
    host_disk_usage host_net_io_counters host_getloadavg
    host_sensors_temperatures host_sensors_fans].
  split; [|split; [|split]].
  - destruct cpu as [cpu|]; [|split; [intros _; now left|reflexivity]].
    destruct mem as [mem|]; [|split; [intros _; now right; left|reflexivity]].
    destruct disk as [disk|];
      [|split; [intros _; now right; right; left|reflexivity]].
    destruct (used_percent (sdiskusage.used disk) (sdiskusage.total disk))
      as [e|pct] eqn:Ep.
    { split; [|reflexivity]. intros _. right. right. right. left.
      now exists disk, e. }
    destruct net as [net|];
      [|split; [intros _; now right; right; right; right; left|reflexivity]].
    destruct load as [| |l]; split; try discriminate; try reflexivity;
      try (intros _; now right; right; right; right; right);
      intros [H|[H|[H|[(d & e & [= <-] & H)|[H|H]]]]];
      try discriminate H; congruence.
  - intros d [= ->] Ht.
    destruct cpu; [|reflexivity]. destruct mem; [|reflexivity].
    unfold used_percent, int_truediv. rewrite Ht. reflexivity.
  - intros temps' fans'.
    destruct cpu; [|tauto]. destruct mem; [|tauto]. destruct disk; [|tauto].
    destruct (used_percent _ _); [tauto|]. destruct net; [|tauto].
    destruct load; split; intros H; try discriminate H; reflexivity.
  - intros m H.
    exact (snapshot_fields
             (mkHost cpu mem disk net load temps fans) m H).
Qed.

(** A root filesystem that reports a total size of 0: no snapshot. *)
Lemma X15_snapshot_failure_witness :
  get_performance_metrics
    (mkHost (Some 10%float) (Some 20%float)
            (Some (sdiskusage.mk 0 0 0)) (Some ∅) NoGetloadavg
            NoSuchFunction NoSuchFunction)
  = None.
Proof.
  apply (proj1 (proj2 (X15_snapshot_failure
           (mkHost (Some 10%float) (Some 20%float)
                   (Some (sdiskusage.mk 0 0 0)) (Some ∅) NoGetloadavg
                   NoSuchFunction NoSuchFunction)))
           (sdiskusage.mk 0 0 0));
    reflexivity.
Defined.

(** X16. From the host to the assessment: "High CPU temperature" is
    reported exactly when the first entry of the first temperature sensor
    that has entries reads more than 80; a hotter entry further down is
    never looked at, and a host without a working temperature query never
    gets the issue. *)
Theorem X16_temperature_issue_from_host (host : Host)
    (m : PerformanceMetrics) :
  get_performance_metrics host = Some m ->
  exists l : list string,
    get_system_health_score (get_performance_metrics host) !! "issues"
    = Some (VList l)
    /\ ("High CPU temperature" ∈ l
        <-> exists (pre : list (string * list shwtemp.t)) (name : string)
                   (e : shwtemp.t) (es : list shwtemp.t)
                   (post : list (string * list shwtemp.t)),
              host_sensors_temperatures host
              = Sensors (pre ++ (name, e :: es) :: post)
              /\ Forall (fun p => snd p = []) pre
              /\ PyFloat.gtb (shwtemp.current e) 80 = true).
Proof.
  intros Hm. rewrite Hm. exists (issues (apply_rules m)).
  rewrite lookup_issues. split; [reflexivity|].
  rewrite temperature_issue_iff, temperature_high_iff.
  destruct (snapshot_fields host m Hm) as (_ & _ & _ & Htemp & _).
  rewrite Htemp. split.
  - intros (t & Hs & Hgt). apply get_cpu_temperature_Some in Hs.
    destruct Hs as (pre & name & e & es & post & Hs & Hpre & <-).
    now exists pre, name, e, es, post.
  - intros (pre & name & e & es & post & Hs & Hpre & Hgt).
    exists (shwtemp.current e). split; [|exact Hgt].
    apply get_cpu_temperature_Some. now exists pre, name, e, es, post.
Qed.

(** Two sensors: the first entry reads 45 degrees, a later one 95; the
    assessment reports no temperature issue. *)
Lemma X16_temperature_issue_from_host_witness :
  exists l : list string,
    get_system_health_score
      (get_performance_metrics
         (mkHost (Some 10%float) (Some 20%float)
            (Some (sdiskusage.mk 100 30 70)) (Some ∅) NoGetloadavg
            (Sensors [("coretemp", [shwtemp.mk "Core 0" 45 None None;
                                    shwtemp.mk "Core 1" 95 None None])])
            NoSuchFunction)) !! "issues"
    = Some (VList l)
    /\ ~ "High CPU temperature" ∈ l.
Proof.
  destruct (X16_temperature_issue_from_host
              (mkHost (Some 10%float) (Some 20%float)
                 (Some (sdiskusage.mk 100 30 70)) (Some ∅) NoGetloadavg
                 (Sensors [("coretemp", [shwtemp.mk "Core 0" 45 None None;
                                         shwtemp.mk "Core 1" 95 None None])])
                 NoSuchFunction)
              (mkMetrics 10 20 30 ∅ (0, 0, 0)%float (Some 45%float) None))
    as (l & Hl & Hiff).
  - vm_compute. reflexivity.
  - exists l. split; [exact Hl|].
    vm_compute in Hl. injection Hl as <-. in_labels.
Defined.

(** * The health display *)

(** A section over an entry that holds a list. *)
Lemma print_section_list (health : gmap string pyval) (key : string)
    (header : line) (printed : list line) (l : list string) :
  health !! key = Some (VList l) ->
  print_section health key header printed
  = (printed ++ (if bool_decide (l = []) then []
                 else header :: map Bullet l), None).
Proof.
  intros H. unfold print_section, getitem. rewrite H. cbn [truthy iterate].
  destruct (bool_decide (l = [])); simpl; [now rewrite app_nil_r|reflexivity].
Qed.

Lemma check_system_health_scored (m : PerformanceMetrics) :
  check_system_health (Some m)
  = ([HealthHeader;
      ScoreLine (VInt (score (apply_rules m)))
                (VStr (status_of_score (score (apply_rules m))))]
     ++ (if bool_decide (issues (apply_rules m) = []) then []
         else IssuesHeader :: map Bullet (issues (apply_rules m)))
     ++ (if bool_decide (get_recommendations (issues (apply_rules m)) = [])
         then []
         else RecommendationsHeader
              :: map Bullet (get_recommendations (issues (apply_rules m)))),
     None).
Proof.
  unfold check_system_health, print_score, getitem.
  rewrite lookup_score, lookup_status.
  pose proof (score_bounds m) as Hb. rewrite Z.max_r by lia.
  cbn [and_then].
  rewrite (print_section_list _ _ _ _ _ (lookup_issues m)). cbn [and_then].
  rewrite (print_section_list _ _ _ _ _ (lookup_recommendations m)).
  now rewrite <- app_assoc.
Qed.

(** X17. Choice 9 of the interactive menu fails exactly when no metrics
    could be obtained: the sentinel assessment has no recommendations, so
    after the score line and the issue "Unable to get metrics" the display
    raises [KeyError] for that key.  For every snapshot it ends normally,
    having printed the score line, the issues (if any) and the
    recommendations (if any), each list in order. *)
Theorem X17_check_health_raises_on_sentinel :
  check_system_health None
  = ([HealthHeader; ScoreLine (VInt 0) (VStr "Unknown"); IssuesHeader;
      Bullet "Unable to get metrics"],
     Some (KeyError "recommendations"))
  /\ (forall m : PerformanceMetrics,
        exists (s : Z) (st : string) (l r : list string),
          get_system_health_score (Some m) !! "score" = Some (VInt s)
          /\ get_system_health_score (Some m) !! "status" = Some (VStr st)
          /\ get_system_health_score (Some m) !! "issues" = Some (VList l)
          /\ get_system_health_score (Some m) !! "recommendations"
             = Some (VList r)
          /\ check_system_health (Some m)
             = ([HealthHeader; ScoreLine (VInt s) (VStr st)]
                ++ (if bool_decide (l = []) then []
                    else IssuesHeader :: map Bullet l)
                ++ (if bool_decide (r = []) then []
                    else RecommendationsHeader :: map Bullet r),
                None))
  /\ (forall metrics : option PerformanceMetrics,
        snd (check_system_health metrics) <> None <-> metrics = None).
Proof.
  split; [reflexivity|]. split.
  - intros m. exists (score (apply_rules m)),
      (status_of_score (score (apply_rules m))), (issues (apply_rules m)),
      (get_recommendations (issues (apply_rules m))).
    rewrite lookup_score, lookup_status, lookup_issues,
      lookup_recommendations.
    pose proof (score_bounds m) as Hb. rewrite Z.max_r by lia.
    do 4 (split; [reflexivity|]). apply check_system_health_scored.
  - intros [m|].
    + rewrite check_system_health_scored. simpl. split; congruence.
    + split; [reflexivity|]. intros _. discriminate.
Qed.

(** X18. The health part of the demo never fails, with or without metrics:
    it reads the score, the status and the issues only, and prints the score
    line followed by the issues, if there are any. *)
Theorem X18_demo_health_never_raises (metrics : option PerformanceMetrics) :
  exists (score status : pyval) (l : list string),
    get_system_health_score metrics !! "score" = Some score
    /\ get_system_health_score metrics !! "status" = Some status
    /\ get_system_health_score metrics !! "issues" = Some (VList l)
    /\ demo_system_health metrics
       = ([HealthHeader; ScoreLine score status]
          ++ (if bool_decide (l = []) then []
              else IssuesHeader :: map Bullet l),
          None).
Proof.
  destruct metrics as [m|].
  - exists (VInt (Z.max 0 (score (apply_rules m)))),
      (VStr (status_of_score (score (apply_rules m)))),
      (issues (apply_rules m)).
    rewrite lookup_score, lookup_status, lookup_issues.
    do 3 (split; [reflexivity|]).
    unfold demo_system_health, print_score, getitem.
    rewrite lookup_score, lookup_status. cbn [and_then].
    now rewrite (print_section_list _ _ _ _ _ (lookup_issues m)).
  - exists (VInt 0), (VStr "Unknown"), ["Unable to get metrics"].
    repeat split; reflexivity.
Qed.

(** * Disks *)

Lemma get_disk_info_app (l1 l2 : list (sdiskpart.t * usage_call)) :
  get_disk_info (l1 ++ l2)
  = bind (get_disk_info l1)
      (fun d1 => bind (get_disk_info l2) (fun d2 => inr (d1 ++ d2))).
Proof.
  induction l1 as [|[p c] l1 IH]; simpl.
  - destruct (get_disk_info l2); reflexivity.
  - destruct c as [u| |]; [|exact IH|reflexivity].
    destruct (used_percent _ _) as [e|pct]; [reflexivity|]. simpl.
    rewrite IH. destruct (get_disk_info l1) as [e|d1]; [reflexivity|]. simpl.
    destruct (get_disk_info l2); reflexivity.
Qed.

Lemma used_percent_zero_total (used : Z) :
  used_percent used 0 = inl ZeroDivisionError.
Proof. reflexivity. Qed.

Lemma get_disk_info_ok (partitions : list (sdiskpart.t * usage_call))
    (disks : list Disk.t) :
  get_disk_info partitions = inr disks ->
  Forall2 disk_of disks (readable_partitions partitions)
  /\ Forall (fun pc => snd pc <> UsageFails) partitions.
Proof.
  revert disks. induction partitions as [|[p c] partitions IH];
    intros disks H; simpl in H.
  - injection H as <-. split; constructor.
  - destruct c as [u| |]; [| |discriminate H].
    + destruct (used_percent _ _) as [e|pct] eqn:Ep; [discriminate H|].
      simpl in H.
      destruct (get_disk_info partitions) as [e|ds]; [discriminate H|].
      simpl in H. injection H as <-. destruct (IH ds eq_refl) as [IH1 IH2].
      split.
      * unfold readable_partitions. cbn [omap list_omap snd fst].
        constructor; [|exact IH1]. now repeat split.
      * constructor; [discriminate|exact IH2].
    + destruct (IH disks H) as [IH1 IH2]. split; [exact IH1|].
      constructor; [discriminate|exact IH2].
Qed.

(** X19. [get_disk_info] lists exactly the partitions whose usage could be
    read, in order, with their device, mount point, file system type and
    sizes; a partition that answers with [PermissionError] is left out
    without a trace.  A readable partition of total size 0 is not left out:
    after the partitions in front of it were listed, the division by its
    total raises [ZeroDivisionError] out of the whole call. *)
Theorem X19_disk_info_partitions :
  (forall (partitions : list (sdiskpart.t * usage_call))
          (disks : list Disk.t),
     get_disk_info partitions = inr disks ->
     Forall2 disk_of disks (readable_partitions partitions)
     /\ Forall (fun pu => sdiskusage.total (snd pu) <> 0)
          (readable_partitions partitions))
  /\ (forall (pre post : list (sdiskpart.t * usage_call))
             (p : sdiskpart.t),
        get_disk_info (pre ++ (p, UsageDenied) :: post)
        = get_disk_info (pre ++ post))
  /\ (forall (pre post : list (sdiskpart.t * usage_call))
             (p : sdiskpart.t) (u : sdiskusage.t) (disks : list Disk.t),
        get_disk_info pre = inr disks ->
        sdiskusage.total u = 0 ->
        get_disk_info (pre ++ (p, Usage u) :: post)
        = inl ZeroDivisionError).
Proof.
  split; [|split].
  - intros partitions disks H.
    destruct (get_disk_info_ok partitions disks H) as [H2 _].
    split; [exact H2|].
    clear H. induction H2 as [|d pu ds pus Hd _ IH]; constructor;
      [|exact IH].
    destruct Hd as (_ & _ & _ & _ & _ & _ & Hp). intros Hz.
    rewrite Hz, used_percent_zero_total in Hp. discriminate Hp.
  - intros pre post p. rewrite !get_disk_info_app. reflexivity.
  - intros pre post p u disks Hpre Hz. rewrite get_disk_info_app, Hpre.
    simpl. now rewrite Hz, used_percent_zero_total.
Qed.

(** A denied partition, a normal one and one of total size 0. *)
Lemma X19_disk_info_partitions_witness :
  get_disk_info
    ([(sdiskpart.mk "/dev/sda1" "/" "ext4",
       Usage (sdiskusage.mk 100 30 70))]
     ++ (sdiskpart.mk "none" "/snap" "squashfs",
         Usage (sdiskusage.mk 0 0 0)) :: [])
  = inl ZeroDivisionError.
Proof.
  destruct X19_disk_info_partitions as (_ & _ & H).
  eapply H; reflexivity.
Defined.

Lemma SFleb_SFltb_trans (a b c : spec_float) :
  SFleb a b = true -> SFltb b c = true -> SFltb a c = true.
Proof.
  unfold SFleb, SFltb, SFcompare.
  destruct a as [sa|sa| |sa ma ea], b as [sb|sb| |sb mb eb],
           c as [sc|sc| |sc mc ec];
    try destruct sa; try destruct sb; try destruct sc;
    try discriminate; try reflexivity;
    change (Pos.compare_cont Eq) with Pos.compare;
    destruct (Z.compare_spec ea eb), (Z.compare_spec eb ec),
             (Z.compare_spec ea ec);
    subst; try discriminate; try reflexivity; try lia;
    destruct (Pos.compare_spec ma mb), (Pos.compare_spec mb mc),
             (Pos.compare_spec ma mc);
    subst; simpl; try discriminate; try reflexivity; try lia.
Qed.

(** What exceeds a threshold exceeds every lower one. *)
Lemma gtb_lower_threshold (x th th' : float) :
  PrimFloat.leb th th' = true -> PyFloat.gtb x th' = true ->
  PyFloat.gtb x th = true.
Proof.
  unfold PyFloat.gtb. rewrite FloatAxioms.leb_spec, !FloatAxioms.ltb_spec.
  apply SFleb_SFltb_trans.
Qed.

(** Nothing exceeds a NaN threshold. *)
Lemma gtb_nan_threshold (x c : float) :
  PrimFloat.is_nan c = true -> PyFloat.gtb x c = false.
Proof.
  unfold PrimFloat.is_nan, PyFloat.gtb. intros H.
  apply negb_true_iff in H. rewrite FloatAxioms.eqb_spec in H.
  apply SFeqb_refl_false in H.
  rewrite FloatAxioms.ltb_spec, H. reflexivity.
Qed.

Lemma disk_warnings_ok (threshold : float) (disks : list Disk.t)
    (warnings : list Warning.t) :
  disk_warnings threshold disks = inr warnings ->
  Forall2 warning_of warnings
    (List.filter (fun d => PyFloat.gtb (Disk.percent d) threshold) disks).
Proof.
  revert warnings. induction disks as [|d disks IH]; intros warnings H;
    simpl in *.
  - injection H as <-. constructor.
  - destruct (PyFloat.gtb (Disk.percent d) threshold); [|now apply IH].
    destruct (format_bytes (PInt (Disk.free d))) as [e|s] eqn:Ef;
      [discriminate H|]. simpl in H.
    destruct (disk_warnings threshold disks) as [e|ws]; [discriminate H|].
    simpl in H. injection H as <-. constructor; [|now apply IH].
    now repeat split.
Qed.

Lemma disk_warnings_fewer (th th' : float) (disks : list Disk.t)
    (warnings : list Warning.t) :
  (forall x : float, PyFloat.gtb x th' = true -> PyFloat.gtb x th = true) ->
  disk_warnings th disks = inr warnings ->
  exists warnings' : list Warning.t,
    disk_warnings th' disks = inr warnings' /\ sublist warnings' warnings.
Proof.
  intros Hth. revert warnings.
  induction disks as [|d disks IH]; intros warnings H; simpl in *.
  - injection H as <-. exists []. split; [reflexivity|constructor].
  - destruct (PyFloat.gtb (Disk.percent d) th) eqn:E.
    + destruct (format_bytes (PInt (Disk.free d))) as [e|s];
        [discriminate H|]. simpl in H.
      destruct (disk_warnings th disks) as [e|ws]; [discriminate H|].
      simpl in H. injection H as <-.
      destruct (IH ws eq_refl) as (ws' & Hw & Hs). rewrite Hw.
      destruct (PyFloat.gtb (Disk.percent d) th'); simpl.
      * eexists. split; [reflexivity|]. now apply sublist_skip.
      * exists ws'. split; [reflexivity|]. now apply sublist_cons.
    + destruct (PyFloat.gtb (Disk.percent d) th') eqn:E'.
      * rewrite (Hth _ E') in E. discriminate E.
      * now apply IH.
Qed.

Lemma disk_warnings_above (threshold : float) (disks : list Disk.t)
    (warnings : list Warning.t) :
  disk_warnings threshold disks = inr warnings ->
  Forall (fun w => PyFloat.gtb (Warning.usage_percent w) threshold = true)
    warnings.
Proof.
  revert warnings. induction disks as [|d disks IH]; intros warnings H;
    simpl in *.
  - injection H as <-. constructor.
  - destruct (PyFloat.gtb (Disk.percent d) threshold) eqn:E; [|now apply IH].
    destruct (format_bytes (PInt (Disk.free d))) as [e|s];
      [discriminate H|]. simpl in H.
    destruct (disk_warnings threshold disks) as [e|ws]; [discriminate H|].
    simpl in H. injection H as <-. constructor; [exact E|now apply IH].
Qed.

(** X20. When [check_disk_space] returns, its warnings are exactly the
    disks of [get_disk_info] whose usage percentage is strictly above the
    threshold, in the same order, each with the disk's device, mount point
    and percentage and its free space as [format_bytes] gives it; an
    exception of [get_disk_info] leaves [check_disk_space] unchanged. *)
Theorem X20_warnings_above_threshold
    (partitions : list (sdiskpart.t * usage_call)) (threshold : float) :
  (forall warnings : list Warning.t,
     check_disk_space partitions threshold = inr warnings ->
     exists disks : list Disk.t,
       get_disk_info partitions = inr disks
       /\ Forall2 warning_of warnings
            (List.filter (fun d => PyFloat.gtb (Disk.percent d) threshold)
               disks)
       /\ Forall (fun w => PyFloat.gtb (Warning.usage_percent w) threshold
                           = true) warnings)
  /\ (forall e : py_exn,
        get_disk_info partitions = inl e ->
        check_disk_space partitions threshold = inl e).
Proof.
  unfold check_disk_space. split.
  - intros warnings H.
    destruct (get_disk_info partitions) as [e|disks]; [discriminate H|].
    simpl in H. exists disks. split; [reflexivity|].
    split; [now apply disk_warnings_ok|now apply disk_warnings_above with disks].
  - intros e ->. reflexivity.
Qed.

(** One disk at 30 percent and one at 95 percent, threshold 90. *)
Lemma X20_warnings_above_threshold_witness :
  exists disks : list Disk.t,
    get_disk_info
      [(sdiskpart.mk "/dev/sda1" "/" "ext4",
        Usage (sdiskusage.mk 100 30 70));
       (sdiskpart.mk "/dev/sdb1" "/data" "ext4",
        Usage (sdiskusage.mk 2048 1946 102))] = inr disks
    /\ Forall2 warning_of
         [Warning.mk "/dev/sdb1" "/data" 95.01953125 "102.0 B"]
         (List.filter (fun d => PyFloat.gtb (Disk.percent d) 90) disks).
Proof.
  destruct (proj1 (X20_warnings_above_threshold
              [(sdiskpart.mk "/dev/sda1" "/" "ext4",
                Usage (sdiskusage.mk 100 30 70));
               (sdiskpart.mk "/dev/sdb1" "/data" "ext4",
                Usage (sdiskusage.mk 2048 1946 102))] 90)
              [Warning.mk "/dev/sdb1" "/data" 95.01953125 "102.0 B"])
    as (disks & Hd & Hw & _).
  - vm_compute. reflexivity.
  - exists disks. split; [exact Hd|exact Hw].
Defined.

(** X21. Raising the threshold can only remove warnings: if the check
    returns for a threshold, it returns for every higher threshold, with a
    sub-list of the warnings; for a NaN threshold it returns no warning at
    all. *)
Theorem X21_higher_threshold_fewer_warnings
    (partitions : list (sdiskpart.t * usage_call)) (th th' : float)
    (warnings : list Warning.t) :
  check_disk_space partitions th = inr warnings ->
  (PrimFloat.leb th th' = true ->
   exists warnings' : list Warning.t,
     check_disk_space partitions th' = inr warnings'
     /\ sublist warnings' warnings)
  /\ (PrimFloat.is_nan th' = true ->
      check_disk_space partitions th' = inr []).
Proof.
  unfold check_disk_space. intros H.
  destruct (get_disk_info partitions) as [e|disks]; [discriminate H|].
  simpl in *. split.
  - intros Hle. apply (disk_warnings_fewer th th' disks warnings); [|exact H].
    intros x. now apply gtb_lower_threshold.
  - intros Hnan. clear H. induction disks as [|d disks IH]; [reflexivity|].
    simpl. now rewrite (gtb_nan_threshold _ _ Hnan).
Qed.

Lemma X21_higher_threshold_fewer_warnings_witness :
  exists warnings' : list Warning.t,
    check_disk_space
      [(sdiskpart.mk "/dev/sda1" "/" "ext4",
        Usage (sdiskusage.mk 100 30 70));
       (sdiskpart.mk "/dev/sdb1" "/data" "ext4",
        Usage (sdiskusage.mk 2048 1946 102))] 90 = inr warnings'
    /\ sublist warnings'
         [Warning.mk "/dev/sda1" "/" 30 "70.0 B";
          Warning.mk "/dev/sdb1" "/data" 95.01953125 "102.0 B"].
Proof.
  apply (proj1 (X21_higher_threshold_fewer_warnings
           [(sdiskpart.mk "/dev/sda1" "/" "ext4",
             Usage (sdiskusage.mk 100 30 70));
            (sdiskpart.mk "/dev/sdb1" "/data" "ext4",
             Usage (sdiskusage.mk 2048 1946 102))] 20 90
           [Warning.mk "/dev/sda1" "/" 30 "70.0 B";
            Warning.mk "/dev/sdb1" "/data" 95.01953125 "102.0 B"]
           ltac:(vm_compute; reflexivity))).
  reflexivity.
Defined.

(** * [format_bytes] *)

Lemma float_of_int_error (z : Z) (e : py_exn) :
  float_of_int z = inl e -> e = OverflowError.
Proof.
  unfold float_of_int.
  destruct (binary_normalize prec emax z 0 false); intros [= <-];
    reflexivity.
Qed.

(** On a float the loop never raises. *)
Lemma format_bytes_loop_float (units : list string) (x : float) :
  exists s : string, format_bytes_loop units (PFloat x) = inr s.
Proof.
  revert x. induction units as [|unit units IH]; intros x; simpl.
  - eexists. reflexivity.
  - destruct (PrimFloat.ltb x 1024); [eexists; reflexivity|]. apply IH.
Qed.

Lemma format_bytes_loop_error (units : list string) (v : pynum) (e : py_exn) :
  format_bytes_loop units v = inl e ->
  e = OverflowError /\ exists z : Z, v = PInt z.
Proof.
  destruct v as [z|x].
  - intros H. split; [|now exists z].
    destruct units as [|unit units]; simpl in H.
    + destruct (float_of_int z) as [e'|y] eqn:E; [|discriminate H].
      injection H as <-. now apply float_of_int_error in E.
    + destruct (z <? 1024);
        (destruct (float_of_int z) as [e'|y] eqn:E;
         [injection H as <-; now apply float_of_int_error in E|]);
        simpl in H; [discriminate H|].
      destruct (format_bytes_loop_float units (y / 1024)%float) as [s Hs].
      rewrite Hs in H. discriminate H.
  - intros H. destruct (format_bytes_loop_float units x) as [s Hs].
    rewrite Hs in H. discriminate H.
Qed.

Lemma format_bytes_loop_unit (units : list string) (v : pynum) (s : string) :
  format_bytes_loop units v = inr s ->
  exists text unit : string,
    unit ∈ units ++ ["PB"] /\ s = (text ++ " " ++ unit)%string.
Proof.
  revert v. induction units as [|unit units IH]; intros v H; simpl in H.
  - destruct (num_format_1f v) as [e|text]; [discriminate H|].
    injection H as <-. exists text, "PB". split; [in_labels|reflexivity].
  - destruct (num_lt_1024 v).
    + destruct (num_format_1f v) as [e|text]; [discriminate H|].
      injection H as <-. exists text, unit.
      split; [apply list_elem_of_here|reflexivity].
    + destruct (num_div_1024 v) as [e|v']; [discriminate H|]. simpl in H.
      destruct (IH v' H) as (text & u & Hu & ->). exists text, u.
      split; [now apply list_elem_of_further|reflexivity].
Qed.

Lemma small_counts_ok : forallb small_count_ok (seq 0 1024) = true.
Proof. vm_compute. reflexivity. Qed.

(** X22. [format_bytes] leaves a value below 1024 unscaled, in unit B: a
    byte count from 0 to 1023 is shown as the count followed by ".0 B", and a
    negative count is never scaled either.  Every text that it returns ends
    in one of the units B, KB, MB, GB, TB, PB; it never raises on a float,
    and on an int only [OverflowError], when the int is too large for a
    float. *)
Theorem X22_format_bytes_units :
  (forall b : Z,
     0 <= b < 1024 ->
     format_bytes (PInt b) = inr (pretty (Z.to_N b) ++ ".0 B")%string)
  /\ (forall b : Z,
        b < 1024 ->
        format_bytes (PInt b)
        = bind (float_of_int b) (fun x => inr (format_1f x ++ " B")%string))
  /\ (forall x : float,
        PrimFloat.ltb x 1024 = true ->
        format_bytes (PFloat x) = inr (format_1f x ++ " B")%string)
  /\ (forall (v : pynum) (s : string),
        format_bytes v = inr s ->
        exists text unit : string,
          unit ∈ byte_units /\ s = (text ++ " " ++ unit)%string)
  /\ (forall (v : pynum) (e : py_exn),
        format_bytes v = inl e ->
        e = OverflowError /\ exists z : Z, v = PInt z).
Proof.
  split; [|split; [|split; [|split]]].
  - intros b Hb.
    pose proof (proj1 (forallb_forall small_count_ok (seq 0 1024))
                  small_counts_ok (Z.to_nat b)) as H.
    unfold small_count_ok in H. rewrite Z2Nat.id in H by lia.
    rewrite Z_nat_N in H.
    destruct (format_bytes (PInt b)) as [e|s].
    + discriminate H. apply in_seq. lia.
    + f_equal. apply String.eqb_eq, H, in_seq. lia.
  - intros b Hb. unfold format_bytes. cbn [format_bytes_loop num_lt_1024].
    rewrite (proj2 (Z.ltb_lt _ _) Hb). unfold num_format_1f.
    destruct (float_of_int b); reflexivity.
  - intros x Hx. unfold format_bytes. cbn [format_bytes_loop num_lt_1024].
    rewrite Hx. reflexivity.
  - intros v s H. now apply format_bytes_loop_unit in H.
  - intros v e H. now apply format_bytes_loop_error in H.
Qed.

Lemma X22_format_bytes_units_witness :
  format_bytes (PInt 512) = inr "512.0 B"
  /\ format_bytes (PFloat 1.5) = inr "1.5 B".
Proof.
  split.
  - apply (proj1 X22_format_bytes_units 512). lia.
  - apply (proj1 (proj2 (proj2 X22_format_bytes_units)) 1.5%float).
    reflexivity.
Defined.

(** * Binary64 arithmetic on exactly representable values *)

Lemma digits2_pos_size (p : positive) : digits2_pos p = Pos.size p.
Proof. induction p; simpl; congruence. Qed.

Lemma digits2_bounds (p : positive) :
  2 ^ (Zpos (digits2_pos p) - 1) <= Zpos p < 2 ^ Zpos (digits2_pos p).
Proof.
  rewrite digits2_pos_size.
  pose proof (Pos.size_gt p) as Hgt. pose proof (Pos.size_le p) as Hle.
  apply Pos2Z.pos_lt_pos in Hgt. apply Pos2Z.pos_le_pos in Hle.
  rewrite Pos2Z.inj_pow in Hgt, Hle.
  change (Zpos p~0) with (2 * Zpos p) in Hle.
  replace (Zpos (Pos.size p)) with (Z.succ (Zpos (Pos.size p) - 1)) in Hle
    by lia.
  rewrite Z.pow_succ_r in Hle by lia. lia.
Qed.

Lemma digits2_unique (p : positive) (d : Z) :
  2 ^ (d - 1) <= Zpos p < 2 ^ d -> Zpos (digits2_pos p) = d.
Proof.
  intros [Hlo Hhi]. pose proof (digits2_bounds p) as [Blo Bhi].
  destruct (Z.lt_trichotomy (Zpos (digits2_pos p)) d) as [H|[H|H]];
    [|exact H|].
  - assert (2 ^ Zpos (digits2_pos p) <= 2 ^ (d - 1))
      by (apply Z.pow_le_mono_r; lia). lia.
  - destruct (Z.le_gt_cases d 0) as [Hd|Hd].
    + assert (2 ^ d <= 1).
      { destruct (Z.eq_dec d 0) as [->|]; [reflexivity|].
        rewrite Z.pow_neg_r by lia. lia. }
      lia.
    + assert (2 ^ d <= 2 ^ (Zpos (digits2_pos p) - 1))
        by (apply Z.pow_le_mono_r; lia). lia.
Qed.

(** A mantissa of 53 bits with an exponent in range is its own rounding. *)
Lemma round_canonical (s : bool) (m : positive) (e : Z) :
  digits2_pos m = 53%positive -> -1074 <= e <= 971 ->
  binary_round_aux prec emax s (Zpos m) e loc_Exact = S754_finite s m e.
Proof.
  intros Hd He. unfold binary_round_aux, shr_fexp, Zdigits2.
  rewrite Hd. unfold fexp, emin, prec, emax.
  replace (Z.max (53 + e - 53) (3 - 1024 - 53) - e) with 0 by lia.
  cbn [shr shr_record_of_loc shr_m loc_of_shr_record round_nearest_even].
  rewrite Hd.
  replace (Z.max (53 + e - 53) (3 - 1024 - 53) - e) with 0 by lia.
  cbn [shr shr_record_of_loc shr_m].
  replace (e <=? 1024 - 53) with true by (symmetry; apply Z.leb_le; lia).
  reflexivity.
Qed.

(** Twice such a mantissa is rounded by dropping the last bit. *)
Lemma round_doubled (s : bool) (m : positive) (e : Z) :
  digits2_pos m = 53%positive -> -1075 <= e <= 970 ->
  binary_round_aux prec emax s (Zpos m~0) e loc_Exact
  = S754_finite s m (e + 1).
Proof.
  intros Hd He. unfold binary_round_aux, shr_fexp, Zdigits2.
  change (digits2_pos m~0) with (Pos.succ (digits2_pos m)).
  rewrite Hd. unfold fexp, emin, prec, emax.
  replace (Z.max (Zpos (Pos.succ 53) + e - 53) (3 - 1024 - 53) - e) with 1
    by lia.
  cbn [shr shr_record_of_loc SpecFloat.iter_pos shr_1 orb shr_m loc_of_shr_record
         round_nearest_even].
  cbn [Zdigits2]. rewrite Hd.
  replace (Z.max (53 + (e + 1) - 53) (3 - 1024 - 53) - (e + 1)) with 0
    by lia.
  cbn [shr shr_record_of_loc shr_m].
  replace (e + 1 <=? 1024 - 53) with true by (symmetry; apply Z.leb_le; lia).
  reflexivity.
Qed.

Lemma Prim2SF_1024 :
  Prim2SF 1024 = S754_finite false 4503599627370496 (-42).
Proof. reflexivity. Qed.

(** Division by 1024 lowers the exponent by 10. *)
Lemma SFdiv_1024 (s : bool) (m : positive) (e : Z) :
  digits2_pos m = 53%positive -> -1063 <= e <= 981 ->
  SFdiv prec emax (S754_finite s m e)
    (S754_finite false 4503599627370496 (-42))
  = S754_finite s m (e - 10).
Proof.
  intros Hd He. unfold SFdiv, SFdiv_core_binary, Zdigits2.
  rewrite Hd. change (digits2_pos 4503599627370496) with 53%positive.
  unfold fexp, emin, prec, emax.
  replace (Z.min (Z.max (53 + e - (53 + -42) - 53) (3 - 1024 - 53))
                 (e - -42)) with (e - 11) by lia.
  replace (e - -42 - (e - 11)) with 53 by lia.
  assert (E : Z.div_eucl (Z.shiftl (Zpos m) 53) 4503599627370496
              = (Zpos m~0, 0)).
  { assert (Hq : Z.shiftl (Zpos m) 53 = Zpos m~0 * 4503599627370496).
    { rewrite Z.shiftl_mul_pow2 by lia.
      change (2 ^ 53) with (2 * 4503599627370496).
      change (Zpos m~0) with (2 * Zpos m). lia. }
    rewrite Hq.
    pose proof (Z.div_mul (Zpos m~0) 4503599627370496 ltac:(lia)) as Hdiv.
    pose proof (Z.mod_mul (Zpos m~0) 4503599627370496 ltac:(lia)) as Hmod.
    unfold Z.div, Z.modulo in Hdiv, Hmod.
    destruct (Z.div_eucl (Zpos m~0 * 4503599627370496) 4503599627370496).
    congruence. }
  rewrite E. cbn [xorb]. rewrite xorb_false_r.
  change (new_location 4503599627370496 0) with loc_Exact.
  rewrite round_doubled by (assumption || lia).
  f_equal. lia.
Qed.

(** With a mantissa that is not smaller, the exponents decide. *)
Lemma SFltb_mantissa_ge (m c : positive) (e ec : Z) :
  (c <= m)%positive ->
  SFltb (S754_finite false m e) (S754_finite false c ec) = (e <? ec).
Proof.
  intros Hc. unfold SFltb, SFcompare.
  destruct (Z.compare_spec e ec) as [->|H|H].
  - change (Pos.compare_cont Eq) with Pos.compare.
    destruct (Pos.compare_spec m c) as [H|H|H];
      rewrite Z.ltb_irrefl; try reflexivity. lia.
  - symmetry. apply Z.ltb_lt. exact H.
  - symmetry. apply Z.ltb_ge. lia.
Qed.

(** A float with a mantissa of 53 bits is below 1024 exactly when its
    exponent is below -42. *)
Lemma SFltb_1024 (m : positive) (e : Z) :
  digits2_pos m = 53%positive ->
  SFltb (S754_finite false m e) (S754_finite false 4503599627370496 (-42))
  = (e <? -42).
Proof.
  intros Hd. apply SFltb_mantissa_ge.
  pose proof (digits2_bounds m) as [Hlo _]. rewrite Hd in Hlo.
  apply Pos2Z.pos_le_pos. exact Hlo.
Qed.

Lemma N_compare_scale (a b c : N) :
  (0 < c)%N -> (a * c ?= b * c)%N = (a ?= b)%N.
Proof.
  intros Hc.
  destruct (N.compare_spec a b), (N.compare_spec (a * c) (b * c));
    try reflexivity; nia.
Qed.

(** Rounding after a shift: common factors of two cancel. *)
Lemma round_half_even_shift_scale (n k s : N) :
  round_half_even_shift (n * 2 ^ s) (k + s) = round_half_even_shift n k.
Proof.
  unfold round_half_even_shift.
  assert (Hs : (2 ^ s <> 0)%N) by (apply N.pow_nonzero; discriminate).
  destruct (N.eqb_spec k 0) as [->|Hk].
  - rewrite N.add_0_l. destruct (N.eqb_spec s 0) as [->|Hs0].
    + now rewrite N.mul_1_r.
    + rewrite N.shiftr_div_pow2, N.land_ones, N.shiftl_mul_pow2.
      rewrite N.div_mul by exact Hs. rewrite N.Div0.mod_mul, N.mul_1_l.
      assert (0 < 2 ^ (s - 1))%N
        by (apply N.neq_0_lt_0, N.pow_nonzero; discriminate).
      destruct (N.compare_spec 0 (2 ^ (s - 1))); try reflexivity; lia.
  - destruct (N.eqb_spec (k + s) 0) as [E|_]; [lia|].
    rewrite !N.shiftr_div_pow2, !N.land_ones, !N.shiftl_mul_pow2, !N.mul_1_l.
    rewrite N.pow_add_r.
    rewrite N.Div0.div_mul_cancel_r by exact Hs.
    rewrite N.Div0.mul_mod_distr_r.
    replace (k + s - 1)%N with ((k - 1) + s)%N by lia.
    rewrite N.pow_add_r.
    rewrite N_compare_scale by lia.
    reflexivity.
Qed.

(** ** [format_bytes] on byte counts below [2^53] *)

Lemma normal_float_SF2Prim (m : positive) (e : Z) :
  digits2_pos m = 53%positive -> -1074 <= e <= 971 ->
  normal_float (SF2Prim (S754_finite false m e)) m e.
Proof.
  intros Hd He. split; [|exact Hd].
  apply Prim2SF_SF2Prim. unfold valid_binary, bounded, canonical_mantissa.
  rewrite Hd. unfold fexp, emin, prec, emax.
  apply andb_true_iff. split; [apply Z.eqb_eq|apply Z.leb_le]; lia.
Qed.

Lemma normal_float_div (x : float) (m : positive) (e : Z) :
  normal_float x m e -> -1063 <= e <= 981 ->
  normal_float (x / 1024)%float m (e - 10).
Proof.
  intros [Hx Hd] He. split; [|exact Hd].
  rewrite div_spec, Hx, Prim2SF_1024. unfold SF64div.
  now apply SFdiv_1024.
Qed.

Lemma normal_float_ltb (x : float) (m : positive) (e : Z) :
  normal_float x m e -> PrimFloat.ltb x 1024 = (e <? -42).
Proof.
  intros [Hx Hd]. rewrite FloatAxioms.ltb_spec, Hx, Prim2SF_1024.
  now apply SFltb_1024.
Qed.

Lemma normal_float_format (x : float) (m : positive) (e : Z) :
  normal_float x m e -> format_1f x = text_of m e.
Proof. intros [Hx _]. unfold format_1f. now rewrite Hx. Qed.

Lemma format_bytes_loop_normal (units : list string) (x : float)
    (m : positive) (e : Z) :
  normal_float x m e ->
  -1063 + 10 * Z.of_nat (length units) <= e <= 981 ->
  format_bytes_loop units (PFloat x) = inr (loop_text units m e).
Proof.
  revert x e. induction units as [|unit units IH]; intros x e Hx He.
  - simpl. now rewrite (normal_float_format x m e Hx).
  - cbn [format_bytes_loop loop_text num_lt_1024 num_format_1f
           num_div_1024 bind].
    rewrite (normal_float_ltb x m e Hx).
    destruct (e <? -42).
    + now rewrite (normal_float_format x m e Hx).
    + apply IH.
      * apply normal_float_div; [exact Hx|]. simpl length in He. lia.
      * simpl length in He. lia.
Qed.

(** Shifting left by [k] bits multiplies by [2^k]. *)
Lemma iter_xO_pow (p k : positive) :
  Zpos (Pos.iter xO p k) = Zpos p * 2 ^ Zpos k.
Proof.
  induction k as [|k IH] using Pos.peano_ind.
  - cbn [Pos.iter]. change (2 ^ 1) with 2. lia.
  - rewrite Pos.iter_succ, Pos2Z.inj_succ, Z.pow_succ_r by lia.
    change (Zpos (Pos.iter xO p k)~0) with (2 * Zpos (Pos.iter xO p k)).
    rewrite IH. lia.
Qed.

Lemma digits2_le_53 (p : positive) :
  Zpos p < 2 ^ 53 -> Zpos (digits2_pos p) <= 53.
Proof.
  intros Hp. pose proof (digits2_bounds p) as [Hlo _].
  destruct (Z.le_gt_cases (Zpos (digits2_pos p)) 53) as [H|H]; [exact H|].
  assert (2 ^ 53 <= 2 ^ (Zpos (digits2_pos p) - 1))
    by (apply Z.pow_le_mono_r; lia). lia.
Qed.

Lemma mantissa53_value (p : positive) :
  Zpos p < 2 ^ 53 ->
  Zpos (mantissa53 p) = Zpos p * 2 ^ (53 - Zpos (digits2_pos p)).
Proof.
  intros Hp. pose proof (digits2_le_53 p Hp) as Hd.
  unfold mantissa53, shl_align.
  destruct (Zpos (digits2_pos p) - 53 - 0) as [|k|k] eqn:E; try lia.
  - replace (53 - Zpos (digits2_pos p)) with 0 by lia. simpl. lia.
  - cbn [fst]. rewrite iter_xO_pow. f_equal. f_equal. lia.
Qed.

Lemma mantissa53_digits (p : positive) :
  Zpos p < 2 ^ 53 -> digits2_pos (mantissa53 p) = 53%positive.
Proof.
  intros Hp. pose proof (digits2_le_53 p Hp) as Hd.
  pose proof (digits2_bounds p) as [Hlo Hhi].
  assert (H : Zpos (digits2_pos (mantissa53 p)) = 53).
  { apply digits2_unique. rewrite (mantissa53_value p Hp).
    replace (2 ^ (53 - 1))
      with (2 ^ (Zpos (digits2_pos p) - 1)
            * 2 ^ (53 - Zpos (digits2_pos p)))
      by (rewrite <- Z.pow_add_r by lia; f_equal; lia).
    replace (2 ^ 53)
      with (2 ^ Zpos (digits2_pos p) * 2 ^ (53 - Zpos (digits2_pos p)))
      by (rewrite <- Z.pow_add_r by lia; f_equal; lia).
    assert (0 < 2 ^ (53 - Zpos (digits2_pos p)))
      by (apply Z.pow_pos_nonneg; lia).
    split; nia. }
  now injection H.
Qed.

(** The float of a positive int below [2^53]. *)
Lemma float_of_int_pos (p : positive) :
  Zpos p < 2 ^ 53 ->
  exists x : float,
    float_of_int (Zpos p) = inr x
    /\ normal_float x (mantissa53 p) (Zpos (digits2_pos p) - 53).
Proof.
  intros Hp. pose proof (digits2_le_53 p Hp) as Hd.
  pose proof (mantissa53_digits p Hp) as Hm.
  exists (SF2Prim (S754_finite false (mantissa53 p)
                               (Zpos (digits2_pos p) - 53))).
  split; [|apply normal_float_SF2Prim; [exact Hm|lia]].
  unfold float_of_int, binary_normalize, binary_round.
  assert (E : shl_align p 0 (fexp prec emax (Zpos (digits2_pos p) + 0))
              = (mantissa53 p, Zpos (digits2_pos p) - 53)).
  { unfold fexp, emin, prec, emax.
    replace (Z.max (Zpos (digits2_pos p) + 0 - 53) (3 - 1024 - 53))
      with (Zpos (digits2_pos p) - 53) by lia.
    unfold mantissa53, shl_align.
    destruct (Zpos (digits2_pos p) - 53 - 0) as [|k|k] eqn:E; try lia.
    - cbn [fst]. f_equal. lia.
    - reflexivity. }
  rewrite E. rewrite round_canonical by (assumption || lia). reflexivity.
Qed.

(** A positive int is below [2^n] exactly when it has at most [n] bits. *)
Lemma digits2_le_iff (p : positive) (n : Z) :
  0 <= n -> (Zpos p < 2 ^ n <-> Zpos (digits2_pos p) <= n).
Proof.
  intros Hn. pose proof (digits2_bounds p) as [Hlo Hhi]. split.
  - intros Hp.
    destruct (Z.le_gt_cases (Zpos (digits2_pos p)) n) as [H|H]; [exact H|].
    assert (2 ^ n <= 2 ^ (Zpos (digits2_pos p) - 1))
      by (apply Z.pow_le_mono_r; lia). lia.
  - intros Hd.
    assert (2 ^ Zpos (digits2_pos p) <= 2 ^ n)
      by (apply Z.pow_le_mono_r; lia). lia.
Qed.

(** The test [x < 1024.0] after [j] divisions by 1024, in terms of the
    int. *)
Lemma exponent_test (p : positive) (j : Z) :
  0 <= j ->
  (Zpos (digits2_pos p) - 53 - 10 * j <? -42)
  = (Zpos p <? 2 ^ (10 * (j + 1))).
Proof.
  intros Hj.
  destruct (Z.ltb_spec (Zpos p) (2 ^ (10 * (j + 1)))) as [H|H].
  - apply Z.ltb_lt. apply digits2_le_iff in H; lia.
  - apply Z.ltb_ge.
    destruct (Z.le_gt_cases (Zpos (digits2_pos p)) (10 * (j + 1)))
      as [Hd|Hd]; [|lia].
    apply digits2_le_iff in Hd; lia.
Qed.

(** The text of the float of [p], divided [K / 10] times by 1024. *)
Lemma text_of_mantissa53 (p : positive) (K : N) :
  Zpos p < 2 ^ 53 ->
  text_of (mantissa53 p) (Zpos (digits2_pos p) - 53 - Z.of_N K)
  = (let tenths := round_half_even_shift (10 * Npos p) K in
     pretty (tenths / 10)%N ++ "." ++ pretty (tenths mod 10)%N)%string.
Proof.
  intros Hp. pose proof (digits2_le_53 p Hp) as Hd.
  pose proof (mantissa53_value p Hp) as Hv.
  assert (Hm : Npos (mantissa53 p)
               = (Npos p * 2 ^ Z.to_N (53 - Zpos (digits2_pos p)))%N).
  { apply N2Z.inj. rewrite N2Z.inj_mul, N2Z.inj_pow, Z2N.id by lia.
    exact Hv. }
  unfold text_of.
  destruct (Zpos (digits2_pos p) - 53 - Z.of_N K) as [|k|k] eqn:E; try lia.
  - assert (HK : K = 0%N) by lia. subst K.
    assert (Hs : Z.to_N (53 - Zpos (digits2_pos p)) = 0%N) by lia.
    rewrite Hs in Hm. rewrite Hm. cbn zeta. unfold round_half_even_shift.
    cbn [N.eqb]. change (Z.to_N 0) with 0%N.
    now rewrite !N.mul_1_r.
  - cbn zeta. rewrite Hm.
    replace (N.pos k) with (K + Z.to_N (53 - Zpos (digits2_pos p)))%N
      by lia.
    rewrite N.mul_assoc, round_half_even_shift_scale. reflexivity.
Qed.

Lemma string_append_assoc (s1 s2 s3 : string) :
  ((s1 ++ s2) ++ s3 = s1 ++ (s2 ++ s3))%string.
Proof.
  induction s1 as [|c s1 IH]; [reflexivity|].
  change (String c ((s1 ++ s2) ++ s3) = String c (s1 ++ s2 ++ s3))%string.
  now rewrite IH.
Qed.

(** The first round of the loop of [format_bytes] on an int. *)
Lemma format_bytes_int_step (b : Z) (x : float) :
  float_of_int b = inr x ->
  format_bytes (PInt b)
  = if b <? 1024 then inr (format_1f x ++ " B")%string
    else format_bytes_loop ["KB"; "MB"; "GB"; "TB"] (PFloat (x / 1024)).
Proof.
  intros Hx. unfold format_bytes.
  change (format_bytes_loop ["B"; "KB"; "MB"; "GB"; "TB"] (PInt b))
    with (if b <? 1024
          then bind (bind (float_of_int b) (fun x => inr (format_1f x)))
                 (fun s => inr (s ++ " " ++ "B")%string)
          else bind (bind (float_of_int b)
                       (fun x => inr (PFloat (x / 1024)%float)))
                 (format_bytes_loop ["KB"; "MB"; "GB"; "TB"])).
  now rewrite Hx.
Qed.

(** [bytes_text] with the unit index [k]. *)
Lemma bytes_text_index (b : Z) (k : nat) :
  unit_index b = k ->
  bytes_text b
  = (let tenths :=
       round_half_even_shift (Z.to_N (10 * b)) (N.of_nat (10 * k)) in
     pretty (tenths / 10)%N ++ "." ++ pretty (tenths mod 10)%N
     ++ " " ++ nth k byte_units "")%string.
Proof. intros <-. reflexivity. Qed.

(** The text after [j] divisions by 1024 is the text of the unit [j]. *)
Lemma text_of_unit (p : positive) (j : nat) :
  Zpos p < 2 ^ 53 ->
  unit_index (Zpos p) = j ->
  (text_of (mantissa53 p) (Zpos (digits2_pos p) - 53 - 10 * Z.of_nat j)
   ++ " " ++ nth j byte_units "")%string
  = bytes_text (Zpos p).
Proof.
  intros Hp Hj. rewrite (bytes_text_index _ _ Hj).
  pose proof (text_of_mantissa53 p (N.of_nat (10 * j)) Hp) as Ht.
  replace (Z.of_N (N.of_nat (10 * j))) with (10 * Z.of_nat j) in Ht by lia.
  rewrite Ht. cbn zeta.
  change (Z.to_N (10 * Z.pos p)) with (10 * N.pos p)%N.
  now rewrite string_append_assoc.
Qed.

(** X26. For every int byte count from 0 up to (not including) [2^53],
    [format_bytes] returns the exact quotient of the count by [1024^k],
    rounded to one decimal with ties to even, followed by the k-th of the
    units B, KB, MB, GB, TB, PB, where [k] is the number of powers
    [1024^1 .. 1024^5] that the count has reached.  The conversion to a
    float and the repeated float divisions lose nothing in this range; the
    rounding to one decimal can show 1024.0 in the smaller unit (1048575 is
    "1024.0 KB"). *)
Theorem X26_format_bytes_ladder (b : Z) :
  0 <= b < 2 ^ 53 -> format_bytes (PInt b) = inr (bytes_text b).
Proof.
  intros [Hlo Hhi]. destruct b as [|p|p]; [reflexivity| |lia].
  destruct (float_of_int_pos p Hhi) as (x & Hx & Hn).
  pose proof (digits2_le_53 p Hhi) as Hd.
  rewrite (format_bytes_int_step _ _ Hx).
  pose proof (exponent_test p 1 ltac:(lia)) as T1.
  pose proof (exponent_test p 2 ltac:(lia)) as T2.
  pose proof (exponent_test p 3 ltac:(lia)) as T3.
  pose proof (exponent_test p 4 ltac:(lia)) as T4.
  change (2 ^ (10 * (1 + 1))) with (1024 ^ 2) in T1.
  change (2 ^ (10 * (2 + 1))) with (1024 ^ 3) in T2.
  change (2 ^ (10 * (3 + 1))) with (1024 ^ 4) in T3.
  change (2 ^ (10 * (4 + 1))) with (1024 ^ 5) in T4.
  pose proof (text_of_unit p 0 Hhi) as U0.
  pose proof (text_of_unit p 1 Hhi) as U1.
  pose proof (text_of_unit p 2 Hhi) as U2.
  pose proof (text_of_unit p 3 Hhi) as U3.
  pose proof (text_of_unit p 4 Hhi) as U4.
  pose proof (text_of_unit p 5 Hhi) as U5.
  unfold unit_index in U0, U1, U2, U3, U4, U5.
  cbn [nth byte_units Z.of_nat Pos.of_succ_nat Pos.succ] in U0, U1, U2, U3, U4, U5.
  destruct (Z.pos p <? 1024) eqn:E0.
  { rewrite (normal_float_format _ _ _ Hn), <- U0 by reflexivity.
    now rewrite Z.sub_0_r. }
  rewrite (format_bytes_loop_normal _ _ (mantissa53 p)
             (Z.pos (digits2_pos p) - 53 - 10 * 1)).
  2:{ replace (Z.pos (digits2_pos p) - 53 - 10 * 1)
        with (Z.pos (digits2_pos p) - 53 - 10) by lia.
      apply normal_float_div; [exact Hn|lia]. }
  2:{ cbn [length]. lia. }
  f_equal. cbn [loop_text]. rewrite T1.
  destruct (Z.pos p <? 1024 ^ 2) eqn:E1; [now apply U1|].
  replace (Z.pos (digits2_pos p) - 53 - 10 * 1 - 10)
    with (Z.pos (digits2_pos p) - 53 - 10 * 2) by lia.
  rewrite T2.
  destruct (Z.pos p <? 1024 ^ 3) eqn:E2; [now apply U2|].
  replace (Z.pos (digits2_pos p) - 53 - 10 * 2 - 10)
    with (Z.pos (digits2_pos p) - 53 - 10 * 3) by lia.
  rewrite T3.
  destruct (Z.pos p <? 1024 ^ 4) eqn:E3; [now apply U3|].
  replace (Z.pos (digits2_pos p) - 53 - 10 * 3 - 10)
    with (Z.pos (digits2_pos p) - 53 - 10 * 4) by lia.
  rewrite T4.
  destruct (Z.pos p <? 1024 ^ 5) eqn:E4; [now apply U4|].
  replace (Z.pos (digits2_pos p) - 53 - 10 * 4 - 10)
    with (Z.pos (digits2_pos p) - 53 - 10 * 5) by lia.
  now apply U5.
Qed.

Lemma X26_format_bytes_ladder_witness :
  format_bytes (PInt 1536) = inr "1.5 KB"
  /\ format_bytes (PInt 1048575) = inr "1024.0 KB"
  /\ format_bytes (PInt 123456789) = inr "117.7 MB".
Proof.
  split; [|split].
  - apply (X26_format_bytes_ladder 1536). lia.
  - apply (X26_format_bytes_ladder 1048575). lia.
  - apply (X26_format_bytes_ladder 123456789). lia.
Defined.

(** * The process list *)

(** ** The order of floats that are not NaN *)

Lemma SFltb_false_SFleb (a b : spec_float) :
  a <> S754_nan -> b <> S754_nan -> SFltb a b = false -> SFleb b a = true.
Proof.
  unfold SFltb, SFleb, SFcompare.
  destruct a as [sa|sa| |sa ma ea], b as [sb|sb| |sb mb eb];
    try destruct sa; try destruct sb; try congruence; try reflexivity;
    intros _ _; change (Pos.compare_cont Eq) with Pos.compare;
    rewrite (Z.compare_antisym ea eb), (Pos.compare_antisym ma mb);
    destruct (ea ?= eb); simpl; try discriminate; try reflexivity;
    destruct (ma ?= mb)%positive; simpl; try discriminate; reflexivity.
Qed.

Lemma SFleb_trans (a b c : spec_float) :
  SFleb a b = true -> SFleb b c = true -> SFleb a c = true.
Proof.
  unfold SFleb, SFcompare.
  destruct a as [sa|sa| |sa ma ea], b as [sb|sb| |sb mb eb],
           c as [sc|sc| |sc mc ec];
    try destruct sa; try destruct sb; try destruct sc;
    try discriminate; try reflexivity;
    change (Pos.compare_cont Eq) with Pos.compare;
    destruct (Z.compare_spec ea eb), (Z.compare_spec eb ec),
             (Z.compare_spec ea ec);
    subst; try discriminate; try reflexivity; try lia;
    destruct (Pos.compare_spec ma mb), (Pos.compare_spec mb mc),
             (Pos.compare_spec ma mc);
    subst; simpl; try discriminate; try reflexivity; try lia.
Qed.

Lemma SFltb_SFeqb_false (a b : spec_float) :
  SFltb a b = true -> SFeqb a b = false.
Proof.
  unfold SFltb, SFeqb. destruct (SFcompare a b) as [[| |]|];
    try discriminate; reflexivity.
Qed.

Lemma is_nan_false (x : float) :
  PrimFloat.is_nan x = false -> Prim2SF x <> S754_nan.
Proof.
  unfold PrimFloat.is_nan. rewrite negb_false_iff, FloatAxioms.eqb_spec.
  intros H E. rewrite E in H. discriminate H.
Qed.

Lemma ltb_false_leb (x y : float) :
  PrimFloat.is_nan x = false -> PrimFloat.is_nan y = false ->
  PrimFloat.ltb x y = false -> PrimFloat.leb y x = true.
Proof.
  intros Hx Hy. rewrite FloatAxioms.ltb_spec, FloatAxioms.leb_spec.
  apply SFltb_false_SFleb; now apply is_nan_false.
Qed.

Lemma leb_trans (x y z : float) :
  PrimFloat.leb x y = true -> PrimFloat.leb y z = true ->
  PrimFloat.leb x z = true.
Proof. rewrite !FloatAxioms.leb_spec. apply SFleb_trans. Qed.

Lemma ltb_leb (x y : float) :
  PrimFloat.ltb x y = true -> PrimFloat.leb x y = true.
Proof.
  rewrite FloatAxioms.ltb_spec, FloatAxioms.leb_spec. unfold SFltb, SFleb.
  destruct (SFcompare _ _) as [[| |]|]; try discriminate; reflexivity.
Qed.

Lemma ltb_eqb_false (x y : float) :
  PrimFloat.ltb x y = true -> PrimFloat.eqb x y = false.
Proof.
  rewrite FloatAxioms.ltb_spec, FloatAxioms.eqb_spec.
  apply SFltb_SFeqb_false.
Qed.

(** ** The sort *)

Lemma insert_desc_perm (x : ProcInfo.t) (l : list ProcInfo.t) :
  Permutation (insert_desc x l) (x :: l).
Proof.
  induction l as [|y l IH]; simpl; [reflexivity|].
  destruct (PrimFloat.ltb (cpu_key x) (cpu_key y)); [|reflexivity].
  rewrite IH. apply perm_swap.
Qed.

Lemma sort_desc_perm (l : list ProcInfo.t) : Permutation (sort_desc l) l.
Proof.
  induction l as [|x l IH]; simpl; [reflexivity|].
  rewrite insert_desc_perm. now constructor.
Qed.

Lemma insert_desc_sorted (x : ProcInfo.t) (l : list ProcInfo.t) :
  PrimFloat.is_nan (cpu_key x) = false ->
  Forall (fun p => PrimFloat.is_nan (cpu_key p) = false) l ->
  StronglySorted cpu_ge l -> StronglySorted cpu_ge (insert_desc x l).
Proof.
  intros Hx Hl Hs. induction l as [|y l IH]; simpl.
  - repeat constructor.
  - inversion Hl as [|? ? Hy Hl']; subst.
    apply StronglySorted_cons in Hs. destruct Hs as [Hyl Hs].
    destruct (PrimFloat.ltb (cpu_key x) (cpu_key y)) eqn:E.
    + apply StronglySorted_cons. split; [|now apply IH].
      rewrite (insert_desc_perm x l). constructor; [|exact Hyl].
      unfold cpu_ge. now apply ltb_leb.
    + assert (Hxy : cpu_ge x y)
        by (unfold cpu_ge; now apply ltb_false_leb).
      apply StronglySorted_cons. split.
      * constructor; [exact Hxy|].
        eapply Forall_impl; [exact Hyl|]. simpl. intros z Hz.
        unfold cpu_ge in *. now apply leb_trans with (cpu_key y).
      * apply StronglySorted_cons. now split.
Qed.

Lemma sort_desc_sorted (l : list ProcInfo.t) :
  Forall (fun p => PrimFloat.is_nan (cpu_key p) = false) l ->
  StronglySorted cpu_ge (sort_desc l).
Proof.
  induction 1 as [|x l Hx Hl IH]; simpl; [constructor|].
  apply insert_desc_sorted; [exact Hx| |exact IH].
  now rewrite sort_desc_perm.
Qed.

(** Processes with the same key stay in their order. *)
Lemma insert_desc_with_key (k : float) (x : ProcInfo.t)
    (l : list ProcInfo.t) :
  with_key k (insert_desc x l) = with_key k (x :: l).
Proof.
  unfold with_key. induction l as [|y l IH]; simpl; [reflexivity|].
  destruct (PrimFloat.ltb (cpu_key x) (cpu_key y)) eqn:E; [|reflexivity].
  simpl in *. rewrite IH.
  destruct (PrimFloat.eqb (cpu_key x) k) eqn:Ex; [|reflexivity].
  destruct (PrimFloat.eqb (cpu_key y) k) eqn:Ey; [|reflexivity].
  exfalso. apply ltb_eqb_false in E.
  rewrite FloatAxioms.eqb_spec in *. revert E Ex Ey.
  generalize (Prim2SF (cpu_key x)), (Prim2SF (cpu_key y)), (Prim2SF k).
  intros a b c. unfold SFeqb, SFcompare.
  destruct a as [sa|sa| |sa ma ea], b as [sb|sb| |sb mb eb],
           c as [sc|sc| |sc mc ec];
    try destruct sa; try destruct sb; try destruct sc;
    try discriminate;
    change (Pos.compare_cont Eq) with Pos.compare;
    destruct (Z.compare_spec ea eb), (Z.compare_spec eb ec),
             (Z.compare_spec ea ec);
    subst; try discriminate; try lia;
    destruct (Pos.compare_spec ma mb), (Pos.compare_spec mb mc),
             (Pos.compare_spec ma mc);
    subst; simpl; try discriminate; try lia.
Qed.

Lemma sort_desc_with_key (k : float) (l : list ProcInfo.t) :
  with_key k (sort_desc l) = with_key k l.
Proof.
  induction l as [|x l IH]; simpl; [reflexivity|].
  rewrite insert_desc_with_key. unfold with_key in *. simpl. now rewrite IH.
Qed.

(** When the sort returns, no key that it compared was [None] or NaN. *)
Lemma get_process_info_ok (procs : list proc_read) (limit : Z)
    (res : list ProcInfo.t) :
  get_process_info procs limit = Some (inr res) ->
  res = slice_to (sort_desc (readable_processes procs)) limit
  /\ ((length (readable_processes procs) < 2)%nat
      \/ Forall (fun p => PrimFloat.is_nan (cpu_key p) = false)
           (readable_processes procs)).
Proof.
  unfold get_process_info.
  destruct (2 <=? length (readable_processes procs))%nat eqn:E2.
  - cbn [andb].
    destruct (existsb (fun p => bool_decide (ProcInfo.cpu_percent p = None))
                (readable_processes procs)); [discriminate|].
    destruct (existsb (fun p => PrimFloat.is_nan (cpu_key p))
                (readable_processes procs)) eqn:En; [discriminate|].
    intros [= <-]. split; [reflexivity|]. right.
    apply List.Forall_forall. intros p Hp.
    destruct (PrimFloat.is_nan (cpu_key p)) eqn:Ep; [|reflexivity].
    assert (Hex : existsb (fun p => PrimFloat.is_nan (cpu_key p))
                    (readable_processes procs) = true)
      by (apply existsb_exists; now exists p).
    congruence.
  - cbn [andb]. intros [= <-]. split; [reflexivity|]. left.
    apply Nat.leb_gt in E2. exact E2.
Qed.

Lemma short_sorted (l : list ProcInfo.t) :
  (length l < 2)%nat -> StronglySorted cpu_ge l.
Proof.
  destruct l as [|x [|y l]]; simpl; intros H; try lia; repeat constructor.
Qed.

Lemma slice_to_split {A : Type} (l : list A) (limit : Z) :
  exists rest : list A,
    l = slice_to l limit ++ rest
    /\ Z.of_nat (length (slice_to l limit))
       = (if limit <? 0 then Z.max 0 (Z.of_nat (length l) + limit)
          else Z.min limit (Z.of_nat (length l))).
Proof.
  unfold slice_to. destruct (limit <? 0) eqn:E.
  - exists (drop (Z.to_nat (Z.of_nat (length l) + limit)) l).
    rewrite take_drop, length_take. split; [reflexivity|]. lia.
  - exists (drop (Z.to_nat limit) l).
    rewrite take_drop, length_take. split; [reflexivity|].
    apply Z.ltb_ge in E. lia.
Qed.

(** X23. When [get_process_info] returns, the result holds the processes
    whose info could be read, sorted by descending cpu_percent and cut to
    [limit] entries (for a negative limit: all but the last [-limit]
    entries); what is cut off uses no more CPU than anything that is
    kept. *)
Theorem X23_busiest_processes (procs : list proc_read) (limit : Z)
    (res : list ProcInfo.t) :
  get_process_info procs limit = Some (inr res) ->
  StronglySorted cpu_ge res
  /\ Z.of_nat (length res)
     = (if limit <? 0
        then Z.max 0 (Z.of_nat (length (readable_processes procs)) + limit)
        else Z.min limit (Z.of_nat (length (readable_processes procs))))
  /\ exists rest : list ProcInfo.t,
       Permutation (res ++ rest) (readable_processes procs)
       /\ forall a b : ProcInfo.t, a ∈ res -> b ∈ rest -> cpu_ge a b.
Proof.
  intros H. apply get_process_info_ok in H. destruct H as [-> Hok].
  assert (Hs : StronglySorted cpu_ge (sort_desc (readable_processes procs))).
  { destruct Hok as [Hshort|Hnan]; [|now apply sort_desc_sorted].
    apply short_sorted.
    now rewrite (Permutation_length (sort_desc_perm _)). }
  destruct (slice_to_split (sort_desc (readable_processes procs)) limit)
    as (rest & Hsplit & Hlen).
  rewrite (Permutation_length (sort_desc_perm _)) in Hlen.
  rewrite Hsplit in Hs. apply StronglySorted_app in Hs.
  destruct Hs as (Hcut & Hres & _).
  split; [exact Hres|]. split; [exact Hlen|].
  exists rest. split; [|exact Hcut].
  rewrite <- Hsplit. apply sort_desc_perm.
Qed.

Lemma X23_busiest_processes_witness :
  StronglySorted cpu_ge
    [ProcInfo.mk 7 (Some "b") (Some 50%float) None None;
     ProcInfo.mk 9 (Some "c") (Some 20%float) None None].
Proof.
  apply (X23_busiest_processes
           [Info (ProcInfo.mk 3 (Some "a") (Some 5%float) None None);
            AccessDenied;
            Info (ProcInfo.mk 7 (Some "b") (Some 50%float) None None);
            Info (ProcInfo.mk 9 (Some "c") (Some 20%float) None None)] 2).
  reflexivity.
Defined.

(** X24. The sort is stable: in the full list (a limit of at least the
    number of processes) the processes that have the same cpu_percent appear
    in the order in which the process iteration produced them. *)
Theorem X24_equal_cpu_keeps_order (procs : list proc_read) (limit : Z)
    (res : list ProcInfo.t) (k : float) :
  get_process_info procs limit = Some (inr res) ->
  Z.of_nat (length (readable_processes procs)) <= limit ->
  with_key k res = with_key k (readable_processes procs).
Proof.
  intros H Hl. apply get_process_info_ok in H. destruct H as [-> _].
  unfold slice_to. rewrite (proj2 (Z.ltb_ge _ _)) by lia.
  rewrite take_ge.
  - apply sort_desc_with_key.
  - rewrite (Permutation_length (sort_desc_perm _)). lia.
Qed.

Lemma X24_equal_cpu_keeps_order_witness :
  with_key 5
    [ProcInfo.mk 7 (Some "b") (Some 50%float) None None;
     ProcInfo.mk 3 (Some "a") (Some 5%float) None None;
     ProcInfo.mk 9 (Some "c") (Some 5%float) None None]
  = with_key 5
      (readable_processes
         [Info (ProcInfo.mk 3 (Some "a") (Some 5%float) None None);
          Info (ProcInfo.mk 7 (Some "b") (Some 50%float) None None);
          Info (ProcInfo.mk 9 (Some "c") (Some 5%float) None None)]).
Proof.
  apply (X24_equal_cpu_keeps_order
           [Info (ProcInfo.mk 3 (Some "a") (Some 5%float) None None);
            Info (ProcInfo.mk 7 (Some "b") (Some 50%float) None None);
            Info (ProcInfo.mk 9 (Some "c") (Some 5%float) None None)] 10).
  - reflexivity.
  - simpl. lia.
Defined.

(** X25. [get_process_info] raises exactly when the sort has something to
    compare with a cpu_percent that psutil could not read: [TypeError], when
    at least two processes could be read and the cpu_percent of one of them
    is [None].  A process whose info could not be read at all is left out
    and never causes an error. *)
Theorem X25_unreadable_cpu_raises (procs : list proc_read) (limit : Z) :
  (forall e : py_exn,
     get_process_info procs limit = Some (inl e)
     <-> e = TypeError
         /\ (2 <= length (readable_processes procs))%nat
         /\ exists p : ProcInfo.t,
              p ∈ readable_processes procs /\ ProcInfo.cpu_percent p = None)
  /\ (forall pre post : list proc_read,
        procs = pre ++ post ->
        get_process_info (pre ++ NoSuchProcess :: post) limit
        = get_process_info procs limit
        /\ get_process_info (pre ++ AccessDenied :: post) limit
           = get_process_info procs limit).
Proof.
  split.
  - intros e. unfold get_process_info.
    destruct (2 <=? length (readable_processes procs))%nat eqn:E2;
      cbn [andb].
    + destruct (existsb (fun p => bool_decide (ProcInfo.cpu_percent p = None))
                  (readable_processes procs)) eqn:Ex.
      * apply existsb_exists in Ex. destruct Ex as (p & Hp & Hn).
        apply bool_decide_eq_true in Hn. split.
        -- intros [= <-]. split; [reflexivity|].
           split; [now apply Nat.leb_le|].
           exists p. split; [now apply list_elem_of_In|exact Hn].
        -- now intros (-> & _).
      * split.
        -- intros H. destruct (existsb _ _) in H; discriminate H.
        -- intros (_ & _ & p & Hp & Hn).
           assert (Hex : existsb
                     (fun p => bool_decide (ProcInfo.cpu_percent p = None))
                     (readable_processes procs) = true).
           { apply existsb_exists. exists p.
             split; [now apply list_elem_of_In|].
             now apply bool_decide_eq_true. }
           congruence.
    + split; [intros H; discriminate H|]. intros (_ & H2 & _).
      apply Nat.leb_gt in E2. lia.
  - intros pre post ->. unfold get_process_info, readable_processes.
    rewrite !omap_app. cbn [omap list_omap]. rewrite <- !omap_app. 
    split; reflexivity.
Qed.

Lemma X25_unreadable_cpu_raises_witness :
  get_process_info
    ([Info (ProcInfo.mk 3 (Some "a") (Some 5%float) None None)]
     ++ NoSuchProcess
     :: [Info (ProcInfo.mk 7 None None None None)]) 10
  = get_process_info
      [Info (ProcInfo.mk 3 (Some "a") (Some 5%float) None None);
       Info (ProcInfo.mk 7 None None None None)] 10.
Proof.
  apply (proj2 (X25_unreadable_cpu_raises
                  [Info (ProcInfo.mk 3 (Some "a") (Some 5%float) None None);
                   Info (ProcInfo.mk 7 None None None None)] 10)
           [Info (ProcInfo.mk 3 (Some "a") (Some 5%float) None None)]
           [Info (ProcInfo.mk 7 None None None None)]).
  reflexivity.
Defined.
